(** * Goodreads recommendation pipeline: downsampling.py and modeling.py

    A shallow embedding of the two scripts.  Data frames are lists of rows
    in engine order, the Spark operations the scripts call are list
    functions, the engine's pseudo-random generator and the MLlib
    estimators are an interface ([Engine]), and the Python side effects
    (printing, fitting, scoring, raising) live in a small trace-and-error
    monad ([Py]). *)

From Stdlib Require Import ZArith QArith Qround List String Bool Lia Arith.
From Stdlib Require Import Permutation.
Import ListNotations.

Open Scope Z_scope.
Open Scope list_scope.

(* ================================================================== *)
(** * Interaction records (create_schema) *)

(** The five integer columns of the schema.  Null cells are not
    modelled: every column of every row holds an integer. *)

Record Row : Type := mkRow
  { user_id : Z; book_id : Z; is_read : Z; rating : Z; is_reviewed : Z }.

(** Column names of the schema; the scripts pass them around as strings. *)
Inductive ColName : Type :=
  UserId | BookId | IsRead | Rating | IsReviewed.

Definition col (c : ColName) (r : Row) : Z :=
  match c with
  | UserId => user_id r
  | BookId => book_id r
  | IsRead => is_read r
  | Rating => rating r
  | IsReviewed => is_reviewed r
  end.

Definition DataFrame : Type := list Row.

Definition Row_eq_dec (a b : Row) : {a = b} + {a <> b}.
Proof. repeat decide equality. Defined.

Definition Row_eqb (a b : Row) : bool :=
  if Row_eq_dec a b then true else false.

(** A row of [model.transform(val_data)]: the input columns and the
    [prediction] column. *)
Record PredRow : Type := mkPred { base : Row; prediction : Q }.

(* ================================================================== *)
(** * Python values and effects *)

Module Py.

Inductive exn : Type :=
| ZeroDivisionError
| UnboundLocalError (name : string)
| ValueError
| TypeError
| IndexError
| NameError (name : string).

Inductive outcome (A : Type) : Type :=
| Returned (a : A)
| Raised (e : exn).
Arguments Returned {A} a.
Arguments Raised {A} e.

(** Parameters handed to the [ALS] constructor in [tuning_als]. *)
Record ALS : Type := mkALS
  { als_rank : Z; als_maxIter : Z; als_regParam : Q; als_seed : Z;
    als_userCol : ColName; als_itemCol : ColName; als_ratingCol : ColName }.

(** What the scripts print.  Constant messages are kept verbatim, the
    formatted ones keep the values that are formatted. *)
Inductive Line : Type :=
| Text (s : string)
| RemovedUsers (percent : Q) (threshold : Z)
| Downsampled (percent : Q) (rows users : nat)
| KeepingPercent (percent : Z)
| StartConfiguration (n : nat)
| FinishConfiguration (n : nat).

(** Observable actions, in program order. *)
Inductive Event : Type :=
| Print (l : Line)
| Fit (als : ALS)
| Transform
| Evaluate (metric : string).

(** A computation: the events it performed and how it ended. *)
Definition M (A : Type) : Type := (list Event * outcome A)%type.

Definition ret {A} (a : A) : M A := ([], Returned a).
Definition raise {A} (e : exn) : M A := ([], Raised e).
Definition emit (e : Event) : M unit := ([e], Returned tt).
Definition print (l : Line) : M unit := emit (Print l).

Definition bind {A B} (m : M A) (f : A -> M B) : M B :=
  match m with
  | (t, Returned a) => let (t', r) := f a in (t ++ t', r)
  | (t, Raised e) => (t, Raised e)
  end.

Definition events {A} (m : M A) : list Event := fst m.
Definition result {A} (m : M A) : outcome A := snd m.

(** Reading a local variable that may not have been assigned. *)
Definition local {A} (name : string) (v : option A) : M A :=
  match v with
  | Some a => ret a
  | None => raise (UnboundLocalError name)
  end.

(** [a / b] on two counts. *)
Definition truediv (a b : nat) : M Q :=
  match b with
  | O => raise ZeroDivisionError
  | S _ => ret (Qmake (Z.of_nat a) (Pos.of_nat b))
  end.

(** [round(x, ndigits)]: nearest multiple of [10^-ndigits], ties to the
    even neighbour. *)
Definition round (x : Q) (ndigits : nat) : Q :=
  let scale := Nat.iter ndigits (Pos.mul 10) 1%positive in
  let n := Qnum x * Z.pos scale in
  let d := Z.pos (Qden x) in
  let f := n / d in
  let r := n mod d in
  let up :=
    match 2 * r ?= d with
    | Lt => false
    | Gt => true
    | Eq => Z.odd f
    end in
  Qmake (if up then f + 1 else f) scale.

(** [int(x)] truncates towards zero. *)
Definition int (x : Q) : Z := Z.quot (Qnum x) (Z.pos (Qden x)).

(** [x(arg)] where [x] is a float: a float is not callable. *)
Definition call_float {A} (x : Q) (arg : Z) : M A := raise TypeError.

(** [l[i]]. *)
Definition index {A} (l : list A) (i : nat) : M A :=
  match nth_error l i with
  | Some a => ret a
  | None => raise IndexError
  end.

End Py.

Notation "x <- c1 ;; c2" := (Py.bind c1 (fun x => c2))
  (at level 61, c1 at next level, right associativity).
Notation "c1 ;;; c2" := (Py.bind c1 (fun _ => c2))
  (at level 61, right associativity).

(* ================================================================== *)
(** * The engine behind the scripts *)

(** What the scripts borrow from Spark and MLlib: the seeded generator
    behind [sample], [sampleBy] and [randomSplit], the ALS estimator and
    the metric evaluators. *)
Class Engine : Type :=
  { (** 53 random bits for the [i]-th row visited under [seed] *)
    next53 : Z -> nat -> Z;
    ALSModel : Type;
    als_fit : Py.ALS -> DataFrame -> ALSModel;
    als_transform : ALSModel -> DataFrame -> list PredRow;
    (** [RegressionEvaluator(metricName, labelCol, predictionCol).evaluate] *)
    regression_evaluate : string -> ColName -> list PredRow -> Q;
    (** [RankingMetrics(rdd)] over (predicted items, actual items) pairs:
        [precisionAt] and [ndcgAt] are methods taking the cut-off,
        [meanAveragePrecision] is a property, a number with no argument *)
    precisionAt : list (list Z * list Z) -> Z -> Q;
    meanAveragePrecision : list (list Z * list Z) -> Q;
    ndcgAt : list (list Z * list Z) -> Z -> Q }.

(* ================================================================== *)
(** * Data-frame operations used by the scripts *)

Module Spark.

Section Relational.

(** [df.select(c).distinct()] *)
Definition distinct_col (c : ColName) (df : DataFrame) : list Z :=
  nodup Z.eq_dec (map (col c) df).

(** [df.join(keys, on=c, how='inner').select(df.schema.names)] where
    [keys] is a one-column frame: every row once per matching key. *)
Definition join_on (c : ColName) (df : DataFrame) (keys : list Z)
  : DataFrame :=
  flat_map (fun r => map (fun _ => r) (filter (Z.eqb (col c r)) keys)) df.

(** [a.subtract(b)]: EXCEPT DISTINCT, the distinct rows of [a] that do
    not occur in [b]. *)
Definition subtract (a b : DataFrame) : DataFrame :=
  nodup Row_eq_dec (filter (fun r => negb (existsb (Row_eqb r) b)) a).

(** [a.union(b)] keeps duplicates. *)
Definition union (a b : DataFrame) : DataFrame := a ++ b.

(** [df.groupBy(c).count()] *)
Definition groupBy_count (c : ColName) (df : DataFrame) : list (Z * nat) :=
  map (fun u => (u, count_occ Z.eq_dec (map (col c) df) u))
      (distinct_col c df).

End Relational.

(** [x < y] on scores and draws. *)
Definition Qltb (x y : Q) : bool := negb (Qle_bool y x).

(** Keep the elements whose position and value pass [keep]; positions
    count from [i]. *)
Fixpoint filter_pos {A} (keep : nat -> A -> bool) (i : nat) (l : list A)
  : list A :=
  match l with
  | [] => []
  | x :: t =>
      if keep i x then x :: filter_pos keep (S i) t
      else filter_pos keep (S i) t
  end.

Section Sampling.
Context `{Engine}.

(** The [i]-th uniform draw in [0, 1) under [seed]. *)
Definition rand (seed : Z) (i : nat) : Q :=
  Qmake (next53 seed i mod 2 ^ 53) (2 ^ 53).

(** [df.sample(False, fraction, seed)]: Bernoulli sampling, a row is
    kept when its draw is below the fraction. *)
Definition sample {A} (fraction : Q) (seed : Z) (df : list A) : list A :=
  filter_pos (fun i _ => Qltb (rand seed i) fraction) 0 df.

(** A Python dict built from a list of pairs: the last binding of a
    key wins. *)
Definition dict_get (d : list (Z * Q)) (k : Z) : option Q :=
  option_map snd (find (fun kv => Z.eqb (fst kv) k) (rev d)).

(** [df.sampleBy(c, fractions, seed)]: a row is kept when its draw is
    below the fraction of its stratum, 0 for a stratum not listed. *)
Definition sampleBy (c : ColName) (fractions : list (Z * Q)) (seed : Z)
           (df : DataFrame) : DataFrame :=
  filter_pos
    (fun i r =>
       Qltb (rand seed i)
            (match dict_get fractions (col c r) with
             | Some f => f
             | None => 0%Q
             end))
    0 df.

(** Running sums of the normalised weights, starting at 0. *)
Fixpoint scan_weights (acc total : Q) (weights : list Q) : list Q :=
  match weights with
  | [] => [acc]
  | w :: t => acc :: scan_weights (acc + w / total)%Q total t
  end.

Fixpoint sliding2 (bounds : list Q) : list (Q * Q) :=
  match bounds with
  | lo :: ((hi :: _) as t) => (lo, hi) :: sliding2 t
  | _ => []
  end.

(** [df.randomSplit(weights, seed)]: one frame per weight; the same
    draw decides for every frame, a row goes to the frame whose
    interval of cumulative weights contains its draw.  The list order
    stands for the order in which the engine visits the rows. *)
Definition randomSplit {A} (weights : list Q) (seed : Z) (df : list A)
  : list (list A) :=
  let total := fold_right Qplus 0%Q weights in
  map (fun b : Q * Q =>
         filter_pos
           (fun i _ => Qle_bool (fst b) (rand seed i)
                       && Qltb (rand seed i) (snd b))
           0 df)
      (sliding2 (scan_weights 0%Q total weights)).

End Sampling.

End Spark.

(* ================================================================== *)
(** * downsampling.py *)

Module Downsampling.

Section Downsampling.
Context `{Engine}.

(** The frame computed on line 38: the users with at least
    [threshold] interactions. *)
Definition user_id_frequent (data : DataFrame) (user : ColName)
           (threshold : Z) : list Z :=
  map fst
      (filter (fun uc : Z * nat => threshold <=? Z.of_nat (snd uc))
              (Spark.groupBy_count user data)).

Definition get_frequent_user (data : DataFrame) (user : ColName)
           (threshold : Z) : Py.M (list Z) :=
  let n_users := List.length (Spark.distinct_col user data) in
  let n_samples := List.length data in
  let user_id_frequent := user_id_frequent data user threshold in
  ratio <- Py.truediv (List.length user_id_frequent) n_users ;;
  Py.print (Py.RemovedUsers (Py.round ((1 - ratio) * 100)%Q 2) threshold) ;;;
  Py.ret user_id_frequent.

Definition downsampling (data : DataFrame) (user_df : list Z)
           (user : ColName) (percentage : Q) : Py.M DataFrame :=
  let user_id_1_perc := Spark.sample percentage 123 user_df in
  let downsample_data := Spark.join_on user data user_id_1_perc in
  Py.print (Py.Downsampled
              (percentage * 100)%Q
              (List.length downsample_data)
              (List.length (Spark.distinct_col user downsample_data))) ;;;
  Py.ret downsample_data.

Definition create_subset (data : DataFrame) (threshold : Z)
           (percentage : Q) (user : ColName) : Py.M DataFrame :=
  Py.print (Py.Text "Removing lower-interaction users.") ;;;
  freq_user <- get_frequent_user data user threshold ;;
  Py.print (Py.KeepingPercent (Py.int (percentage * 100)%Q)) ;;;
  downsampling data freq_user user percentage.

End Downsampling.

End Downsampling.

(* ================================================================== *)
(** * Window functions and numpy helpers used by modeling.py *)

Module Window.

Section Rank.
Context {A : Type} (part : A -> Z) (key : A -> Q).

(** Insert [x] in a list sorted by [key] descending, before the first
    element that does not beat it. *)
Fixpoint insert_desc (x : A) (l : list A) : list A :=
  match l with
  | [] => [x]
  | y :: t =>
      if Qle_bool (key y) (key x) then x :: l else y :: insert_desc x t
  end.

Definition sort_desc (l : list A) : list A := fold_right insert_desc [] l.

(** SQL [rank()]: one more than the number of rows of the partition
    that come strictly before in the ordering. *)
Definition sql_rank (p : list A) (x : A) : Z :=
  1 + Z.of_nat (List.length (filter (fun y => Spark.Qltb (key x) (key y)) p)).

(** [rank().over(Window.partitionBy(part).orderBy(key.desc()))]: the
    rows partition by partition, each partition sorted, each row with
    its rank. *)
Definition rank_over (rows : list A) : list (A * Z) :=
  flat_map
    (fun u =>
       let p := sort_desc (filter (fun r => part r =? u) rows) in
       map (fun r => (r, sql_rank p r)) p)
    (nodup Z.eq_dec (map part rows)).

(** [.where('rank <= k')] *)
Definition where_rank_le (k : Z) (ranked : list (A * Z)) : list A :=
  map fst (filter (fun rk : A * Z => snd rk <=? k) ranked).

End Rank.

(** [.groupBy(user).agg(collect_list(item))] *)
Definition collect_list {A} (user item : A -> Z) (rows : list A)
  : list (Z * list Z) :=
  map (fun u => (u, map item (filter (fun r => user r =? u) rows)))
      (nodup Z.eq_dec (map user rows)).

End Window.

Module Np.

(** Index of the first strict minimum seen so far. *)
Fixpoint argmin_from (best_i : nat) (best : Q) (i : nat) (l : list Q) : nat :=
  match l with
  | [] => best_i
  | x :: t =>
      if Spark.Qltb x best then argmin_from i x (S i) t
      else argmin_from best_i best (S i) t
  end.

Fixpoint argmax_from (best_i : nat) (best : Q) (i : nat) (l : list Q) : nat :=
  match l with
  | [] => best_i
  | x :: t =>
      if Spark.Qltb best x then argmax_from i x (S i) t
      else argmax_from best_i best (S i) t
  end.

(** [np.argmin(l)]: first index of the smallest element. *)
Definition argmin (l : list Q) : Py.M nat :=
  match l with
  | [] => Py.raise Py.ValueError
  | x :: t => Py.ret (argmin_from 0 x 1 t)
  end.

(** [np.argmax(l)]: first index of the largest element. *)
Definition argmax (l : list Q) : Py.M nat :=
  match l with
  | [] => Py.raise Py.ValueError
  | x :: t => Py.ret (argmax_from 0 x 1 t)
  end.

End Np.

(* ================================================================== *)
(** * modeling.py *)

Module Modeling.

(** The dict [tuning_table]: one list per key, appended to in step.  The
    third key is the metric's name; it can only coincide with "rank" or
    "regParam" for a name the tuner does not recognise, and then no score
    is ever stored under it. *)
Record TuningTable : Type := mkTable
  { t_rank : list Z; t_regParam : list Q;
    t_metrics_name : string; t_metrics : list Q }.

(** The dict [best_param_dict]. *)
Record BestParam : Type := mkBest
  { b_rank : Z; b_regParam : Q; b_metrics_name : string; b_metrics : Q }.

Definition regression_names : list string := ["rmse"; "mae"; "r2"]%string.
Definition ranking_names : list string :=
  ["precisionAt"; "meanAveragePrecision"; "ndcgAt"]%string.

(** [name in names] *)
Definition member (name : string) (names : list string) : bool :=
  existsb (String.eqb name) names.

(** [for x in l: st = body(st, x)] *)
Fixpoint for_each {S X} (body : S -> X -> Py.M S) (st : S) (l : list X)
  : Py.M S :=
  match l with
  | [] => Py.ret st
  | x :: t => st' <- body st x ;; for_each body st' t
  end.

Definition enumerate {X} (l : list X) : list (nat * X) :=
  combine (seq 0 (List.length l)) l.

Section Modeling.
Context `{Engine}.

Definition customized_split_func (data train : DataFrame)
           (val_user : list Z) (user : ColName) (set_seed : Z)
  : DataFrame * DataFrame :=
  let val_data_temp := Spark.join_on user data val_user in
  let val_frac := map (fun uid => (uid, 0.5%Q)) val_user in
  let val_data := Spark.sampleBy user val_frac set_seed val_data_temp in
  let train_val_data :=
    Spark.union train (Spark.subtract val_data_temp val_data) in
  (train_val_data, val_data).

Definition train_val_test_split (data : DataFrame) (user : ColName)
  : DataFrame * DataFrame * DataFrame :=
  let user_train_val_test_split :=
    Spark.randomSplit [0.6; 0.2; 0.2]%Q 123
                      (Spark.distinct_col user data) in
  let train_data :=
    Spark.join_on user data (nth 0 user_train_val_test_split []) in
  let '(train_data, val_data) :=
    customized_split_func data train_data
                          (nth 1 user_train_val_test_split []) user 123 in
  let '(train_data, test_data) :=
    customized_split_func data train_data
                          (nth 2 user_train_val_test_split []) user 123 in
  (train_data, val_data, test_data).

(** The three frames built by [top_k_rankingmetrics] before the
    metric is read off. *)
Definition perUserPredictedItemsDF (dataset : list PredRow) (k : Z)
           (user item : ColName) : list (Z * list Z) :=
  Window.collect_list
    (fun r => col user (base r)) (fun r => col item (base r))
    (Window.where_rank_le k
       (Window.rank_over (fun r => col user (base r)) prediction dataset)).

Definition perUserActualItemsDF (dataset : list PredRow) (k : Z)
           (user item rating : ColName) : list (Z * list Z) :=
  Window.collect_list
    (fun r => col user (base r)) (fun r => col item (base r))
    (Window.where_rank_le k
       (Window.rank_over (fun r => col user (base r))
                         (fun r => inject_Z (col rating (base r)))
                         dataset)).

Definition perUserItemsRDD (dataset : list PredRow) (k : Z)
           (user item rating : ColName) : list (list Z * list Z) :=
  flat_map
    (fun p : Z * list Z =>
       map (fun a : Z * list Z => (snd p, snd a))
           (filter (fun a : Z * list Z => fst p =? fst a)
                   (perUserActualItemsDF dataset k user item rating)))
    (perUserPredictedItemsDF dataset k user item).

(** [precisionAt(k)] and [ndcgAt(k)] are method calls.  Under
    "meanAveragePrecision" the source writes [meanAveragePrecision(k)]:
    reading the property computes the number, and the call then applies
    that number to [k]. *)
Definition top_k_rankingmetrics (dataset : option (list PredRow)) (k : Z)
           (ranking_metrics : string) (user item rating : ColName)
  : Py.M (option Q) :=
  match dataset with
  | None =>
      Py.print (Py.Text "Error! Please specify a dataset.") ;;;
      Py.ret None
  | Some dataset =>
      let ranking_metrics_evaluator :=
        perUserItemsRDD dataset k user item rating in
      if (ranking_metrics =? "precisionAt")%string then
        Py.emit (Py.Evaluate ranking_metrics) ;;;
        Py.ret (Some (precisionAt ranking_metrics_evaluator k))
      else if (ranking_metrics =? "meanAveragePrecision")%string then
        Py.emit (Py.Evaluate ranking_metrics) ;;;
        Py.call_float (meanAveragePrecision ranking_metrics_evaluator) k
      else if (ranking_metrics =? "ndcgAt")%string then
        Py.emit (Py.Evaluate ranking_metrics) ;;;
        Py.ret (Some (ndcgAt ranking_metrics_evaluator k))
      else Py.ret None
  end.

Definition user_items_prediction_df (dataset : list PredRow) (k : Z)
           (user : ColName) : list PredRow :=
  Window.where_rank_le k
    (Window.rank_over (fun r => col user (base r)) prediction dataset).

Definition top_k_regressionmetrics (dataset : option (list PredRow))
           (k : Z) (regression_metrics : string)
           (user item rating : ColName) : Py.M (option Q) :=
  match dataset with
  | None =>
      Py.print (Py.Text "Error! Please specify a dataset.") ;;;
      Py.ret None
  | Some dataset =>
      Py.emit (Py.Evaluate regression_metrics) ;;;
      Py.ret (Some (regression_evaluate
                      regression_metrics rating
                      (user_items_prediction_df dataset k user)))
  end.

(** Local variables of [tuning_als] that live across iterations;
    [metrics_result] is unassigned until a branch assigns it. *)
Record Locals : Type := mkLocals
  { tuning_table : TuningTable; metrics_result : option (option Q) }.

(** One iteration of the loop over [enumerate(param_combination)]. *)
Definition tuning_body (train_data val_data : DataFrame) (metrics : string)
           (k maxIter : Z) (user item rating : ColName)
           (st : Locals) (ip : nat * (Z * Q)) : Py.M Locals :=
  let i := fst ip in
  let params := snd ip in
  Py.print (Py.StartConfiguration (i + 1)) ;;;
  let rank := fst params in
  let regParam := snd params in
  let tt := tuning_table st in
  let tt := mkTable (t_rank tt ++ [rank]) (t_regParam tt)
                    (t_metrics_name tt) (t_metrics tt) in
  let tt := mkTable (t_rank tt) (t_regParam tt ++ [regParam])
                    (t_metrics_name tt) (t_metrics tt) in
  let als := Py.mkALS rank maxIter regParam 123 user item rating in
  Py.emit (Py.Fit als) ;;;
  let model := als_fit als train_data in
  Py.emit Py.Transform ;;;
  let val_pred := als_transform model val_data in
  metrics_result <-
    (if member metrics regression_names then
       r <- top_k_regressionmetrics (Some val_pred) k metrics
                                    user item rating ;;
       Py.ret (Some r)
     else if member metrics ranking_names then
       r <- top_k_rankingmetrics (Some val_pred) k metrics
                                 user item rating ;;
       Py.ret (Some r)
     else Py.ret (metrics_result st)) ;;
  Py.print (Py.FinishConfiguration (i + 1)) ;;;
  v <- Py.local "metrics_result" metrics_result ;;
  x <- match v with
       | Some x => Py.ret x
       | None => Py.raise Py.TypeError
       end ;;
  Py.ret (mkLocals
            (mkTable (t_rank tt) (t_regParam tt) (t_metrics_name tt)
                     (t_metrics tt ++ [Py.round x 4]))
            metrics_result).

Definition tuning_als (train_data val_data : option DataFrame)
           (rank_list : option (list Z)) (regParam_list : option (list Q))
           (metrics : option string) (k maxIter : Z)
           (user item rating : ColName)
  : Py.M (option (BestParam * TuningTable)) :=
  match rank_list, regParam_list with
  | Some rank_list, Some regParam_list =>
      match train_data, val_data with
      | Some train_data, Some val_data =>
          match metrics with
          | Some metrics =>
              let tuning_table := mkTable [] [] metrics [] in
              let param_combination := list_prod rank_list regParam_list in
              st <- for_each
                      (tuning_body train_data val_data metrics k maxIter
                                   user item rating)
                      (mkLocals tuning_table None)
                      (enumerate param_combination) ;;
              let tuning_table := Modeling.tuning_table st in
              best_index <-
                (if member metrics regression_names then
                   i <- Np.argmin (t_metrics tuning_table) ;;
                   Py.ret (Some i)
                 else if member metrics ranking_names then
                   i <- Np.argmax (t_metrics tuning_table) ;;
                   Py.ret (Some i)
                 else Py.ret None) ;;
              best_index <- Py.local "best_index" best_index ;;
              r <- Py.index (t_rank tuning_table) best_index ;;
              g <- Py.index (t_regParam tuning_table) best_index ;;
              s <- Py.index (t_metrics tuning_table) best_index ;;
              Py.ret (Some (mkBest r g metrics s, tuning_table))
          | None =>
              Py.print (Py.Text "Error! You must select a metric.") ;;;
              Py.ret None
          end
      | _, _ =>
          Py.print (Py.Text "Error! You must input the data sets.") ;;;
          Py.ret None
      end
  | _, _ =>
      Py.print (Py.Text "Error! Please enter rank_list or regParam_list.") ;;;
      Py.ret None
  end.

End Modeling.

End Modeling.

(* ================================================================== *)
(** * downsampling.py: index columns *)

Module Indexing.

(** [data.select(col_name).distinct()] with the column
    [row_number().over(Window.orderBy(monotonically_increasing_id()))]:
    the distinct values, numbered from 1 in the order of the frame. *)
Definition indexer (data : DataFrame) (col_name : ColName) : list (Z * Z) :=
  let values := Spark.distinct_col col_name data in
  combine values (map Z.of_nat (seq 1 (List.length values))).

(** [data.join(indexer, col_name)]: every row with the index of each
    indexer row that carries its value. *)
Definition create_repeated_index (data : DataFrame) (col_name : ColName)
  : list (Row * Z) :=
  flat_map
    (fun r =>
       map (fun vi : Z * Z => (r, snd vi))
           (filter (fun vi : Z * Z => col col_name r =? fst vi)
                   (indexer data col_name)))
    data.

(** [monotonically_increasing_id()]: the partition number shifted past
    the lower 33 bits, plus the record number within the partition. *)
Definition monotonically_increasing_id (partition record : nat) : Z :=
  Z.shiftl (Z.of_nat partition) 33 + Z.of_nat record.

(** [.cast(IntegerType())] of a long without ANSI checks: the low 32
    bits, read as a signed integer. *)
Definition cast_int (x : Z) : Z := (x + 2 ^ 31) mod 2 ^ 32 - 2 ^ 31.

(** [data.withColumn("row_index", ...)] on a frame given partition by
    partition. *)
Definition create_row_index (data : list (list Row))
  : list (list (Row * Z)) :=
  map (fun pp : nat * list Row =>
         map (fun ir : nat * Row =>
                (snd ir,
                 cast_int (monotonically_increasing_id (fst pp) (fst ir))))
             (Modeling.enumerate (snd pp)))
      (Modeling.enumerate data).

End Indexing.

(* ================================================================== *)
(** * modeling.py: unionAll and the script body *)

Module Driver.

(** [reduce(f, l)] without an initial value. *)
Definition reduce {A} (f : A -> A -> A) (l : list A) : Py.M A :=
  match l with
  | [] => Py.raise Py.TypeError
  | x :: t => Py.ret (fold_left f t x)
  end.

Definition unionAll (dataframes : list DataFrame) : Py.M DataFrame :=
  reduce Spark.union dataframes.

(** The command line after [int] and [eval] have been applied to it; the
    metric is absent when its flag is. *)
Record Args : Type := mkArgs
  { from_net_id : string; to_net_id : string; parquet_path : string;
    top_k : Z; metrics : option string; rank_list : list Z;
    regParam_list : list Q; path_of_model : string }.

(** The values formatted into one block of the history file; the
    elapsed time is left out. *)
Record History : Type := mkHistory
  { h_model_path : string; h_data : string; h_rank_list : list Z;
    h_regParam_list : list Q; h_tuning_hist : Modeling.TuningTable;
    h_best_rank : Z; h_best_regParam : Q; h_metrics : option string;
    h_test_result : Q }.

Section Script.
Context `{Engine}.

(** What the script body does beyond the events of the functions it
    calls. *)
Inductive Event : Type :=
| Script (e : Py.Event)
| FitOn (als : Py.ALS) (train : DataFrame)
| Show (rows : list PredRow)
| PrintElapsed
| Save (path : string) (model : ALSModel)
| OpenAppend (path : string)
| Write (h : History).

Definition M (A : Type) : Type := (list Event * Py.outcome A)%type.

Definition ret {A} (a : A) : M A := ([], Py.Returned a).
Definition raise {A} (e : Py.exn) : M A := ([], Py.Raised e).
Definition emit (e : Event) : M unit := ([e], Py.Returned tt).
Definition print (text : string) : M unit :=
  emit (Script (Py.Print (Py.Text text))).

Definition bind {A B} (m : M A) (f : A -> M B) : M B :=
  match m with
  | (t, Py.Returned a) => let (t', r) := f a in (t ++ t', r)
  | (t, Py.Raised e) => (t, Py.Raised e)
  end.

(** A call of one of the functions. *)
Definition call {A} (m : Py.M A) : M A := (map Script (fst m), snd m).

(** [x[i]] on the value [tuning_als] returned. *)
Definition subscript {A B} (x : option A) (field : A -> B) : M B :=
  match x with
  | Some a => ret (field a)
  | None => raise Py.TypeError
  end.

Notation "x <~ c1 ;; c2" := (bind c1 (fun x => c2))
  (at level 61, c1 at next level, right associativity).
Notation "c1 ;;~ c2" := (bind c1 (fun _ => c2))
  (at level 61, right associativity).

Definition main (args : Args) (data : DataFrame) : M unit :=
  let top_k := top_k args in
  let my_metrics := metrics args in
  let rank_list := rank_list args in
  let regParam_list := regParam_list args in
  let path_of_model := path_of_model args in
  let filename := parquet_path args in
  let to_hdfs_path :=
    ("hdfs:///user/" ++ to_net_id args ++ "/goodreads/")%string in
  let to_home_path := ("/home/" ++ to_net_id args ++ "/goodreads/")%string in
  print "Reading the data." ;;~
  print "Splitting the data set." ;;~
  let '(train_data, val_data, test_data) :=
    Modeling.train_val_test_split data UserId in
  print "Tuning the ALS model." ;;~
  tuning_result <~ call (Modeling.tuning_als
                           (Some train_data) (Some val_data)
                           (Some rank_list) (Some regParam_list) my_metrics
                           top_k 5 UserId BookId Rating) ;;
  tuning_hist <~ subscript tuning_result snd ;;
  best_config <~ subscript tuning_result fst ;;
  let best_rank := Modeling.b_rank best_config in
  let best_regParam := Modeling.b_regParam best_config in
  new_train_data <~ call (unionAll [train_data; val_data]) ;;
  print "Re-training on the train set and predicting on the test set." ;;~
  let als := Py.mkALS best_rank 5 best_regParam 123 UserId BookId Rating in
  emit (FitOn als new_train_data) ;;~
  let model := als_fit als new_train_data in
  let test_pred := als_transform model test_data in
  emit (Show (firstn 20 test_pred)) ;;~
  test_metrics <~
    match my_metrics with
    | Some name =>
        if Modeling.member name Modeling.regression_names then
          r <~ call (Modeling.top_k_regressionmetrics
                       (Some test_pred) top_k name UserId BookId Rating) ;;
          ret (Some r)
        else if Modeling.member name Modeling.ranking_names then
          r <~ call (Modeling.top_k_rankingmetrics
                       (Some test_pred) top_k name UserId BookId Rating) ;;
          ret (Some r)
        else ret None
    | None => ret None
    end ;;
  emit PrintElapsed ;;~
  print "Saving the estimator." ;;~
  emit (Save (to_hdfs_path ++ "models/" ++ path_of_model)%string model) ;;~
  print "Recording the tuning history." ;;~
  emit (OpenAppend
          (to_home_path ++ "history/" ++ "tuning_history.txt")%string) ;;~
  rounded <~
    match test_metrics with
    | Some (Some x) => ret (Py.round x 4)
    | Some None => raise Py.TypeError
    | None => raise (Py.NameError "test_metrics")
    end ;;
  emit (Write (mkHistory path_of_model filename rank_list regParam_list
                         tuning_hist best_rank best_regParam my_metrics
                         rounded)).

End Script.

End Driver.

(* ================================================================== *)
(** * Vocabulary of the statements *)

Section SplitVocabulary.
Context `{Engine}.

(** Number of rows of [data] whose [user] column is [u]. *)
Definition interactions (data : DataFrame) (user : ColName) (u : Z) : nat :=
  count_occ Z.eq_dec (map (col user) data) u.

(** The group a draw falls in under the weights 0.6, 0.2, 0.2. *)
Definition group_of (x : Q) : nat :=
  if Spark.Qltb x 0.6 then 0%nat
  else if Spark.Qltb x 0.8 then 1%nat
  else 2%nat.

(** The [j]-th frame of the user split. *)
Definition user_group (seed : Z) (j : nat) (users : list Z) : list Z :=
  Spark.filter_pos (fun i _ => Nat.eqb (group_of (Spark.rand seed i)) j)
                   0 users.

(** The rows of [df] that belong to user [u]. *)
Definition rows_of (user : ColName) (u : Z) (df : DataFrame) : DataFrame :=
  filter (fun r => col user r =? u) df.

(** The rows of the users of group [j], and the rows of that group that
    the stratified sample holds out. *)
Definition group_rows (data : DataFrame) (user : ColName) (j : nat)
  : DataFrame :=
  Spark.join_on user data (user_group 123 j (Spark.distinct_col user data)).

Definition held_out (data : DataFrame) (user : ColName) (j : nat)
  : DataFrame :=
  Spark.sampleBy
    user
    (map (fun uid => (uid, 0.5%Q))
         (user_group 123 j (Spark.distinct_col user data)))
    123 (group_rows data user j).

End SplitVocabulary.

Section SelectionVocabulary.
Variable better : Q -> Q -> bool.
Variable R : Q -> Q -> Prop.

(** The scan behind [np.argmin] and [np.argmax], for any comparison
    [better]: the index of the first element that beats all before it and
    is not beaten later. *)
Fixpoint arg_from (best_i : nat) (best : Q) (i : nat) (l : list Q) : nat :=
  match l with
  | [] => best_i
  | x :: t =>
      if better x best then arg_from i x (S i) t
      else arg_from best_i best (S i) t
  end.

(** [v] sits at index [j] of [L], nothing in [L] beats it, and it beats
    everything before it. *)
Definition first_best (L : list Q) (j : nat) (v : Q) : Prop :=
  nth_error L j = Some v
  /\ (forall y, In y L -> ~ R y v)
  /\ (forall m y, (m < j)%nat -> nth_error L m = Some y -> R v y).

End SelectionVocabulary.

Section TuningVocabulary.
Context `{Engine}.
Variables (train_data val_data : DataFrame) (metrics : string).
Variables (k maxIter : Z) (user item rating : ColName).

(** The estimator built for a grid point, its predictions on the
    validation set, and the score the evaluators give them under the
    names for which they return one. *)
Definition als_of (p : Z * Q) : Py.ALS :=
  Py.mkALS (fst p) maxIter (snd p) 123 user item rating.

Definition val_pred_of (p : Z * Q) : list PredRow :=
  als_transform (als_fit (als_of p) train_data) val_data.

Definition grid_score (p : Z * Q) : Q :=
  if Modeling.member metrics Modeling.regression_names then
    regression_evaluate
      metrics rating
      (Modeling.user_items_prediction_df (val_pred_of p) k user)
  else if (metrics =? "precisionAt")%string then
    precisionAt
      (Modeling.perUserItemsRDD (val_pred_of p) k user item rating) k
  else
    ndcgAt (Modeling.perUserItemsRDD (val_pred_of p) k user item rating) k.

(** The table after one more grid point, and what one iteration does. *)
Definition record_point (tt : Modeling.TuningTable) (p : Z * Q)
  : Modeling.TuningTable :=
  Modeling.mkTable
    (Modeling.t_rank tt ++ [fst p])
    (Modeling.t_regParam tt ++ [snd p])
    (Modeling.t_metrics_name tt)
    (Modeling.t_metrics tt ++ [Py.round (grid_score p) 4]).

Definition point_events (ip : nat * (Z * Q)) : list Py.Event :=
  [Py.Print (Py.StartConfiguration (fst ip + 1));
   Py.Fit (als_of (snd ip));
   Py.Transform;
   Py.Evaluate metrics;
   Py.Print (Py.FinishConfiguration (fst ip + 1))].

Definition recognised (name : string) : bool :=
  Modeling.member name Modeling.regression_names
  || Modeling.member name Modeling.ranking_names.

(** The table a full run records for a grid. *)
Definition full_table (grid : list (Z * Q)) : Modeling.TuningTable :=
  Modeling.mkTable
    (map fst grid) (map snd grid) metrics
    (map (fun p => Py.round (grid_score p) 4) grid).

End TuningVocabulary.

(** The estimators fitted and the metrics scored by a run, in order. *)
Definition fits (t : list Py.Event) : list Py.ALS :=
  flat_map (fun e => match e with Py.Fit a => [a] | _ => [] end) t.

Definition evaluations (t : list Py.Event) : list string :=
  flat_map (fun e => match e with Py.Evaluate m => [m] | _ => [] end) t.

Section WindowVocabulary.
Context {A : Type} (part : A -> Z) (key : A -> Q).

(** The rank of a row among the rows of its own partition: one more than
    the number of rows there with a strictly larger key. *)
Definition rank_in (rows : list A) (x : A) : Z :=
  1 + Z.of_nat
        (List.length
           (filter (fun y => (part y =? part x) && Spark.Qltb (key x) (key y))
                   rows)).

(** Keys never increase along the list. *)
Fixpoint descending (l : list A) : Prop :=
  match l with
  | [] => True
  | x :: t => (forall y, In y t -> (key y <= key x)%Q) /\ descending t
  end.

End WindowVocabulary.

(** The rows of user [u] the window keeps under the ordering [key], as
    the window lists them. *)
Definition top_k_of (dataset : list PredRow) (k : Z) (user : ColName)
           (key : PredRow -> Q) (u : Z) : list PredRow :=
  let p := Window.sort_desc
             key (filter (fun r => col user (base r) =? u) dataset) in
  filter (fun r => Window.sql_rank key p r <=? k) p.

Section ScriptVocabulary.
Context `{Engine}.

(** The final fits, the models saved, the files opened for appending and
    the history blocks written by a run of the script body, in order. *)
Definition refits (t : list Driver.Event) : list (Py.ALS * DataFrame) :=
  flat_map (fun e => match e with Driver.FitOn a d => [(a, d)] | _ => [] end)
           t.

Definition saved (t : list Driver.Event) : list (string * ALSModel) :=
  flat_map (fun e => match e with Driver.Save p m => [(p, m)] | _ => [] end)
           t.

Definition opened (t : list Driver.Event) : list string :=
  flat_map (fun e => match e with Driver.OpenAppend p => [p] | _ => [] end) t.

Definition written (t : list Driver.Event) : list Driver.History :=
  flat_map (fun e => match e with Driver.Write h => [h] | _ => [] end) t.

(** What the script body prints before it calls the tuner. *)
Definition announcements : list Driver.Event :=
  [Driver.Script (Py.Print (Py.Text "Reading the data."));
   Driver.Script (Py.Print (Py.Text "Splitting the data set."));
   Driver.Script (Py.Print (Py.Text "Tuning the ALS model."))].

(** The estimator the script body refits with, the score of its
    predictions on the test frame, and what the script body does once
    the tuner has returned [best] and [table]. *)
Definition final_als (best : Modeling.BestParam) : Py.ALS :=
  Py.mkALS (Modeling.b_rank best) 5 (Modeling.b_regParam best) 123
           UserId BookId Rating.

Definition test_score (train val test : DataFrame) (name : string) (top : Z)
           (best : Modeling.BestParam) : Q :=
  grid_score (train ++ val) test name top 5 UserId BookId Rating
             (Modeling.b_rank best, Modeling.b_regParam best).

Definition closing (args : Driver.Args) (train val test : DataFrame)
           (name : string) (best : Modeling.BestParam)
           (table : Modeling.TuningTable) : list Driver.Event :=
  let model := als_fit (final_als best) (train ++ val) in
  [Driver.Script
     (Py.Print
        (Py.Text
           "Re-training on the train set and predicting on the test set."));
   Driver.FitOn (final_als best) (train ++ val);
   Driver.Show (firstn 20 (als_transform model test));
   Driver.Script (Py.Evaluate name);
   Driver.PrintElapsed;
   Driver.Script (Py.Print (Py.Text "Saving the estimator."));
   Driver.Save
     (("hdfs:///user/" ++ Driver.to_net_id args ++ "/goodreads/")
      ++ "models/" ++ Driver.path_of_model args)%string
     model;
   Driver.Script (Py.Print (Py.Text "Recording the tuning history."));
   Driver.OpenAppend
     (("/home/" ++ Driver.to_net_id args ++ "/goodreads/")
      ++ "history/" ++ "tuning_history.txt")%string;
   Driver.Write
     (Driver.mkHistory
        (Driver.path_of_model args) (Driver.parquet_path args)
        (Driver.rank_list args) (Driver.regParam_list args) table
        (Modeling.b_rank best) (Modeling.b_regParam best)
        (Driver.metrics args)
        (Py.round (test_score train val test name (Driver.top_k args) best)
                  4))].

(** The exception the script body ends with when the tuner cannot
    deliver a best configuration. *)
Definition script_failure (args : Driver.Args) : Py.exn :=
  match Driver.metrics args with
  | None => Py.TypeError
  | Some name =>
      match list_prod (Driver.rank_list args) (Driver.regParam_list args) with
      | [] => if recognised name then Py.ValueError
              else Py.UnboundLocalError "best_index"
      | _ :: _ => Py.UnboundLocalError "metrics_result"
      end
  end.

End ScriptVocabulary.

(* ================================================================== *)
(** * Engines and tables for worked runs *)

Module Scenario.

(** An engine for worked runs: draws come from [bits], a fitted model is
    the estimator it was fitted from, [predict] gives the prediction of a
    model of a given rank for a row, the regression evaluator reads the
    first prediction it is given and the ranking metrics are
    [rank_metric]. *)
Definition engine (bits : Z -> nat -> Z) (predict : Z -> Row -> Q)
           (rank_metric : list (list Z * list Z) -> Q) : Engine :=
  {| next53 := bits;
     ALSModel := Py.ALS;
     als_fit := fun als _ => als;
     als_transform :=
       fun m val => map (fun r => mkPred r (predict (Py.als_rank m) r)) val;
     regression_evaluate :=
       fun _ _ rows =>
         match rows with
         | [] => 0%Q
         | r :: _ => prediction r
         end;
     precisionAt := fun pairs _ => rank_metric pairs;
     meanAveragePrecision := rank_metric;
     ndcgAt := fun pairs _ => rank_metric pairs |}.

Definition interaction (u b r : Z) : Row := mkRow u b 1 r 0.

(** Every draw is 0.75: the user lands in the validation group and no
    row is held out. *)
Definition draws_075 : Z -> nat -> Z := fun _ _ => 3 * 2 ^ 51.

(** Draw 0 is 0.75 and every later draw 0.25: the user lands in the
    validation group and the second row is held out. *)
Definition draws_075_025 : Z -> nat -> Z :=
  fun _ i => match i with O => 3 * 2 ^ 51 | S _ => 2 ^ 51 end.

(** Streams that agree under seed 123 and nowhere else. *)
Definition draws_seeded (other : Z) : Z -> nat -> Z :=
  fun seed i => if seed =? 123 then Z.of_nat i * 2 ^ 50 else other.

(** A model of rank 1 predicts 1.2 everywhere, any other rank 0.9. *)
Definition predict_rmse (rank : Z) (_ : Row) : Q :=
  if rank =? 1 then 1.2%Q else 0.9%Q.

(** A model of rank 1 prefers large book ids, any other rank small ones;
    the ranking metric is 0.61 when the predicted list of the only user
    equals the actual list and 0.55 otherwise. *)
Definition predict_order (rank : Z) (r : Row) : Q :=
  if rank =? 1 then inject_Z (book_id r) else (- inject_Z (book_id r))%Q.

Definition metric_order (pairs : list (list Z * list Z)) : Q :=
  match pairs with
  | [(p, a)] => if list_eq_dec Z.eq_dec p a then 0.61%Q else 0.55%Q
  | _ => 0%Q
  end.

Definition no_metric (_ : list (list Z * list Z)) : Q := 0%Q.

Definition rmse_engine : Engine := engine draws_075 predict_rmse no_metric.
Definition ndcg_engine : Engine := engine draws_075 predict_order metric_order.
Definition engine_075 : Engine := engine draws_075 predict_rmse no_metric.
Definition engine_075_025 : Engine :=
  engine draws_075_025 predict_rmse no_metric.
Definition seeded_engine (other : Z) : Engine :=
  engine (draws_seeded other) predict_rmse no_metric.

Definition two_rows : DataFrame := [interaction 1 10 5; interaction 1 20 3].
Definition repeated_row : DataFrame := [interaction 1 10 5; interaction 1 10 5].

End Scenario.

Module ScriptScenario.

Definition args (metrics : option string) (rank_list : list Z)
  : Driver.Args :=
  Driver.mkArgs "abc123" "xyz789" "subset.parquet" 10 metrics rank_list
                [0.1%Q] "als_model".

Definition three_users : DataFrame :=
  [Scenario.interaction 1 10 5; Scenario.interaction 2 10 4;
   Scenario.interaction 3 11 3; Scenario.interaction 1 11 2;
   Scenario.interaction 2 12 5; Scenario.interaction 3 12 1].

(** Draws 1/8, 5/8 and 7/8 from the third position on: of three users
    the first goes to training, the second to validation and the third to
    test, and of the rows of a user the first is held out. *)
Definition draws_mixed : Z -> nat -> Z :=
  fun _ i =>
    match i with
    | O => 2 ^ 50
    | S O => 5 * 2 ^ 50
    | _ => 7 * 2 ^ 50
    end.

Definition engine : Engine :=
  Scenario.engine draws_mixed Scenario.predict_rmse Scenario.no_metric.

(** Two partitions of two rows. *)
Definition two_partitions : list (list Row) :=
  [[Scenario.interaction 1 10 5; Scenario.interaction 1 11 2];
   [Scenario.interaction 2 10 4; Scenario.interaction 2 12 5]].

End ScriptScenario.

(* ================================================================== *)
(** * Facts about the monad *)

Section PyFacts.

Lemma bind_ret {A B} (a : A) (f : A -> Py.M B) :
  Py.bind (Py.ret a) f = f a.
Proof. unfold Py.bind, Py.ret. destruct (f a); reflexivity. Qed.

Lemma bind_emit {B} (e : Py.Event) (f : unit -> Py.M B) :
  Py.bind (Py.emit e) f = (e :: fst (f tt), snd (f tt)).
Proof. unfold Py.bind, Py.emit. destruct (f tt); reflexivity. Qed.

Lemma bind_raise {A B} (e : Py.exn) (f : A -> Py.M B) :
  Py.bind (Py.raise e) f = Py.raise e.
Proof. reflexivity. Qed.

Lemma bind_returned {A B} (t : list Py.Event) (a : A) (f : A -> Py.M B) :
  Py.bind (t, Py.Returned a) f = (t ++ fst (f a), snd (f a)).
Proof. unfold Py.bind. destruct (f a); reflexivity. Qed.

End PyFacts.

(* ================================================================== *)
(** * Facts about the data-frame operations *)

Section SparkFacts.

Lemma Row_eqb_eq (a b : Row) : Row_eqb a b = true <-> a = b.
Proof.
  unfold Row_eqb. destruct (Row_eq_dec a b); split; congruence.
Qed.

Lemma existsb_Row_In (r : Row) (l : DataFrame) :
  existsb (Row_eqb r) l = true <-> In r l.
Proof.
  rewrite existsb_exists. split.
  - intros [x [Hx He]]. apply Row_eqb_eq in He. now subst.
  - intros Hin. exists r. split; [assumption | now apply Row_eqb_eq].
Qed.

Lemma existsb_Z_In (u : Z) (l : list Z) :
  existsb (Z.eqb u) l = true <-> In u l.
Proof.
  rewrite existsb_exists. split.
  - intros [x [Hx He]]. apply Z.eqb_eq in He. now subst.
  - intros Hin. exists u. split; [assumption | apply Z.eqb_refl].
Qed.

Lemma length_filter_eqb (u : Z) (l : list Z) :
  List.length (filter (Z.eqb u) l) = count_occ Z.eq_dec l u.
Proof.
  induction l as [|x l IH]; simpl; [reflexivity|].
  destruct (Z.eqb_spec u x) as [->|Hne].
  - destruct (Z.eq_dec x x); [simpl; now rewrite IH | congruence].
  - destruct (Z.eq_dec x u); [congruence | assumption].
Qed.

Lemma count_occ_const_map (r r' : Row) (l : list Z) :
  count_occ Row_eq_dec (map (fun _ => r) l) r' =
  if Row_eq_dec r r' then List.length l else 0%nat.
Proof.
  induction l as [|x l IH]; simpl.
  - now destruct (Row_eq_dec r r').
  - destruct (Row_eq_dec r r'); simpl; now rewrite IH.
Qed.

(** An inner join repeats each row once per matching key. *)
Lemma count_occ_join_on (c : ColName) (df : DataFrame) (keys : list Z)
      (r : Row) :
  count_occ Row_eq_dec (Spark.join_on c df keys) r =
  (count_occ Row_eq_dec df r * count_occ Z.eq_dec keys (col c r))%nat.
Proof.
  unfold Spark.join_on.
  induction df as [|x df IH]; simpl; [reflexivity|].
  rewrite count_occ_app, IH, count_occ_const_map, length_filter_eqb.
  destruct (Row_eq_dec x r) as [->|Hne]; lia.
Qed.

Lemma In_join_on (c : ColName) (df : DataFrame) (keys : list Z) (r : Row) :
  In r (Spark.join_on c df keys) <-> In r df /\ In (col c r) keys.
Proof.
  unfold Spark.join_on. rewrite in_flat_map. split.
  - intros [x [Hx Hin]]. apply in_map_iff in Hin.
    destruct Hin as [u [<- Hu]]. apply filter_In in Hu.
    destruct Hu as [Hu He]. apply Z.eqb_eq in He. rewrite He. now split.
  - intros [Hr Hk]. exists r. split; [assumption|].
    apply in_map_iff. exists (col c r). split; [reflexivity|].
    apply filter_In. split; [assumption | apply Z.eqb_refl].
Qed.

(** Joining on keys that are distinct selects rows, in order. *)
Lemma join_on_NoDup (c : ColName) (df : DataFrame) (keys : list Z) :
  NoDup keys ->
  Spark.join_on c df keys =
  filter (fun r => existsb (Z.eqb (col c r)) keys) df.
Proof.
  intros Hnd. unfold Spark.join_on.
  induction df as [|x df IH]; simpl; [reflexivity|].
  rewrite IH. clear IH.
  assert (Hlen : List.length (filter (Z.eqb (col c x)) keys) =
                 if existsb (Z.eqb (col c x)) keys then 1%nat else 0%nat).
  { rewrite length_filter_eqb.
    destruct (existsb (Z.eqb (col c x)) keys) eqn:E.
    - apply existsb_Z_In in E.
      apply (proj1 (NoDup_count_occ' Z.eq_dec keys) Hnd) in E. exact E.
    - apply count_occ_not_In. intros Hin. apply existsb_Z_In in Hin.
      congruence. }
  destruct (filter (Z.eqb (col c x)) keys) as [|a [|b l]];
    destruct (existsb (Z.eqb (col c x)) keys); simpl in *;
    try discriminate; reflexivity.
Qed.

Lemma In_filter_pos {A} (keep : nat -> A -> bool) (i : nat) (l : list A)
      (x : A) :
  In x (Spark.filter_pos keep i l) -> In x l.
Proof.
  revert i. induction l as [|y l IH]; simpl; intros i Hin; [assumption|].
  destruct (keep i y).
  - destruct Hin as [->|Hin]; [now left | right; eauto].
  - right; eauto.
Qed.

Lemma NoDup_filter_pos {A} (keep : nat -> A -> bool) (i : nat) (l : list A) :
  NoDup l -> NoDup (Spark.filter_pos keep i l).
Proof.
  revert i. induction l as [|y l IH]; simpl; intros i Hnd; [constructor|].
  inversion Hnd as [|? ? Hy Hl]; subst.
  destruct (keep i y); [constructor|]; auto.
  intros Hin. apply Hy. eapply In_filter_pos; eassumption.
Qed.

Lemma In_distinct_col (c : ColName) (df : DataFrame) (u : Z) :
  In u (Spark.distinct_col c df) <-> exists r, In r df /\ col c r = u.
Proof.
  unfold Spark.distinct_col. rewrite nodup_In, in_map_iff.
  split; intros [r [H1 H2]]; exists r; tauto.
Qed.

Lemma NoDup_distinct_col (c : ColName) (df : DataFrame) :
  NoDup (Spark.distinct_col c df).
Proof. apply NoDup_nodup. Qed.

End SparkFacts.

(* ================================================================== *)
(** * downsampling.py: the frequency filter and the downsampler *)

Section DownsamplingFacts.
Context `{Engine}.


Lemma In_user_id_frequent (data : DataFrame) (user : ColName)
      (threshold u : Z) :
  In u (Downsampling.user_id_frequent data user threshold) <->
  In u (Spark.distinct_col user data) /\
  threshold <= Z.of_nat (interactions data user u).
Proof.
  unfold Downsampling.user_id_frequent, Spark.groupBy_count, interactions.
  rewrite in_map_iff. split.
  - intros [[v n] [Hv Hin]]. simpl in Hv. subst v.
    apply filter_In in Hin. destruct Hin as [Hin Hle]. simpl in Hle.
    apply in_map_iff in Hin. destruct Hin as [w [Hw Hin]].
    inversion Hw; subst. split; [assumption | now apply Z.leb_le].
  - intros [Hin Hle].
    exists (u, count_occ Z.eq_dec (map (col user) data) u).
    split; [reflexivity|]. apply filter_In. split.
    + apply in_map_iff. exists u. now split.
    + simpl. now apply Z.leb_le.
Qed.

Lemma NoDup_user_id_frequent (data : DataFrame) (user : ColName)
      (threshold : Z) :
  NoDup (Downsampling.user_id_frequent data user threshold).
Proof.
  unfold Downsampling.user_id_frequent, Spark.groupBy_count.
  set (f := fun u : Z => (u, count_occ Z.eq_dec (map (col user) data) u)).
  set (p := fun uc : Z * nat => threshold <=? Z.of_nat (snd uc)).
  assert (Hgen : forall l, NoDup l -> NoDup (map fst (filter p (map f l)))).
  { induction l as [|x l IH]; simpl; intros Hnd; [constructor|].
    inversion Hnd as [|? ? Hx Hl]; subst.
    destruct (p (f x)); simpl; [constructor|]; auto.
    intros Hin. apply Hx. apply in_map_iff in Hin.
    destruct Hin as [[v n] [Hv Hin]]. simpl in Hv. subst v.
    apply filter_In in Hin. destruct Hin as [Hin _].
    apply in_map_iff in Hin. destruct Hin as [w [Hw Hin]].
    unfold f in Hw. inversion Hw; subst. assumption. }
  apply Hgen, NoDup_distinct_col.
Qed.

(** The function returns the frame of line 38 on every table that has a
    row; on the empty table the reported percentage divides by zero. *)
Lemma get_frequent_user_result (data : DataFrame) (user : ColName)
      (threshold : Z) :
  Py.result (Downsampling.get_frequent_user data user threshold) =
  match data with
  | [] => Py.Raised Py.ZeroDivisionError
  | _ :: _ =>
      Py.Returned (Downsampling.user_id_frequent data user threshold)
  end.
Proof.
  unfold Downsampling.get_frequent_user.
  destruct (Spark.distinct_col user data) as [|u us] eqn:E.
  - destruct data as [|r data]; [reflexivity|].
    exfalso.
    assert (Hin : In (col user r) (Spark.distinct_col user (r :: data))).
    { apply In_distinct_col. exists r. split; [now left | reflexivity]. }
    rewrite E in Hin. exact Hin.
  - destruct data as [|r data]; [discriminate E|].
    reflexivity.
Qed.

End DownsamplingFacts.

Section DownsamplingClaims.
Context `{Engine}.

(** C2. The frequency filter keeps exactly the users of the table whose
    interaction count reaches the threshold: the frame it computes has
    no repeated user, lies inside the table's distinct users, contains a
    user of the table if and only if that user's count is at least the
    threshold, and is what [get_frequent_user] returns on every table
    that has a row (on the empty table the reporting line divides by
    zero before anything is returned). *)
Theorem get_frequent_user_exact (data : DataFrame) (user : ColName)
        (threshold : Z) :
  let kept := Downsampling.user_id_frequent data user threshold in
  Py.result (Downsampling.get_frequent_user data user threshold) =
    match data with
    | [] => Py.Raised Py.ZeroDivisionError
    | _ :: _ => Py.Returned kept
    end
  /\ incl kept (Spark.distinct_col user data)
  /\ NoDup kept
  /\ (forall u, In u (Spark.distinct_col user data) ->
                (In u kept <->
                 threshold <= Z.of_nat (interactions data user u)))
  /\ (forall u, In u (Spark.distinct_col user data) ->
                (~ In u kept <->
                 Z.of_nat (interactions data user u) < threshold)).
Proof.
  intros kept. split; [apply get_frequent_user_result|].
  split; [|split; [apply NoDup_user_id_frequent|split]].
  - intros u Hu. now apply In_user_id_frequent in Hu.
  - intros u Hu. unfold kept. rewrite In_user_id_frequent. tauto.
  - intros u Hu. unfold kept. rewrite In_user_id_frequent. split.
    + intros Hn. apply Z.nle_gt. tauto.
    + intros Hlt [_ Hle]. lia.
Qed.

(** C8. The downsampler returns rows of the input table, unchanged: the
    output is the join of the table with the sampled user ids, so every
    output row is an input row with its five attributes, and a row
    occurs in the output as often as in the input times the number of
    times its user was sampled (once or never when the user frame has no
    repeated id, as the frequency filter's output has not). *)
Theorem downsampling_selects_rows (data : DataFrame) (user_df : list Z)
        (user : ColName) (percentage : Q) :
  exists (out : DataFrame) (kept : list Z),
    Py.result (Downsampling.downsampling data user_df user percentage) =
      Py.Returned out
    /\ incl kept user_df
    /\ incl out data
    /\ (forall r, In r out <-> In r data /\ In (col user r) kept)
    /\ (forall r, count_occ Row_eq_dec out r =
                  (count_occ Row_eq_dec data r *
                   count_occ Z.eq_dec kept (col user r))%nat).
Proof.
  exists (Spark.join_on user data (Spark.sample percentage 123 user_df)).
  exists (Spark.sample percentage 123 user_df).
  split; [reflexivity|]. split.
  { intros u Hu. unfold Spark.sample in Hu.
    eapply In_filter_pos; eassumption. }
  split.
  { intros r Hr. now apply In_join_on in Hr. }
  split.
  - intros r. apply In_join_on.
  - intros r. apply count_occ_join_on.
Qed.

End DownsamplingClaims.

(* ================================================================== *)
(** * modeling.py: the user-level splitter *)

Section SplitFacts.
Context `{Engine}.

Lemma Qltb_lt (x y : Q) : Spark.Qltb x y = true <-> (x < y)%Q.
Proof.
  unfold Spark.Qltb. rewrite negb_true_iff. split.
  - intros Hb. apply Qnot_le_lt. intros Hle.
    apply Qle_bool_iff in Hle. congruence.
  - intros Hlt. destruct (Qle_bool y x) eqn:E; [|reflexivity].
    apply Qle_bool_iff in E. exfalso. eapply Qlt_not_le; eassumption.
Qed.

Lemma Qltb_ge (x y : Q) : Spark.Qltb x y = false <-> (y <= x)%Q.
Proof.
  unfold Spark.Qltb. rewrite negb_false_iff. apply Qle_bool_iff.
Qed.

(** Every draw lies in [0, 1). *)
Lemma rand_range (seed : Z) (i : nat) :
  (0 <= Spark.rand seed i)%Q /\ (Spark.rand seed i < 1)%Q.
Proof.
  unfold Spark.rand, Qle, Qlt. simpl.
  pose proof (Z.mod_pos_bound (next53 seed i) (2 ^ 53) eq_refl) as Hb.
  change (Z.pos (2 ^ 53)) with (2 ^ 53).
  split; lia.
Qed.


Lemma filter_pos_ext {A} (f g : nat -> A -> bool) (i : nat) (l : list A) :
  (forall n x, f n x = g n x) ->
  Spark.filter_pos f i l = Spark.filter_pos g i l.
Proof.
  intros Hext. revert i. induction l as [|x l IH]; simpl; intros i.
  - reflexivity.
  - rewrite Hext, IH. reflexivity.
Qed.

Lemma randomSplit_groups (seed : Z) (users : list Z) :
  Spark.randomSplit [0.6; 0.2; 0.2]%Q seed users =
  [user_group seed 0 users; user_group seed 1 users; user_group seed 2 users].
Proof.
  unfold Spark.randomSplit, user_group. simpl.
  f_equal; [|f_equal; [|f_equal]]; apply filter_pos_ext; intros n _;
    destruct (rand_range seed n) as [H0 H1];
    set (x := Spark.rand seed n) in *; unfold group_of.
  - assert (E : Qle_bool 0 x = true) by now apply Qle_bool_iff.
    assert (Heq : Spark.Qltb x (0 + 0.6 / (0.6 + (0.2 + (0.2 + 0)))) =
                  Spark.Qltb x 0.6).
    { unfold Spark.Qltb. f_equal. apply Qleb_comp; reflexivity. }
    rewrite E, Heq. destruct (Spark.Qltb x 0.6); [reflexivity|].
    destruct (Spark.Qltb x 0.8); reflexivity.
  - assert (Hlo : Qle_bool (0 + 0.6 / (0.6 + (0.2 + (0.2 + 0)))) x =
                  negb (Spark.Qltb x 0.6)).
    { unfold Spark.Qltb. rewrite negb_involutive.
      apply Qleb_comp; reflexivity. }
    assert (Hhi : Spark.Qltb x (0 + 0.6 / (0.6 + (0.2 + (0.2 + 0)))
                                + 0.2 / (0.6 + (0.2 + (0.2 + 0)))) =
                  Spark.Qltb x 0.8).
    { unfold Spark.Qltb. f_equal. apply Qleb_comp; reflexivity. }
    rewrite Hlo, Hhi.
    destruct (Spark.Qltb x 0.6) eqn:E6; simpl.
    + destruct (Spark.Qltb x 0.8); reflexivity.
    + destruct (Spark.Qltb x 0.8); reflexivity.
  - assert (Hlo : Qle_bool (0 + 0.6 / (0.6 + (0.2 + (0.2 + 0)))
                            + 0.2 / (0.6 + (0.2 + (0.2 + 0)))) x =
                  negb (Spark.Qltb x 0.8)).
    { unfold Spark.Qltb. rewrite negb_involutive.
      apply Qleb_comp; reflexivity. }
    assert (Hhi : Spark.Qltb x (0 + 0.6 / (0.6 + (0.2 + (0.2 + 0)))
                                + 0.2 / (0.6 + (0.2 + (0.2 + 0)))
                                + 0.2 / (0.6 + (0.2 + (0.2 + 0)))) = true).
    { apply Qltb_lt. eapply Qlt_le_trans; [exact H1|].
      unfold Qle. vm_compute. discriminate. }
    rewrite Hlo, Hhi.
    destruct (Spark.Qltb x 0.6) eqn:E6; destruct (Spark.Qltb x 0.8) eqn:E8;
      simpl; try reflexivity.
    exfalso. apply Qltb_lt in E6. apply Qltb_ge in E8.
    assert (Hc : (0.8 < 0.6)%Q) by (eapply Qle_lt_trans; eassumption).
    revert Hc. unfold Qlt. vm_compute. discriminate.
Qed.

End SplitFacts.

Section SplitPartition.
Context `{Engine}.

Lemma group_of_bound (x : Q) : (group_of x < 3)%nat.
Proof.
  unfold group_of.
  destruct (Spark.Qltb x 0.6); [lia|]. destruct (Spark.Qltb x 0.8); lia.
Qed.

Lemma In_user_group (seed : Z) (j : nat) (users : list Z) (u : Z) :
  In u (user_group seed j users) -> In u users.
Proof. apply In_filter_pos. Qed.

Lemma NoDup_user_group (seed : Z) (j : nat) (users : list Z) :
  NoDup users -> NoDup (user_group seed j users).
Proof. apply NoDup_filter_pos. Qed.

(** Frames cut out by position never share an element of a list without
    repetition. *)
Lemma filter_pos_group_unique {A} (g : nat -> nat) (l : list A) :
  NoDup l ->
  forall (i j j' : nat) (x : A),
    In x (Spark.filter_pos (fun n _ => Nat.eqb (g n) j) i l) ->
    In x (Spark.filter_pos (fun n _ => Nat.eqb (g n) j') i l) ->
    j = j'.
Proof.
  induction 1 as [|y l Hy Hnd IH]; simpl; intros i j j' x Hj Hj'.
  - contradiction.
  - destruct (Nat.eqb_spec (g i) j) as [Ej|Ej];
      destruct (Nat.eqb_spec (g i) j') as [Ej'|Ej']; simpl in *.
    + congruence.
    + destruct Hj as [->|Hj]; [|eauto].
      exfalso. apply Hy. eapply In_filter_pos; eassumption.
    + destruct Hj' as [->|Hj']; [|eauto].
      exfalso. apply Hy. eapply In_filter_pos; eassumption.
    + eauto.
Qed.

Lemma filter_pos_group_cover {A} (g : nat -> nat) (l : list A) (x : A) :
  In x l ->
  forall i, exists n,
    In x (Spark.filter_pos (fun m _ => Nat.eqb (g m) (g n)) i l).
Proof.
  induction l as [|y l IH]; simpl; intros Hin i; [contradiction|].
  destruct Hin as [->|Hin].
  - exists i. rewrite Nat.eqb_refl. now left.
  - destruct (IH Hin (S i)) as [n Hn]. exists n.
    destruct (Nat.eqb (g i) (g n)); [right|]; assumption.
Qed.

Lemma user_group_unique (seed : Z) (users : list Z) (j j' : nat) (u : Z) :
  NoDup users ->
  In u (user_group seed j users) -> In u (user_group seed j' users) ->
  j = j'.
Proof.
  intros Hnd. unfold user_group.
  apply (filter_pos_group_unique
           (fun n => group_of (Spark.rand seed n)) users Hnd).
Qed.

Lemma user_group_cover (seed : Z) (users : list Z) (u : Z) :
  In u users ->
  In u (user_group seed 0 users) \/ In u (user_group seed 1 users) \/
  In u (user_group seed 2 users).
Proof.
  intros Hin.
  destruct (filter_pos_group_cover
              (fun n => group_of (Spark.rand seed n)) users u Hin 0%nat)
    as [n Hn].
  pose proof (group_of_bound (Spark.rand seed n)) as Hb.
  unfold user_group.
  destruct (group_of (Spark.rand seed n)) as [|[|[|k]]]; [tauto..|lia].
Qed.

Lemma Permutation_filter {A} (f : A -> bool) (l l' : list A) :
  Permutation l l' -> Permutation (filter f l) (filter f l').
Proof.
  induction 1 as [|x l l' Hp IH|x y l|l l' l'' H1 IH1 H2 IH2]; simpl.
  - constructor.
  - destruct (f x); [now constructor | assumption].
  - destruct (f x), (f y); try reflexivity. constructor.
  - now transitivity (filter f l').
Qed.

Lemma app_shuffle {A} (s1 s2 h1 h2 : list A) :
  Permutation (s1 ++ s2 ++ h1 ++ h2) (h1 ++ s1 ++ h2 ++ s2).
Proof.
  rewrite (Permutation_app_comm s2 (h1 ++ h2)), <- app_assoc.
  rewrite app_assoc, (Permutation_app_comm s1 h1), <- app_assoc.
  reflexivity.
Qed.

(** Three tests of which every element passes exactly one cut a list in
    three. *)
Lemma filter_three_way {A} (p0 p1 p2 : A -> bool) (l : list A) :
  (forall x, In x l ->
             (p0 x = true /\ p1 x = false /\ p2 x = false) \/
             (p0 x = false /\ p1 x = true /\ p2 x = false) \/
             (p0 x = false /\ p1 x = false /\ p2 x = true)) ->
  Permutation (filter p0 l ++ filter p1 l ++ filter p2 l) l.
Proof.
  induction l as [|x l IH]; simpl; intros Hone; [constructor|].
  assert (IH' := IH (fun y Hy => Hone y (or_intror Hy))).
  destruct (Hone x (or_introl eq_refl))
    as [(E0 & E1 & E2)|[(E0 & E1 & E2)|(E0 & E1 & E2)]];
    rewrite E0, E1, E2; simpl.
  - now constructor.
  - symmetry. apply Permutation_cons_app. now symmetry.
  - symmetry. rewrite app_assoc. apply Permutation_cons_app.
    rewrite <- app_assoc. now symmetry.
Qed.

Lemma In_subtract (a b : DataFrame) (r : Row) :
  In r (Spark.subtract a b) <-> In r a /\ ~ In r b.
Proof.
  unfold Spark.subtract. rewrite nodup_In, filter_In, negb_true_iff.
  split; intros [Ha Hb]; split; try assumption.
  - intros Hin. apply existsb_Row_In in Hin. congruence.
  - destruct (existsb (Row_eqb r) b) eqn:E; [|reflexivity].
    apply existsb_Row_In in E. contradiction.
Qed.

Lemma NoDup_subtract (a b : DataFrame) : NoDup (Spark.subtract a b).
Proof. apply NoDup_nodup. Qed.

(** On a frame without repeated rows, subtracting a positional sample
    leaves the rows the sample passed over. *)
Lemma subtract_filter_pos (keep : nat -> Row -> bool) (a : DataFrame) :
  NoDup a ->
  forall i,
    Spark.subtract a (Spark.filter_pos keep i a) =
    Spark.filter_pos (fun n x => negb (keep n x)) i a.
Proof.
  intros Hnd i. unfold Spark.subtract.
  rewrite nodup_fixed_point by now apply NoDup_filter.
  revert i. induction Hnd as [|x t Hx Hnd IH]; intros i; simpl.
  - reflexivity.
  - destruct (keep i x) eqn:Ek; simpl.
    + destruct (Row_eqb x x) eqn:Exx;
        [|exfalso; assert (Row_eqb x x = true) by (now apply Row_eqb_eq);
          congruence].
      simpl. rewrite <- IH. apply filter_ext_in. intros r Hr. f_equal.
      simpl. destruct (Row_eqb r x) eqn:Erx; [|reflexivity].
      apply Row_eqb_eq in Erx. subst. contradiction.
    + destruct (existsb (Row_eqb x) (Spark.filter_pos keep (S i) t)) eqn:Ex.
      * apply existsb_Row_In in Ex. exfalso. apply Hx.
        eapply In_filter_pos; eassumption.
      * simpl. now rewrite IH.
Qed.

Lemma filter_pos_complement {A} (keep : nat -> A -> bool) (l : list A) :
  forall i,
    Permutation
      (Spark.filter_pos keep i l ++
       Spark.filter_pos (fun n x => negb (keep n x)) i l) l.
Proof.
  induction l as [|x l IH]; intros i; simpl; [constructor|].
  destruct (keep i x); simpl.
  - constructor. apply IH.
  - symmetry. apply Permutation_cons_app. symmetry. apply IH.
Qed.

End SplitPartition.

Section SplitClaims.
Context `{Engine}.


(** The three frames the splitter returns, written out. *)
Lemma train_val_test_split_eq (data : DataFrame) (user : ColName) :
  Modeling.train_val_test_split data user =
  ((group_rows data user 0
    ++ Spark.subtract (group_rows data user 1) (held_out data user 1))
   ++ Spark.subtract (group_rows data user 2) (held_out data user 2),
   held_out data user 1,
   held_out data user 2).
Proof.
  unfold Modeling.train_val_test_split, Modeling.customized_split_func.
  rewrite randomSplit_groups. reflexivity.
Qed.

Lemma In_group_rows (data : DataFrame) (user : ColName) (j : nat) (r : Row) :
  In r (group_rows data user j) <->
  In r data /\
  In (col user r) (user_group 123 j (Spark.distinct_col user data)).
Proof. apply In_join_on. Qed.

Lemma group_rows_filter (data : DataFrame) (user : ColName) (j : nat) :
  group_rows data user j =
  filter (fun r => existsb (Z.eqb (col user r))
                           (user_group 123 j (Spark.distinct_col user data)))
         data.
Proof.
  apply join_on_NoDup, NoDup_user_group, NoDup_distinct_col.
Qed.

Lemma In_held_out (data : DataFrame) (user : ColName) (j : nat) (r : Row) :
  In r (held_out data user j) -> In r (group_rows data user j).
Proof. apply In_filter_pos. Qed.

(** Every row of the table sits in the rows of exactly one user group. *)
Lemma group_rows_partition (data : DataFrame) (user : ColName) :
  Permutation
    (group_rows data user 0 ++ group_rows data user 1 ++ group_rows data user 2)
    data.
Proof.
  rewrite !group_rows_filter. apply filter_three_way. intros r Hr.
  set (users := Spark.distinct_col user data).
  assert (Hu : In (col user r) users).
  { apply In_distinct_col. now exists r. }
  assert (Hnd : NoDup users) by apply NoDup_distinct_col.
  assert (Hex : forall j,
             existsb (Z.eqb (col user r)) (user_group 123 j users) = true <->
             In (col user r) (user_group 123 j users))
    by (intros j; apply existsb_Z_In).
  assert (Hun : forall j j',
             existsb (Z.eqb (col user r)) (user_group 123 j users) = true ->
             existsb (Z.eqb (col user r)) (user_group 123 j' users) = true ->
             j = j').
  { intros j j' Hj Hj'. apply Hex in Hj. apply Hex in Hj'.
    eapply user_group_unique; eassumption. }
  destruct (user_group_cover 123 users (col user r) Hu) as [H0|[H1|H2]].
  - left. apply Hex in H0. rewrite H0. split; [reflexivity|].
    split; apply not_true_is_false; intros Hc;
      specialize (Hun _ _ H0 Hc); discriminate.
  - right; left. apply Hex in H1. rewrite H1.
    split; [|split; [reflexivity|]];
      apply not_true_is_false; intros Hc;
      specialize (Hun _ _ H1 Hc); discriminate.
  - right; right. apply Hex in H2. rewrite H2.
    split; [|split; [|reflexivity]];
      apply not_true_is_false; intros Hc;
      specialize (Hun _ _ H2 Hc); discriminate.
Qed.

Lemma NoDup_group_rows (data : DataFrame) (user : ColName) (j : nat) :
  NoDup data -> NoDup (group_rows data user j).
Proof. intros Hnd. rewrite group_rows_filter. now apply NoDup_filter. Qed.

(** Held-out rows and the rows folded back rebuild the group's rows when
    the table has no repeated row. *)
Lemma held_out_complement (data : DataFrame) (user : ColName) (j : nat) :
  NoDup data ->
  Permutation
    (held_out data user j
     ++ Spark.subtract (group_rows data user j) (held_out data user j))
    (group_rows data user j).
Proof.
  intros Hnd. unfold held_out, Spark.sampleBy.
  rewrite subtract_filter_pos by now apply NoDup_group_rows.
  apply filter_pos_complement.
Qed.

(** The validation and the test frame never share a row: their users
    come from different groups. *)
Lemma val_test_disjoint (data : DataFrame) (user : ColName) (r : Row) :
  In r (held_out data user 1) -> In r (held_out data user 2) -> False.
Proof.
  intros H1 H2. apply In_held_out, In_group_rows in H1.
  apply In_held_out, In_group_rows in H2.
  destruct H1 as [_ H1]. destruct H2 as [_ H2].
  pose proof (user_group_unique 123 _ _ _ _
                (NoDup_distinct_col user data) H1 H2).
  discriminate.
Qed.

(** On every table the three frames hold the same row values as the
    table. *)
Lemma split_row_values (data : DataFrame) (user : ColName) (r : Row) :
  let '(train, val, test) := Modeling.train_val_test_split data user in
  In r data <-> In r train \/ In r val \/ In r test.
Proof.
  rewrite train_val_test_split_eq.
  rewrite !in_app_iff, !In_subtract.
  pose proof (Permutation_in r (group_rows_partition data user)) as Hto.
  pose proof (Permutation_in r
                (Permutation_sym (group_rows_partition data user))) as Hfrom.
  rewrite !in_app_iff in Hto, Hfrom.
  pose proof (In_held_out data user 1 r) as Hh1.
  pose proof (In_held_out data user 2 r) as Hh2.
  destruct (in_dec Row_eq_dec r (held_out data user 1)) as [I1|N1];
    destruct (in_dec Row_eq_dec r (held_out data user 2)) as [I2|N2];
    tauto.
Qed.

(** On a table without repeated rows the three frames are a rearrangement
    of the table, as a whole and user by user. *)
Lemma split_partition_distinct_rows (data : DataFrame) (user : ColName) :
  NoDup data ->
  let '(train, val, test) := Modeling.train_val_test_split data user in
  Permutation (train ++ val ++ test) data /\
  forall u,
    Permutation
      (rows_of user u train ++ rows_of user u val ++ rows_of user u test)
      (rows_of user u data).
Proof.
  intros Hnd. rewrite train_val_test_split_eq.
  assert (Hall :
    Permutation
      (((group_rows data user 0
         ++ Spark.subtract (group_rows data user 1) (held_out data user 1))
        ++ Spark.subtract (group_rows data user 2) (held_out data user 2))
       ++ held_out data user 1 ++ held_out data user 2)
      data).
  { transitivity
      (group_rows data user 0 ++ group_rows data user 1
       ++ group_rows data user 2); [|apply group_rows_partition].
    transitivity
      (group_rows data user 0
       ++ (held_out data user 1
           ++ Spark.subtract (group_rows data user 1) (held_out data user 1))
       ++ (held_out data user 2
           ++ Spark.subtract (group_rows data user 2) (held_out data user 2))).
    - rewrite <- !app_assoc. apply Permutation_app_head, app_shuffle.
    - apply Permutation_app_head.
      apply Permutation_app; now apply held_out_complement. }
  split; [exact Hall|].
  intros u. unfold rows_of. rewrite <- !filter_app.
  now apply Permutation_filter.
Qed.

End SplitClaims.

(* ================================================================== *)
(** * modeling.py: numpy selection and rounding *)

Section Selection.

(** Selection of the first element that no other element beats, for any
    strict comparison; [np.argmin] and [np.argmax] are the two instances
    used by the tuner. *)
Variable better : Q -> Q -> bool.
Variable R : Q -> Q -> Prop.
Hypothesis better_R : forall x y, better x y = true <-> R x y.
Hypothesis R_asym : forall x y, R x y -> ~ R y x.
Hypothesis R_trans_not : forall x b p, R x b -> ~ R p b -> R x p.

Lemma arg_from_first_best (l : list Q) :
  forall (P : list Q) (best_i : nat) (best : Q),
    first_best R P best_i best ->
    exists v,
      first_best R (P ++ l)
                 (arg_from better best_i best (List.length P) l) v.
Proof.
  induction l as [|x t IH]; intros P bi b Hfb; simpl.
  - exists b. now rewrite app_nil_r.
  - destruct Hfb as (Hnth & Hmin & Hbefore).
    replace (P ++ x :: t) with ((P ++ [x]) ++ t)
      by (rewrite <- app_assoc; reflexivity).
    replace (S (List.length P)) with (List.length (P ++ [x]))
      by (rewrite length_app; simpl; lia).
    destruct (better x b) eqn:E.
    + apply better_R in E.
      replace (List.length P) with (List.length P + 0)%nat at 1 by lia.
      assert (Hlen : List.length (P ++ [x]) = S (List.length P))
        by (rewrite length_app; simpl; lia).
      specialize (IH (P ++ [x]) (List.length P) x).
      replace (List.length P + 0)%nat with (List.length P) by lia.
      apply IH. split; [|split].
      * rewrite nth_error_app2 by lia. now rewrite Nat.sub_diag.
      * intros y Hy. apply in_app_iff in Hy. destruct Hy as [Hy|[<-|[]]].
        -- intros Hc. apply (Hmin y Hy).
           eapply R_trans_not; [exact Hc|]. now apply R_asym.
        -- intros Hc. exact (R_asym _ _ Hc Hc).
      * intros m y Hm Hy. rewrite nth_error_app1 in Hy by lia.
        apply nth_error_In in Hy. eapply R_trans_not; [exact E|].
        now apply Hmin.
    + apply IH. split; [|split].
      * rewrite nth_error_app1; [assumption|].
        apply nth_error_Some. congruence.
      * intros y Hy. apply in_app_iff in Hy. destruct Hy as [Hy|[<-|[]]].
        -- now apply Hmin.
        -- intros Hc. apply better_R in Hc. congruence.
      * intros m y Hm Hy.
        assert (Hbi : (bi < List.length P)%nat)
          by (apply nth_error_Some; congruence).
        rewrite nth_error_app1 in Hy by lia. eauto.
Qed.

Lemma arg_from_head (x : Q) (t : list Q) :
  exists v, first_best R (x :: t) (arg_from better 0 x 1 t) v.
Proof.
  apply (arg_from_first_best t [x] 0%nat x). split; [reflexivity|split].
  - intros y [<-|[]] Hc. exact (R_asym _ _ Hc Hc).
  - intros m y Hm. lia.
Qed.

End Selection.

Section NumpyFacts.

Lemma argmin_from_arg (l : list Q) :
  forall bi b i, Np.argmin_from bi b i l = arg_from Spark.Qltb bi b i l.
Proof.
  induction l as [|x t IH]; intros bi b i; simpl; [reflexivity|].
  now rewrite !IH.
Qed.

Lemma argmax_from_arg (l : list Q) :
  forall bi b i,
    Np.argmax_from bi b i l = arg_from (fun x y => Spark.Qltb y x) bi b i l.
Proof.
  induction l as [|x t IH]; intros bi b i; simpl; [reflexivity|].
  now rewrite !IH.
Qed.

(** [np.argmin] on a non-empty list: the index of a smallest element,
    the first one when there are several. *)
Lemma argmin_first (x : Q) (t : list Q) :
  exists v,
    Np.argmin (x :: t) = Py.ret (Np.argmin_from 0 x 1 t)
    /\ nth_error (x :: t) (Np.argmin_from 0 x 1 t) = Some v
    /\ (forall y, In y (x :: t) -> (v <= y)%Q)
    /\ (forall m y, (m < Np.argmin_from 0 x 1 t)%nat ->
                    nth_error (x :: t) m = Some y -> (v < y)%Q).
Proof.
  rewrite argmin_from_arg.
  destruct (arg_from_head Spark.Qltb Qlt) with (x := x) (t := t)
    as [v (Hn & Hmin & Hfirst)].
  - intros a b. apply Qltb_lt.
  - intros a b Hab Hba. apply (Qlt_irrefl a). eapply Qlt_trans; eassumption.
  - intros a b p Hab Hnp. apply Qnot_lt_le in Hnp.
    eapply Qlt_le_trans; eassumption.
  - exists v. split; [reflexivity|]. split; [assumption|]. split.
    + intros y Hy. apply Qnot_lt_le. now apply Hmin.
    + assumption.
Qed.

(** [np.argmax] on a non-empty list: the index of a largest element, the
    first one when there are several. *)
Lemma argmax_first (x : Q) (t : list Q) :
  exists v,
    Np.argmax (x :: t) = Py.ret (Np.argmax_from 0 x 1 t)
    /\ nth_error (x :: t) (Np.argmax_from 0 x 1 t) = Some v
    /\ (forall y, In y (x :: t) -> (y <= v)%Q)
    /\ (forall m y, (m < Np.argmax_from 0 x 1 t)%nat ->
                    nth_error (x :: t) m = Some y -> (y < v)%Q).
Proof.
  rewrite argmax_from_arg.
  destruct (arg_from_head (fun a b => Spark.Qltb b a) (fun a b => (b < a)%Q))
    with (x := x) (t := t) as [v (Hn & Hmax & Hfirst)].
  - intros a b. apply Qltb_lt.
  - intros a b Hab Hba. apply (Qlt_irrefl a). eapply Qlt_trans; eassumption.
  - intros a b p Hab Hnp. apply Qnot_lt_le in Hnp.
    eapply Qle_lt_trans; eassumption.
  - exists v. split; [reflexivity|]. split; [assumption|]. split.
    + intros y Hy. apply Qnot_lt_le. now apply Hmax.
    + assumption.
Qed.

Lemma round_4_nearest (x : Q) :
  exists z : Z,
    Py.round x 4 = Qmake z 10000
    /\ (x - (1 # 20000) <= Py.round x 4)%Q
    /\ (Py.round x 4 <= x + (1 # 20000))%Q.
Proof.
  unfold Py.round.
  change (Nat.iter 4 (Pos.mul 10) 1%positive) with 10000%positive.
  destruct x as [n d]. cbn [Qnum Qden].
  set (N := n * Z.pos 10000).
  pose proof (Z.div_mod N (Z.pos d) ltac:(lia)) as Hdm.
  pose proof (Z.mod_pos_bound N (Z.pos d) ltac:(lia)) as Hb.
  set (f := N / Z.pos d) in *. set (r := N mod Z.pos d) in *.
  set (up := match 2 * r ?= Z.pos d with
             | Eq => Z.odd f
             | Lt => false
             | Gt => true
             end).
  assert (Hup : (up = true /\ Z.pos d <= 2 * r) \/
                (up = false /\ 2 * r <= Z.pos d)).
  { unfold up. destruct (Z.compare_spec (2 * r) (Z.pos d)) as [C|C|C].
    - destruct (Z.odd f); [left | right]; (split; [reflexivity | lia]).
    - right. split; [reflexivity | lia].
    - left. split; [reflexivity | lia]. }
  assert (HN : N = n * 10000) by reflexivity.
  clearbody up f r N.
  exists (if up then f + 1 else f). split; [reflexivity|].
  unfold Qle, Qminus, Qplus, Qopp. cbn [Qnum Qden].
  rewrite !Pos2Z.inj_mul.
  destruct Hup as [[-> Hu]|[-> Hu]]; split; nia.
Qed.

End NumpyFacts.

(* ================================================================== *)
(** * modeling.py: the grid tuner *)

Section TuningFacts.
Context `{Engine}.
Variables (train_data val_data : DataFrame) (metrics : string).
Variables (k maxIter : Z) (user item rating : ColName).


Local Abbreviation als := (als_of maxIter user item rating).
Local Abbreviation score :=
  (grid_score train_data val_data metrics k maxIter user item rating).
Local Abbreviation record :=
  (record_point train_data val_data metrics k maxIter user item rating).
Local Abbreviation events_at := (point_events metrics maxIter user item rating).

Let body := Modeling.tuning_body train_data val_data metrics k maxIter
                                 user item rating.

Lemma tuning_body_recognised (st : Modeling.Locals) (ip : nat * (Z * Q)) :
  recognised metrics = true ->
  metrics <> "meanAveragePrecision"%string ->
  body st ip =
  (events_at ip,
   Py.Returned
     (Modeling.mkLocals (record (Modeling.tuning_table st) (snd ip))
                        (Some (Some (score (snd ip)))))).
Proof.
  unfold recognised, body, Modeling.tuning_body, record_point, point_events,
    grid_score.
  destruct ip as [i p]. cbn [fst snd].
  destruct (Modeling.member metrics Modeling.regression_names) eqn:Ereg.
  - intros _ _. reflexivity.
  - cbn [orb]. unfold Modeling.member at 1. unfold Modeling.ranking_names.
    cbn [existsb]. intros Hrank Hmap.
    replace (Modeling.member metrics
               ["precisionAt"; "meanAveragePrecision"; "ndcgAt"]%string)
      with true by (symmetry; exact Hrank).
    unfold Modeling.top_k_rankingmetrics.
    destruct (metrics =? "precisionAt")%string; [reflexivity|].
    destruct (metrics =? "meanAveragePrecision")%string eqn:Emap;
      [apply String.eqb_eq in Emap; contradiction|].
    destruct (metrics =? "ndcgAt")%string; [reflexivity|].
    discriminate Hrank.
Qed.

(** Under "meanAveragePrecision" an iteration fits and transforms, reads
    the evaluator's property and fails on calling it: nothing is printed
    or recorded after that. *)
Lemma tuning_body_mean_average_precision
      (st : Modeling.Locals) (ip : nat * (Z * Q)) :
  metrics = "meanAveragePrecision"%string ->
  body st ip =
  ([Py.Print (Py.StartConfiguration (fst ip + 1));
    Py.Fit (als (snd ip));
    Py.Transform;
    Py.Evaluate "meanAveragePrecision"],
   Py.Raised Py.TypeError).
Proof.
  unfold body. intros ->. destruct ip as [i p]. reflexivity.
Qed.

Lemma tuning_body_unrecognised (st : Modeling.Locals) (ip : nat * (Z * Q)) :
  recognised metrics = false ->
  Modeling.metrics_result st = None ->
  body st ip =
  ([Py.Print (Py.StartConfiguration (fst ip + 1));
    Py.Fit (als (snd ip));
    Py.Transform;
    Py.Print (Py.FinishConfiguration (fst ip + 1))],
   Py.Raised (Py.UnboundLocalError "metrics_result")).
Proof.
  unfold recognised, body, Modeling.tuning_body.
  intros Hrec Hnone. apply orb_false_iff in Hrec. destruct Hrec as [E1 E2].
  rewrite E1, E2, Hnone. reflexivity.
Qed.

(** The whole loop under a metric the evaluators score: one block of
    events per grid point, in order, and the table extended point by
    point. *)
Lemma for_each_recognised (ps : list (Z * Q)) :
  recognised metrics = true ->
  metrics <> "meanAveragePrecision"%string ->
  forall (n : nat) (st : Modeling.Locals),
  exists mr,
    Modeling.for_each body st (combine (seq n (List.length ps)) ps) =
    (flat_map events_at (combine (seq n (List.length ps)) ps),
     Py.Returned
       (Modeling.mkLocals
          (fold_left record ps (Modeling.tuning_table st)) mr)).
Proof.
  intros Hrec Hmap. induction ps as [|p ps IH]; intros n st.
  - exists (Modeling.metrics_result st). destruct st; reflexivity.
  - cbn [List.length seq combine Modeling.for_each flat_map fold_left].
    rewrite tuning_body_recognised by assumption.
    rewrite bind_returned.
    destruct (IH (S n)
                 (Modeling.mkLocals
                    (record (Modeling.tuning_table st) p)
                    (Some (Some (score p))))) as [mr Hmr].
    exists mr. cbn [snd] in *. rewrite Hmr. reflexivity.
Qed.

Lemma fold_record_point (ps : list (Z * Q)) :
  forall tt,
    fold_left record ps tt =
    Modeling.mkTable
      (Modeling.t_rank tt ++ map fst ps)
      (Modeling.t_regParam tt ++ map snd ps)
      (Modeling.t_metrics_name tt)
      (Modeling.t_metrics tt
       ++ map (fun p => Py.round (score p) 4) ps).
Proof.
  induction ps as [|p ps IH]; intros tt; cbn [fold_left map].
  - rewrite !app_nil_r. destruct tt; reflexivity.
  - rewrite IH. unfold record_point. cbn.
    rewrite <- !app_assoc. reflexivity.
Qed.

End TuningFacts.

Section TuningRuns.
Context `{Engine}.
Variables (train_data val_data : DataFrame) (metrics : string).
Variables (k maxIter : Z) (user item rating : ColName).

Let score := grid_score train_data val_data metrics k maxIter user item rating.
Local Abbreviation table_of :=
  (full_table train_data val_data metrics k maxIter user item rating).
Let run (rank_list : list Z) (regParam_list : list Q) :=
  Modeling.tuning_als (Some train_data) (Some val_data)
                      (Some rank_list) (Some regParam_list) (Some metrics)
                      k maxIter user item rating.


Lemma index_map {A B} (f : A -> B) (l : list A) (i : nat) (a : A) :
  nth_error l i = Some a -> Py.index (map f l) i = Py.ret (f a).
Proof.
  intros Hn. unfold Py.index. rewrite nth_error_map, Hn. reflexivity.
Qed.

(** A run under a metric the evaluators score, over a non-empty grid,
    returns the full table and the grid point at the first extremal
    rounded score. *)
Lemma tuning_als_recognised (rank_list : list Z) (regParam_list : list Q) :
  recognised metrics = true ->
  metrics <> "meanAveragePrecision"%string ->
  list_prod rank_list regParam_list <> [] ->
  let grid := list_prod rank_list regParam_list in
  let scores := Modeling.t_metrics (table_of grid) in
  exists (i : nat) (p : Z * Q),
    run rank_list regParam_list =
      (flat_map (point_events metrics maxIter user item rating)
                (Modeling.enumerate grid),
       Py.Returned
         (Some (Modeling.mkBest (fst p) (snd p) metrics
                                (Py.round (score p) 4),
                table_of grid)))
    /\ nth_error grid i = Some p
    /\ (Modeling.member metrics Modeling.regression_names = true ->
        (forall y, In y scores -> (Py.round (score p) 4 <= y)%Q) /\
        (forall m y, (m < i)%nat -> nth_error scores m = Some y ->
                     (Py.round (score p) 4 < y)%Q))
    /\ (Modeling.member metrics Modeling.regression_names = false ->
        (forall y, In y scores -> (y <= Py.round (score p) 4)%Q) /\
        (forall m y, (m < i)%nat -> nth_error scores m = Some y ->
                     (y < Py.round (score p) 4)%Q)).
Proof.
  intros Hrec Hmap Hne. unfold run, Modeling.tuning_als. cbv zeta.
  remember (list_prod rank_list regParam_list) as grid eqn:Egrid.
  set (scores := Modeling.t_metrics (table_of grid)).
  destruct (for_each_recognised train_data val_data metrics k maxIter
              user item rating grid Hrec Hmap 0%nat
              (Modeling.mkLocals (Modeling.mkTable [] [] metrics []) None))
    as [mr Hloop].
  unfold Modeling.enumerate. rewrite Hloop. clear Hloop.
  rewrite bind_returned. cbn [Modeling.tuning_table].
  rewrite fold_record_point. cbn [Modeling.t_rank Modeling.t_regParam
    Modeling.t_metrics Modeling.t_metrics_name app].
  fold (table_of grid). fold scores.
  assert (Hsc : scores = map (fun p => Py.round (score p) 4) grid)
    by reflexivity.
  clear Egrid. destruct grid as [|p0 ps]; [congruence|].
  assert (Hpick : forall i v,
             nth_error scores i = Some v ->
             exists p, nth_error (p0 :: ps) i = Some p
                       /\ v = Py.round (score p) 4).
  { intros i v Hv. rewrite Hsc, nth_error_map in Hv.
    destruct (nth_error (p0 :: ps) i) as [p|]; [|discriminate].
    exists p. split; [reflexivity|]. cbn in Hv. congruence. }
  assert (Hfin : forall i p,
             nth_error (p0 :: ps) i = Some p ->
             (r <- Py.index (Modeling.t_rank (table_of (p0 :: ps))) i ;;
              g <- Py.index (Modeling.t_regParam (table_of (p0 :: ps))) i ;;
              s <- Py.index (Modeling.t_metrics (table_of (p0 :: ps))) i ;;
              Py.ret (Some (Modeling.mkBest r g metrics s,
                            table_of (p0 :: ps)))) =
             Py.ret (Some (Modeling.mkBest (fst p) (snd p) metrics
                                           (Py.round (score p) 4),
                           table_of (p0 :: ps)))).
  { intros i p Hp. unfold full_table at 1 2 3.
    cbn [Modeling.t_rank Modeling.t_regParam Modeling.t_metrics].
    rewrite (index_map _ _ _ _ Hp), bind_ret.
    rewrite (index_map _ _ _ _ Hp), bind_ret.
    rewrite (index_map _ _ _ _ Hp), bind_ret. reflexivity. }
  change (map (fun p1 : Z * Q =>
                 Py.round (grid_score train_data val_data metrics k maxIter
                                      user item rating p1) 4) (p0 :: ps))
    with scores.
  unfold recognised in Hrec.
  destruct (Modeling.member metrics Modeling.regression_names) eqn:Ereg.
  - destruct (argmin_first (Py.round (score p0) 4)
                           (map (fun p => Py.round (score p) 4) ps))
      as [v (Harg & Hnth & Hmin & Hfirst)].
    change (Py.round (score p0) 4
            :: map (fun p => Py.round (score p) 4) ps)
      with scores in *.
    destruct (Hpick _ _ Hnth) as [p [Hp Hv]]. subst v.
    exists (Np.argmin_from 0 (Py.round (score p0) 4) 1
                           (map (fun p => Py.round (score p) 4) ps)), p.
    split; [|split; [exact Hp|split; [intros _; split; assumption|]]].
    + rewrite Harg, bind_ret, bind_ret. cbn [Py.local]. rewrite bind_ret.
      pose proof (Hfin _ _ Hp) as Hf.
      match type of Hf with
      | ?L = _ =>
          match goal with
          | |- (_ ++ fst ?X, _) = _ => change X with L
          end
      end.
      rewrite Hf. cbn. rewrite app_nil_r. reflexivity.
    + discriminate.
  - cbn [orb] in Hrec. rewrite Hrec.
    destruct (argmax_first (Py.round (score p0) 4)
                           (map (fun p => Py.round (score p) 4) ps))
      as [v (Harg & Hnth & Hmax & Hfirst)].
    change (Py.round (score p0) 4
            :: map (fun p => Py.round (score p) 4) ps)
      with scores in *.
    destruct (Hpick _ _ Hnth) as [p [Hp Hv]]. subst v.
    exists (Np.argmax_from 0 (Py.round (score p0) 4) 1
                           (map (fun p => Py.round (score p) 4) ps)), p.
    split; [|split; [exact Hp|split; [discriminate|]]].
    + rewrite Harg, bind_ret, bind_ret. cbn [Py.local]. rewrite bind_ret.
      pose proof (Hfin _ _ Hp) as Hf.
      match type of Hf with
      | ?L = _ =>
          match goal with
          | |- (_ ++ fst ?X, _) = _ => change X with L
          end
      end.
      rewrite Hf. cbn. rewrite app_nil_r. reflexivity.
    + intros _. split; assumption.
Qed.

(** Under "meanAveragePrecision" the run ends in the first iteration,
    on the call of the evaluator's property; over an empty grid nothing
    is fitted and [np.argmax] rejects the empty score list. *)
Lemma tuning_als_mean_average_precision
      (rank_list : list Z) (regParam_list : list Q) :
  metrics = "meanAveragePrecision"%string ->
  run rank_list regParam_list =
  match list_prod rank_list regParam_list with
  | [] => ([], Py.Raised Py.ValueError)
  | p :: _ =>
      ([Py.Print (Py.StartConfiguration 1);
        Py.Fit (als_of maxIter user item rating p);
        Py.Transform;
        Py.Evaluate "meanAveragePrecision"],
       Py.Raised Py.TypeError)
  end.
Proof.
  intros Hmap. unfold run, Modeling.tuning_als.
  destruct (list_prod rank_list regParam_list) as [|p ps].
  - subst metrics. reflexivity.
  - unfold Modeling.enumerate.
    cbn [List.length seq combine Modeling.for_each].
    rewrite (tuning_body_mean_average_precision
               train_data val_data metrics k maxIter user item rating
               (Modeling.mkLocals (Modeling.mkTable [] [] metrics []) None)
               (0%nat, p) Hmap).
    reflexivity.
Qed.

(** Under a name that is not recognised the first iteration fits its
    model and then reads [metrics_result], which no branch assigned; over
    an empty grid nothing is fitted and [best_index] is the unassigned
    name. *)
Lemma tuning_als_unrecognised (rank_list : list Z) (regParam_list : list Q) :
  recognised metrics = false ->
  run rank_list regParam_list =
  match list_prod rank_list regParam_list with
  | [] => ([], Py.Raised (Py.UnboundLocalError "best_index"))
  | p :: _ =>
      ([Py.Print (Py.StartConfiguration 1);
        Py.Fit (als_of maxIter user item rating p);
        Py.Transform;
        Py.Print (Py.FinishConfiguration 1)],
       Py.Raised (Py.UnboundLocalError "metrics_result"))
  end.
Proof.
  intros Hrec. unfold run, Modeling.tuning_als.
  destruct (list_prod rank_list regParam_list) as [|p ps].
  - unfold recognised in Hrec. apply orb_false_iff in Hrec.
    destruct Hrec as [E1 E2]. unfold Modeling.enumerate.
    cbn [List.length seq combine Modeling.for_each]. rewrite bind_ret.
    rewrite E1, E2. reflexivity.
  - unfold Modeling.enumerate.
    cbn [List.length seq combine Modeling.for_each].
    rewrite (tuning_body_unrecognised
               train_data val_data metrics k maxIter user item rating
               (Modeling.mkLocals (Modeling.mkTable [] [] metrics []) None)
               (0%nat, p) Hrec eq_refl).
    reflexivity.
Qed.

End TuningRuns.


Section EventFacts.
Variables (metrics : string) (maxIter : Z) (user item rating : ColName).

Lemma fits_point_events (ps : list (Z * Q)) :
  forall n,
    fits (flat_map (point_events metrics maxIter user item rating)
                   (combine (seq n (List.length ps)) ps)) =
    map (als_of maxIter user item rating) ps.
Proof.
  induction ps as [|p ps IH]; intros n; [reflexivity|].
  cbn [List.length seq combine flat_map]. unfold fits in *.
  rewrite flat_map_app, IH. reflexivity.
Qed.

Lemma evaluations_point_events (ps : list (Z * Q)) :
  forall n,
    evaluations (flat_map (point_events metrics maxIter user item rating)
                          (combine (seq n (List.length ps)) ps)) =
    map (fun _ => metrics) ps.
Proof.
  induction ps as [|p ps IH]; intros n; [reflexivity|].
  cbn [List.length seq combine flat_map]. unfold evaluations in *.
  rewrite flat_map_app, IH. reflexivity.
Qed.

End EventFacts.

Section GridFacts.

Lemma list_prod_nonempty {A B} (l : list A) (l' : list B) :
  l <> [] -> l' <> [] -> list_prod l l' <> [].
Proof.
  intros Hl Hl' Hp. apply (f_equal (@List.length _)) in Hp.
  rewrite length_prod in Hp. simpl in Hp.
  destruct l; [congruence|]. destruct l'; [congruence|]. simpl in Hp. lia.
Qed.

(** [product(rank_list, regParam_list)] runs through the ranks in order
    and, for each rank, through the regularisations in order. *)
Lemma list_prod_rank_major {A B} (l : list A) (l' : list B) :
  forall (a b : nat) (x : A) (y : B),
    nth_error l a = Some x -> nth_error l' b = Some y ->
    nth_error (list_prod l l') (a * List.length l' + b) = Some (x, y).
Proof.
  induction l as [|z l IH]; intros a b x y Hx Hy.
  - destruct a; discriminate.
  - assert (Hb : (b < List.length l')%nat)
      by (apply nth_error_Some; congruence).
    destruct a as [|a]; cbn [list_prod].
    + cbn in Hx. inversion Hx; subst.
      rewrite nth_error_app1 by (rewrite length_map; lia).
      cbn [Nat.mul Nat.add]. rewrite nth_error_map, Hy. reflexivity.
    + cbn in Hx.
      rewrite nth_error_app2 by (rewrite length_map; lia).
      rewrite length_map.
      replace (S a * List.length l' + b - List.length l')%nat
        with (a * List.length l' + b)%nat by lia.
      now apply IH.
Qed.

Lemma names_disjoint (name : string) :
  Modeling.member name Modeling.regression_names = true ->
  Modeling.member name Modeling.ranking_names = false.
Proof.
  unfold Modeling.member, Modeling.regression_names, Modeling.ranking_names.
  cbn [existsb]. intros Hreg.
  destruct (name =? "rmse")%string eqn:E1;
    [apply String.eqb_eq in E1; subst; reflexivity|].
  destruct (name =? "mae")%string eqn:E2;
    [apply String.eqb_eq in E2; subst; reflexivity|].
  destruct (name =? "r2")%string eqn:E3;
    [apply String.eqb_eq in E3; subst; reflexivity|].
  discriminate Hreg.
Qed.

End GridFacts.

Section TuningClaims.
Context `{Engine}.

(** Over non-empty candidate lists and a metric the evaluators score
    (rmse, mae, r2, precisionAt, ndcgAt) the tuner returns a table, fits
    one estimator per pair of the Cartesian product in product order and
    scores each once, and records one (rank, regParam, score) entry per
    pair in that order, so each of the three columns has
    [|rank_list| * |regParam_list|] entries. *)
Lemma tuning_als_covers_grid
      (train_data val_data : DataFrame) (rank_list : list Z)
      (regParam_list : list Q) (metrics : string) (k maxIter : Z)
      (user item rating : ColName) :
  rank_list <> [] -> regParam_list <> [] -> recognised metrics = true ->
  metrics <> "meanAveragePrecision"%string ->
  let grid := list_prod rank_list regParam_list in
  let run := Modeling.tuning_als
               (Some train_data) (Some val_data) (Some rank_list)
               (Some regParam_list) (Some metrics) k maxIter
               user item rating in
  exists best table,
    Py.result run = Py.Returned (Some (best, table))
    /\ fits (Py.events run) = map (als_of maxIter user item rating) grid
    /\ evaluations (Py.events run) = map (fun _ => metrics) grid
    /\ Modeling.t_rank table = map fst grid
    /\ Modeling.t_regParam table = map snd grid
    /\ Modeling.t_metrics table =
       map (fun p => Py.round (grid_score train_data val_data metrics k
                                          maxIter user item rating p) 4)
           grid
    /\ List.length (Modeling.t_rank table) =
       (List.length rank_list * List.length regParam_list)%nat
    /\ List.length (Modeling.t_regParam table) =
       (List.length rank_list * List.length regParam_list)%nat
    /\ List.length (Modeling.t_metrics table) =
       (List.length rank_list * List.length regParam_list)%nat.
Proof.
  intros Hr Hg Hrec Hmap grid run.
  destruct (tuning_als_recognised
              train_data val_data metrics k maxIter user item rating
              rank_list regParam_list Hrec Hmap
              (list_prod_nonempty _ _ Hr Hg))
    as (i & p & Hrun & _).
  fold grid in Hrun. fold run in Hrun.
  eexists; eexists. rewrite Hrun. cbn [Py.result Py.events fst snd].
  split; [reflexivity|].
  unfold Modeling.enumerate.
  rewrite fits_point_events, evaluations_point_events.
  unfold full_table. cbn [Modeling.t_rank Modeling.t_regParam
                          Modeling.t_metrics].
  rewrite !length_map. unfold grid. rewrite length_prod.
  repeat split; reflexivity.
Qed.

(** C4. Under "meanAveragePrecision" the grid is not covered.  With the
    candidate ranks 1 and 2 and the regularisation 0.1 the product has
    two pairs; the tuner announces, fits and transforms the first,
    reads the evaluator's property and fails on calling it.  One
    estimator is fitted, the second pair is never reached, and no table
    is returned. *)
Theorem mean_average_precision_stops_the_grid
        (train_data val_data : DataFrame) (k maxIter : Z)
        (user item rating : ColName) :
  let run := Modeling.tuning_als
               (Some train_data) (Some val_data) (Some [1; 2])
               (Some [0.1%Q]) (Some "meanAveragePrecision"%string)
               k maxIter user item rating in
  list_prod [1; 2] [0.1%Q] = [(1, 0.1%Q); (2, 0.1%Q)]
  /\ run = ([Py.Print (Py.StartConfiguration 1);
             Py.Fit (Py.mkALS 1 maxIter 0.1 123 user item rating);
             Py.Transform;
             Py.Evaluate "meanAveragePrecision"],
            Py.Raised Py.TypeError)
  /\ fits (Py.events run) = [Py.mkALS 1 maxIter 0.1 123 user item rating]
  /\ (forall best table,
        Py.result run <> Py.Returned (Some (best, table))).
Proof.
  intros run.
  assert (Hrun : run = ([Py.Print (Py.StartConfiguration 1);
                         Py.Fit (Py.mkALS 1 maxIter 0.1 123 user item rating);
                         Py.Transform;
                         Py.Evaluate "meanAveragePrecision"],
                        Py.Raised Py.TypeError)).
  { unfold run.
    rewrite (tuning_als_mean_average_precision
               train_data val_data "meanAveragePrecision" k maxIter
               user item rating [1; 2] [0.1%Q] eq_refl).
    reflexivity. }
  split; [reflexivity|]. split; [exact Hrun|].
  rewrite Hrun. split; [reflexivity|].
  intros best table. cbn [Py.result snd]. discriminate.
Qed.

(** C3. Whenever the tuner returns a table, the returned record is a row
    of it whose score is the smallest recorded score under rmse, mae and
    r2 and the largest recorded score under precisionAt,
    meanAveragePrecision and ndcgAt.  Over non-empty candidate lists it
    does return one under rmse, mae, r2, precisionAt and ndcgAt; under
    meanAveragePrecision the run ends with a TypeError and produces no
    table.  On the scores 1.2, 0.9 the smallest is picked at index 1, on
    0.55, 0.61 the largest at index 1. *)
Theorem tuning_als_best_is_extremal
        (train_data val_data : DataFrame) (rank_list : list Z)
        (regParam_list : list Q) (metrics : string) (k maxIter : Z)
        (user item rating : ColName) :
  rank_list <> [] -> regParam_list <> [] -> recognised metrics = true ->
  let run := Modeling.tuning_als
               (Some train_data) (Some val_data) (Some rank_list)
               (Some regParam_list) (Some metrics) k maxIter
               user item rating in
  (forall best table,
     Py.result run = Py.Returned (Some (best, table)) ->
     Modeling.t_metrics table <> []
     /\ (exists i,
           nth_error (Modeling.t_rank table) i = Some (Modeling.b_rank best)
           /\ nth_error (Modeling.t_regParam table) i =
              Some (Modeling.b_regParam best)
           /\ nth_error (Modeling.t_metrics table) i =
              Some (Modeling.b_metrics best))
     /\ (Modeling.member metrics Modeling.regression_names = true ->
         forall s, In s (Modeling.t_metrics table) ->
                   (Modeling.b_metrics best <= s)%Q)
     /\ (Modeling.member metrics Modeling.ranking_names = true ->
         forall s, In s (Modeling.t_metrics table) ->
                   (s <= Modeling.b_metrics best)%Q))
  /\ (metrics <> "meanAveragePrecision"%string ->
      exists best table, Py.result run = Py.Returned (Some (best, table)))
  /\ (metrics = "meanAveragePrecision"%string ->
      Py.result run = Py.Raised Py.TypeError)
  /\ Np.argmin [1.2; 0.9]%Q = Py.ret 1%nat
  /\ Np.argmax [0.55; 0.61]%Q = Py.ret 1%nat.
Proof.
  intros Hr Hg Hrec run.
  pose proof (list_prod_nonempty _ _ Hr Hg) as Hne.
  destruct (string_dec metrics "meanAveragePrecision") as [Hmap | Hmap].
  - assert (Hrun : Py.result run = Py.Raised Py.TypeError).
    { unfold run.
      rewrite (tuning_als_mean_average_precision
                 train_data val_data metrics k maxIter user item rating
                 rank_list regParam_list Hmap).
      destruct (list_prod rank_list regParam_list); [congruence|reflexivity]. }
    split; [intros best table Hret; congruence|].
    split; [intros Hno; contradiction|].
    split; [intros _; exact Hrun|].
    split; reflexivity.
  - destruct (tuning_als_recognised
                train_data val_data metrics k maxIter user item rating
                rank_list regParam_list Hrec Hmap Hne)
      as (i & p & Hrun & Hp & Hmin & Hmax).
    fold run in Hrun.
    split; [|split; [|split; [|split; reflexivity]]].
    + intros best table. rewrite Hrun. cbn [Py.result snd].
      intros Hret. injection Hret as <- <-.
      cbn [Modeling.b_rank Modeling.b_regParam Modeling.b_metrics].
      split; [|split; [|split]].
      * unfold full_table. cbn [Modeling.t_metrics].
        destruct (list_prod rank_list regParam_list);
          [congruence|discriminate].
      * exists i. unfold full_table.
        cbn [Modeling.t_rank Modeling.t_regParam Modeling.t_metrics].
        rewrite !nth_error_map, Hp. repeat split; reflexivity.
      * intros Hreg. apply (Hmin Hreg).
      * intros Hrank.
        destruct (Modeling.member metrics Modeling.regression_names) eqn:Ereg.
        -- apply names_disjoint in Ereg. congruence.
        -- apply (Hmax eq_refl).
    + intros _. eexists; eexists. rewrite Hrun. reflexivity.
    + intros Hyes. contradiction.
Qed.

(** C9. Every score enters the table rounded to four decimals (a multiple
    of 1/10000 within half a unit of the evaluator's value), the best
    record is chosen among the rounded scores, and among grid points that
    share the extremal rounded score it is the first in product order:
    every earlier point is strictly worse.  Product order is rank-major:
    pair number [a * |regParam_list| + b] is the [a]-th rank with the
    [b]-th regularisation.  This is so under rmse, mae, r2, precisionAt
    and ndcgAt; under meanAveragePrecision no score comes back from the
    evaluator, so none is rounded or stored and nothing is selected. *)
Theorem tuning_als_rounds_then_picks_first
        (train_data val_data : DataFrame) (rank_list : list Z)
        (regParam_list : list Q) (metrics : string) (k maxIter : Z)
        (user item rating : ColName) :
  rank_list <> [] -> regParam_list <> [] -> recognised metrics = true ->
  let grid := list_prod rank_list regParam_list in
  let raw := grid_score train_data val_data metrics k maxIter
                        user item rating in
  let run := Modeling.tuning_als
               (Some train_data) (Some val_data) (Some rank_list)
               (Some regParam_list) (Some metrics) k maxIter
               user item rating in
  (metrics <> "meanAveragePrecision"%string ->
   exists i p best table,
     Py.result run = Py.Returned (Some (best, table))
     /\ Modeling.t_metrics table = map (fun q => Py.round (raw q) 4) grid
     /\ (forall q, exists z : Z,
           Py.round (raw q) 4 = Qmake z 10000
           /\ (raw q - (1 # 20000) <= Py.round (raw q) 4)%Q
           /\ (Py.round (raw q) 4 <= raw q + (1 # 20000))%Q)
     /\ nth_error grid i = Some p
     /\ best = Modeling.mkBest (fst p) (snd p) metrics (Py.round (raw p) 4)
     /\ (Modeling.member metrics Modeling.regression_names = true ->
         (forall s, In s (Modeling.t_metrics table) ->
                    (Py.round (raw p) 4 <= s)%Q)
         /\ forall j q, (j < i)%nat -> nth_error grid j = Some q ->
                        (Py.round (raw p) 4 < Py.round (raw q) 4)%Q)
     /\ (Modeling.member metrics Modeling.ranking_names = true ->
         (forall s, In s (Modeling.t_metrics table) ->
                    (s <= Py.round (raw p) 4)%Q)
         /\ forall j q, (j < i)%nat -> nth_error grid j = Some q ->
                        (Py.round (raw q) 4 < Py.round (raw p) 4)%Q))
  /\ (metrics = "meanAveragePrecision"%string ->
      Py.result run = Py.Raised Py.TypeError)
  /\ (forall a b r g,
        nth_error rank_list a = Some r ->
        nth_error regParam_list b = Some g ->
        nth_error grid (a * List.length regParam_list + b) = Some (r, g)).
Proof.
  intros Hr Hg Hrec grid raw run.
  pose proof (list_prod_nonempty _ _ Hr Hg) as Hne.
  split; [|split].
  - intros Hmap.
    destruct (tuning_als_recognised
                train_data val_data metrics k maxIter user item rating
                rank_list regParam_list Hrec Hmap Hne)
      as (i & p & Hrun & Hp & Hmin & Hmax).
    fold run in Hrun.
    exists i, p. eexists; eexists. rewrite Hrun. cbn [Py.result snd].
    split; [reflexivity|]. split; [reflexivity|].
    split; [intros q; apply round_4_nearest|].
    split; [exact Hp|]. split; [reflexivity|].
    assert (Hrow : forall j q,
               nth_error grid j = Some q ->
               nth_error (Modeling.t_metrics
                            (full_table train_data val_data metrics k maxIter
                                        user item rating grid)) j =
               Some (Py.round (raw q) 4)).
    { intros j q Hq. unfold full_table. cbn [Modeling.t_metrics].
      rewrite nth_error_map, Hq. reflexivity. }
    split.
    + intros Hreg. destruct (Hmin Hreg) as [Hall Hfirst].
      split; [exact Hall|]. intros j q Hj Hq.
      apply (Hfirst j _ Hj). now apply Hrow.
    + intros Hrank.
      destruct (Modeling.member metrics Modeling.regression_names) eqn:Ereg.
      * apply names_disjoint in Ereg. congruence.
      * destruct (Hmax eq_refl) as [Hall Hfirst].
        split; [exact Hall|]. intros j q Hj Hq.
        apply (Hfirst j _ Hj). now apply Hrow.
  - intros Hmap. unfold run.
    rewrite (tuning_als_mean_average_precision
               train_data val_data metrics k maxIter user item rating
               rank_list regParam_list Hmap).
    destruct (list_prod rank_list regParam_list); [congruence|reflexivity].
  - intros a b r g Ha Hb. now apply list_prod_rank_major.
Qed.

(** C6. With any of the two candidate lists, the two data sets or the
    metric missing, the tuner prints one error line and returns None:
    no estimator is fitted and nothing is scored.  Both evaluators do the
    same when the dataset is missing. *)
Theorem missing_arguments_return_early
        (train_data val_data : option DataFrame)
        (rank_list : option (list Z)) (regParam_list : option (list Q))
        (metrics : option string) (k maxIter : Z) (name : string)
        (user item rating : ColName) :
  rank_list = None \/ regParam_list = None \/ train_data = None \/
  val_data = None \/ metrics = None ->
  let run := Modeling.tuning_als train_data val_data rank_list regParam_list
                                 metrics k maxIter user item rating in
  (exists msg, run = ([Py.Print (Py.Text msg)], Py.Returned None))
  /\ fits (Py.events run) = []
  /\ evaluations (Py.events run) = []
  /\ Modeling.top_k_rankingmetrics None k name user item rating =
     ([Py.Print (Py.Text "Error! Please specify a dataset.")],
      Py.Returned None)
  /\ Modeling.top_k_regressionmetrics None k name user item rating =
     ([Py.Print (Py.Text "Error! Please specify a dataset.")],
      Py.Returned None).
Proof.
  intros Hmiss run.
  assert (Hrun : exists msg,
             run = ([Py.Print (Py.Text msg)], Py.Returned None)).
  { unfold run, Modeling.tuning_als.
    destruct rank_list as [rl|]; [|eexists; reflexivity].
    destruct regParam_list as [gl|]; [|eexists; reflexivity].
    destruct train_data as [tr|]; [|eexists; reflexivity].
    destruct val_data as [va|]; [|eexists; reflexivity].
    destruct metrics as [m|]; [|eexists; reflexivity].
    exfalso. destruct Hmiss as [Hm|[Hm|[Hm|[Hm|Hm]]]]; discriminate Hm. }
  split; [exact Hrun|].
  destruct Hrun as [msg ->].
  repeat split; reflexivity.
Qed.

(** C10. A metric name outside the six recognised ones passes the
    missing-argument checks; the first grid point is announced, fitted and
    transformed, nothing is scored, and reading the score raises the
    unassigned-variable error.  The ranking evaluator returns None on a
    dataset for a name that is none of its three. *)
Theorem unrecognised_metric_fails_after_first_fit
        (train_data val_data : DataFrame) (r0 : Z) (rank_list : list Z)
        (g0 : Q) (regParam_list : list Q) (metrics name : string)
        (k maxIter : Z) (user item rating : ColName)
        (dataset : list PredRow) :
  recognised metrics = false ->
  Modeling.member name Modeling.ranking_names = false ->
  Modeling.tuning_als (Some train_data) (Some val_data)
                      (Some (r0 :: rank_list)) (Some (g0 :: regParam_list))
                      (Some metrics) k maxIter user item rating
  = ([Py.Print (Py.StartConfiguration 1);
      Py.Fit (Py.mkALS r0 maxIter g0 123 user item rating);
      Py.Transform;
      Py.Print (Py.FinishConfiguration 1)],
     Py.Raised (Py.UnboundLocalError "metrics_result"))
  /\ Modeling.top_k_rankingmetrics (Some dataset) k name user item rating
     = ([], Py.Returned None).
Proof.
  intros Hrec Hname. split.
  - rewrite (tuning_als_unrecognised train_data val_data metrics k maxIter
               user item rating _ _ Hrec).
    reflexivity.
  - unfold Modeling.member, Modeling.ranking_names in Hname.
    cbn [existsb] in Hname. unfold Modeling.top_k_rankingmetrics.
    destruct (name =? "precisionAt")%string; [discriminate|].
    destruct (name =? "meanAveragePrecision")%string; [discriminate|].
    destruct (name =? "ndcgAt")%string; [discriminate|].
    reflexivity.
Qed.

End TuningClaims.

(* ================================================================== *)
(** * modeling.py: the per-user top-k window *)

Section WindowFacts.
Context {A : Type} (part : A -> Z) (key : A -> Q).


Lemma insert_desc_perm (x : A) (l : list A) :
  Permutation (Window.insert_desc key x l) (x :: l).
Proof.
  induction l as [|y l IH]; simpl; [reflexivity|].
  destruct (Qle_bool (key y) (key x)); [reflexivity|].
  rewrite IH. apply perm_swap.
Qed.

Lemma sort_desc_perm (l : list A) : Permutation (Window.sort_desc key l) l.
Proof.
  induction l as [|x l IH]; simpl; [reflexivity|].
  rewrite insert_desc_perm. now constructor.
Qed.

Lemma filter_filter (f g : A -> bool) (l : list A) :
  filter f (filter g l) = filter (fun x => g x && f x) l.
Proof.
  induction l as [|x l IH]; simpl; [reflexivity|].
  destruct (g x); simpl; [destruct (f x)|]; now rewrite IH.
Qed.

Lemma Permutation_flat_map_ext {B} (f g : B -> list A) (l : list B) :
  (forall u, In u l -> Permutation (f u) (g u)) ->
  Permutation (flat_map f l) (flat_map g l).
Proof.
  induction l as [|u l IH]; simpl; intros Hfg; [reflexivity|].
  apply Permutation_app; [apply Hfg; now left|].
  apply IH. intros v Hv. apply Hfg. now right.
Qed.

(** Grouping by key and concatenating the groups rearranges the list. *)
Lemma group_by_perm (keys : list Z) :
  NoDup keys ->
  forall l, (forall x, In x l -> In (part x) keys) ->
            Permutation
              (flat_map (fun u => filter (fun r => part r =? u) l) keys) l.
Proof.
  induction 1 as [|u keys Hu Hnd IH]; intros l Hin; simpl.
  - destruct l as [|x l]; [reflexivity|].
    exfalso. apply (Hin x). now left.
  - set (rest := filter (fun r => negb (part r =? u)) l).
    assert (Hrest : Permutation
                      (flat_map (fun v => filter (fun r => part r =? v) l) keys)
                      rest).
    { rewrite <- (IH rest).
      - apply Permutation_flat_map_ext. intros v Hv. unfold rest.
        rewrite filter_filter.
        erewrite filter_ext; [reflexivity|]. intros r. simpl.
        destruct (Z.eqb_spec (part r) v) as [->|Hne].
        + destruct (Z.eqb_spec v u) as [->|_]; [contradiction|reflexivity].
        + now rewrite andb_false_r.
      - intros x Hx. unfold rest in Hx. apply filter_In in Hx.
        destruct Hx as [Hx Hne]. cbv beta in Hne.
        destruct (Hin x Hx) as [E|Hk]; [|assumption].
        rewrite <- E, Z.eqb_refl in Hne. discriminate. }
    rewrite Hrest. unfold rest. clear.
    induction l as [|x l IHl]; simpl; [reflexivity|].
    destruct (part x =? u); simpl.
    + now constructor.
    + symmetry. apply Permutation_cons_app. now symmetry.
Qed.

Lemma map_fst_filter_rank (g : A -> Z) (k : Z) (l : list A) :
  map fst (filter (fun rk : A * Z => snd rk <=? k) (map (fun r => (r, g r)) l))
  = filter (fun r => g r <=? k) l.
Proof.
  induction l as [|x l IH]; simpl; [reflexivity|].
  destruct (g x <=? k); simpl; now rewrite IH.
Qed.

Lemma where_rank_le_eq (k : Z) (rows : list A) :
  Window.where_rank_le k (Window.rank_over part key rows) =
  flat_map
    (fun u =>
       let p := Window.sort_desc key (filter (fun r => part r =? u) rows) in
       filter (fun r => Window.sql_rank key p r <=? k) p)
    (nodup Z.eq_dec (map part rows)).
Proof.
  unfold Window.where_rank_le, Window.rank_over.
  induction (nodup Z.eq_dec (map part rows)) as [|u us IH]; simpl;
    [reflexivity|].
  rewrite filter_app, map_app, IH. f_equal. apply map_fst_filter_rank.
Qed.

Lemma sql_rank_partition (rows : list A) (x : A) :
  Window.sql_rank
    key (Window.sort_desc key (filter (fun r => part r =? part x) rows)) x
  = rank_in part key rows x.
Proof.
  unfold Window.sql_rank, rank_in. do 2 f_equal.
  rewrite (Permutation_length
             (Permutation_filter _ _ _ (sort_desc_perm _))).
  now rewrite filter_filter.
Qed.

(** The window keeps exactly the rows whose rank within their partition
    is at most [k], each as often as it occurs. *)
Lemma where_rank_le_perm (k : Z) (rows : list A) :
  Permutation (Window.where_rank_le k (Window.rank_over part key rows))
              (filter (fun r => rank_in part key rows r <=? k) rows).
Proof.
  rewrite where_rank_le_eq.
  set (kept := filter (fun r => rank_in part key rows r <=? k) rows).
  rewrite <- (group_by_perm (nodup Z.eq_dec (map part rows))
                            (NoDup_nodup _ _) kept).
  - apply Permutation_flat_map_ext. intros u Hu. cbv zeta.
    rewrite (Permutation_filter _ _ _ (sort_desc_perm _)).
    unfold kept. rewrite !filter_filter.
    erewrite filter_ext; [reflexivity|]. intros r. simpl.
    destruct (Z.eqb_spec (part r) u) as [<-|Hne].
    + rewrite sql_rank_partition. now rewrite andb_true_r.
    + now rewrite andb_false_r.
  - intros x Hx. unfold kept in Hx. apply filter_In in Hx.
    apply nodup_In, in_map. tauto.
Qed.

(** The kept rows of one partition, as the window lists them: the
    partition sorted by key descending, cut at rank [k]. *)
Lemma where_rank_le_partition (k : Z) (rows : list A) (u : Z) :
  filter (fun r => part r =? u)
         (Window.where_rank_le k (Window.rank_over part key rows))
  = let p := Window.sort_desc key (filter (fun r => part r =? u) rows) in
    filter (fun r => Window.sql_rank key p r <=? k) p.
Proof.
  rewrite where_rank_le_eq. cbv zeta.
  assert (Hpart : forall v x,
             In x (Window.sort_desc key (filter (fun r => part r =? v) rows))
             -> part x = v).
  { intros v x Hx. apply (Permutation_in _ (sort_desc_perm _)) in Hx.
    apply filter_In in Hx. now apply Z.eqb_eq. }
  assert (Hgen : forall us,
             NoDup us ->
             filter (fun r => part r =? u)
               (flat_map
                  (fun v =>
                     filter
                       (fun r =>
                          Window.sql_rank
                            key (Window.sort_desc
                                   key (filter (fun r => part r =? v) rows)) r
                          <=? k)
                       (Window.sort_desc
                          key (filter (fun r => part r =? v) rows))) us)
             = if in_dec Z.eq_dec u us then
                 filter
                   (fun r =>
                      Window.sql_rank
                        key (Window.sort_desc
                               key (filter (fun r => part r =? u) rows)) r
                      <=? k)
                   (Window.sort_desc key (filter (fun r => part r =? u) rows))
               else []).
  { induction 1 as [|v us Hv Hnd IH]; [reflexivity|].
    cbn [flat_map]. rewrite filter_app, IH. clear IH.
    destruct (Z.eq_dec v u) as [->|Hne].
    - destruct (in_dec Z.eq_dec u (u :: us)) as [_|Hn];
        [|exfalso; apply Hn; now left].
      destruct (in_dec Z.eq_dec u us) as [Hin|_]; [contradiction|].
      rewrite app_nil_r. rewrite filter_filter.
      apply filter_ext_in. intros x Hx.
      rewrite (Hpart u x Hx), Z.eqb_refl. apply andb_true_r.
    - assert (Hnone :
        filter (fun r => part r =? u)
          (filter
             (fun r =>
                Window.sql_rank
                  key (Window.sort_desc
                         key (filter (fun r => part r =? v) rows)) r <=? k)
             (Window.sort_desc key (filter (fun r => part r =? v) rows)))
        = []).
      { rewrite filter_filter.
        erewrite filter_ext_in; [apply filter_false|].
        intros x Hx. cbv beta. rewrite (Hpart v x Hx).
        destruct (Z.eqb_spec v u); [contradiction|]. apply andb_false_r. }
      rewrite Hnone. cbn [app].
      destruct (in_dec Z.eq_dec u us) as [Hin|Hn];
        destruct (in_dec Z.eq_dec u (v :: us)) as [Hin'|Hn'];
        try reflexivity.
      + exfalso. apply Hn'. now right.
      + exfalso. destruct Hin' as [E|Hin']; [congruence|contradiction]. }
  rewrite (Hgen _ (NoDup_nodup _ _)).
  destruct (in_dec Z.eq_dec u (nodup Z.eq_dec (map part rows))) as [_|Hn];
    [reflexivity|].
  assert (Hempty : filter (fun r => part r =? u) rows = []).
  { erewrite filter_ext_in; [apply filter_false|].
    intros x Hx. cbv beta. destruct (Z.eqb_spec (part x) u) as [E|_];
      [|reflexivity].
    exfalso. apply Hn. apply nodup_In. rewrite <- E. now apply in_map. }
  rewrite Hempty. reflexivity.
Qed.

End WindowFacts.

Section WindowOrder.
Context {A : Type} (key : A -> Q).


Lemma insert_desc_descending (x : A) (l : list A) :
  descending key l -> descending key (Window.insert_desc key x l).
Proof.
  induction l as [|y t IH]; simpl; intros Hd; [tauto|].
  destruct Hd as [Hy Ht].
  destruct (Qle_bool (key y) (key x)) eqn:E; simpl.
  - apply Qle_bool_iff in E. split; [|tauto].
    intros z [<-|Hz]; [assumption|].
    eapply Qle_trans; [apply Hy, Hz | assumption].
  - split; [|now apply IH].
    intros z Hz. apply (Permutation_in _ (insert_desc_perm key x t)) in Hz.
    destruct Hz as [<-|Hz]; [|now apply Hy].
    apply Qlt_le_weak, Qnot_le_lt. intros Hle.
    apply Qle_bool_iff in Hle. congruence.
Qed.

Lemma sort_desc_descending (l : list A) :
  descending key (Window.sort_desc key l).
Proof.
  induction l as [|x l IH]; simpl; [exact I|].
  now apply insert_desc_descending.
Qed.

Lemma filter_descending (f : A -> bool) (l : list A) :
  descending key l -> descending key (filter f l).
Proof.
  induction l as [|x t IH]; simpl; intros Hd; [exact I|].
  destruct Hd as [Hx Ht]. destruct (f x); simpl; [|now apply IH].
  split; [|now apply IH]. intros y Hy. apply filter_In in Hy. apply Hx, Hy.
Qed.

End WindowOrder.

Section EvaluatorClaims.
Context `{Engine}.


Lemma top_k_of_perm (dataset : list PredRow) (k : Z) (user : ColName)
      (key : PredRow -> Q) (u : Z) :
  Permutation
    (top_k_of dataset k user key u)
    (filter (fun r => (col user (base r) =? u)
                      && (rank_in (fun r => col user (base r)) key dataset r
                          <=? k))
            dataset).
Proof.
  unfold top_k_of.
  rewrite <- (where_rank_le_partition (fun r => col user (base r)) key).
  rewrite (Permutation_filter _ _ _ (where_rank_le_perm _ key k dataset)).
  rewrite filter_filter.
  erewrite filter_ext; [reflexivity|]. intros r. apply andb_comm.
Qed.

Lemma In_collect_list {A} (user item : A -> Z) (rows : list A) (u : Z)
      (items : list Z) :
  In (u, items) (Window.collect_list user item rows) <->
  (exists r, In r rows /\ user r = u)
  /\ items = map item (filter (fun r => user r =? u) rows).
Proof.
  unfold Window.collect_list. rewrite in_map_iff. split.
  - intros [v [Hv Hin]]. inversion Hv; subst. split; [|reflexivity].
    apply nodup_In, in_map_iff in Hin. destruct Hin as [r [Hr Hin]].
    exists r. tauto.
  - intros [[r [Hr Hu]] ->]. exists u. split; [reflexivity|].
    apply nodup_In. rewrite <- Hu. now apply in_map.
Qed.

End EvaluatorClaims.

(* ================================================================== *)
(** * Seeded sampling *)

Section Seeds.
Variables E1 E2 : Engine.

Lemma rand_agree (seed : Z) :
  (forall i, @next53 E1 seed i = @next53 E2 seed i) ->
  forall i, @Spark.rand E1 seed i = @Spark.rand E2 seed i.
Proof. intros Hs i. unfold Spark.rand. now rewrite Hs. Qed.

Lemma sample_agree {A} (seed : Z) (fraction : Q) (df : list A) :
  (forall i, @next53 E1 seed i = @next53 E2 seed i) ->
  @Spark.sample E1 A fraction seed df = @Spark.sample E2 A fraction seed df.
Proof.
  intros Hs. unfold Spark.sample. apply filter_pos_ext.
  intros n _. now rewrite (rand_agree seed Hs).
Qed.

Lemma sampleBy_agree (seed : Z) (c : ColName) (fractions : list (Z * Q))
      (df : DataFrame) :
  (forall i, @next53 E1 seed i = @next53 E2 seed i) ->
  @Spark.sampleBy E1 c fractions seed df =
  @Spark.sampleBy E2 c fractions seed df.
Proof.
  intros Hs. unfold Spark.sampleBy. apply filter_pos_ext.
  intros n r. now rewrite (rand_agree seed Hs).
Qed.

Lemma randomSplit_agree {A} (seed : Z) (weights : list Q) (df : list A) :
  (forall i, @next53 E1 seed i = @next53 E2 seed i) ->
  @Spark.randomSplit E1 A weights seed df =
  @Spark.randomSplit E2 A weights seed df.
Proof.
  intros Hs. unfold Spark.randomSplit. apply map_ext. intros b.
  apply filter_pos_ext. intros n _. now rewrite (rand_agree seed Hs).
Qed.

Lemma customized_split_func_agree (data train : DataFrame)
      (val_user : list Z) (user : ColName) (set_seed : Z) :
  (forall i, @next53 E1 set_seed i = @next53 E2 set_seed i) ->
  @Modeling.customized_split_func E1 data train val_user user set_seed =
  @Modeling.customized_split_func E2 data train val_user user set_seed.
Proof.
  intros Hs. unfold Modeling.customized_split_func.
  now rewrite (sampleBy_agree set_seed user _ _ Hs).
Qed.

(** C5. The user sample of the downsampler and the three frames of the
    splitter are functions of their inputs and of the generator's stream
    for the seed 123 that every sampling call passes: two runs whose
    engines agree on that stream select the same users, print the same
    line and return the same frames. *)
Theorem sampling_fixed_by_seed (data : DataFrame) (user_df : list Z)
        (user : ColName) (percentage : Q) :
  (forall i, @next53 E1 123 i = @next53 E2 123 i) ->
  @Spark.sample E1 Z percentage 123 user_df =
  @Spark.sample E2 Z percentage 123 user_df
  /\ @Downsampling.downsampling E1 data user_df user percentage =
     @Downsampling.downsampling E2 data user_df user percentage
  /\ @Modeling.train_val_test_split E1 data user =
     @Modeling.train_val_test_split E2 data user.
Proof.
  intros Hs. split; [now apply sample_agree|]. split.
  - unfold Downsampling.downsampling. now rewrite (sample_agree 123 _ _ Hs).
  - unfold Modeling.train_val_test_split.
    rewrite (randomSplit_agree 123 _ _ Hs).
    rewrite (customized_split_func_agree _ _ _ _ 123 Hs).
    destruct (@Modeling.customized_split_func E2 _ _ _ _ _) as [train val].
    now rewrite (customized_split_func_agree _ _ _ _ 123 Hs).
Qed.

End Seeds.



Section SplitCounts.
Context `{Engine}.

Lemma count_occ_filter_pos (keep : nat -> Row -> bool) (l : DataFrame)
      (r : Row) :
  forall i,
    (count_occ Row_eq_dec (Spark.filter_pos keep i l) r
     <= count_occ Row_eq_dec l r)%nat.
Proof.
  induction l as [|x l IH]; intros i; simpl; [lia|].
  specialize (IH (S i)).
  destruct (keep i x); simpl; destruct (Row_eq_dec x r); lia.
Qed.

(** Held-out rows plus rows folded back never exceed the group's rows. *)
Lemma held_out_no_more (data : DataFrame) (user : ColName) (j : nat)
      (r : Row) :
  (count_occ Row_eq_dec (held_out data user j) r
   + count_occ Row_eq_dec
       (Spark.subtract (group_rows data user j) (held_out data user j)) r
   <= count_occ Row_eq_dec (group_rows data user j) r)%nat.
Proof.
  pose proof (count_occ_filter_pos
                (fun i r0 =>
                   Spark.Qltb
                     (Spark.rand 123 i)
                     match
                       Spark.dict_get
                         (map (fun uid => (uid, 0.5%Q))
                              (user_group 123 j (Spark.distinct_col user data)))
                         (col user r0)
                     with
                     | Some f => f
                     | None => 0%Q
                     end)
                (group_rows data user j) r 0%nat) as Hheld.
  fold (Spark.sampleBy
          user
          (map (fun uid => (uid, 0.5%Q))
               (user_group 123 j (Spark.distinct_col user data)))
          123 (group_rows data user j)) in Hheld.
  fold (held_out data user j) in Hheld.
  set (s := Spark.subtract (group_rows data user j) (held_out data user j)).
  destruct (in_dec Row_eq_dec r s) as [Hin|Hout].
  - pose proof (proj1 (NoDup_count_occ' Row_eq_dec s)
                      (NoDup_subtract _ _) r Hin) as Hone.
    apply In_subtract in Hin. destruct Hin as [Hg Hnh].
    apply (count_occ_not_In Row_eq_dec) in Hnh.
    apply (count_occ_In Row_eq_dec) in Hg. lia.
  - apply (count_occ_not_In Row_eq_dec) in Hout. lia.
Qed.

(** On every table, no row occurs more often in the three frames taken
    together than in the table. *)
Lemma split_never_adds_rows (data : DataFrame) (user : ColName) (r : Row) :
  let '(train, val, test) := Modeling.train_val_test_split data user in
  (count_occ Row_eq_dec (train ++ val ++ test) r
   <= count_occ Row_eq_dec data r)%nat.
Proof.
  rewrite train_val_test_split_eq.
  rewrite <- (proj1 (Permutation_count_occ Row_eq_dec _ _)
                    (group_rows_partition data user) r).
  rewrite !count_occ_app.
  pose proof (held_out_no_more data user 1 r).
  pose proof (held_out_no_more data user 2 r).
  lia.
Qed.

Lemma count_occ_group_rows (data : DataFrame) (user : ColName) (j : nat)
      (r : Row) :
  count_occ Row_eq_dec (group_rows data user j) r =
  if in_dec Z.eq_dec (col user r)
            (user_group 123 j (Spark.distinct_col user data))
  then count_occ Row_eq_dec data r else 0%nat.
Proof.
  unfold group_rows. rewrite count_occ_join_on.
  destruct (in_dec Z.eq_dec _ _) as [Hin|Hout].
  - rewrite (proj1 (NoDup_count_occ' Z.eq_dec _)
                   (NoDup_user_group 123 j _ (NoDup_distinct_col user data))
                   _ Hin).
    lia.
  - apply (count_occ_not_In Z.eq_dec) in Hout. rewrite Hout. lia.
Qed.

(** Where the loss comes from, on any engine: a row that the table holds
    at least twice, whose user lands in the validation or the test group
    and whose copies are not all held out, has fewer copies after the
    split than before. *)
Lemma split_loses_copies (data : DataFrame) (user : ColName) (j : nat)
      (r : Row) :
  j = 1%nat \/ j = 2%nat ->
  In (col user r) (user_group 123 j (Spark.distinct_col user data)) ->
  (2 <= count_occ Row_eq_dec data r)%nat ->
  (count_occ Row_eq_dec (held_out data user j) r
   < count_occ Row_eq_dec data r)%nat ->
  let '(train, val, test) := Modeling.train_val_test_split data user in
  (count_occ Row_eq_dec (train ++ val ++ test) r
   < count_occ Row_eq_dec data r)%nat.
Proof.
  intros Hj Hin Htwice Hheld. rewrite train_val_test_split_eq.
  rewrite !count_occ_app.
  assert (Hother : forall j', j' <> j ->
            count_occ Row_eq_dec (group_rows data user j') r = 0%nat).
  { intros j' Hne. rewrite count_occ_group_rows.
    destruct (in_dec Z.eq_dec _ _) as [Hin'|_]; [|reflexivity].
    exfalso. apply Hne.
    exact (user_group_unique 123 _ _ _ _
             (NoDup_distinct_col user data) Hin' Hin). }
  assert (Hmine : count_occ Row_eq_dec (group_rows data user j) r =
                  count_occ Row_eq_dec data r).
  { rewrite count_occ_group_rows.
    destruct (in_dec Z.eq_dec _ _); [reflexivity|contradiction]. }
  assert (Hsub : forall j',
            (count_occ Row_eq_dec
               (Spark.subtract (group_rows data user j')
                               (held_out data user j')) r <= 1)%nat
            /\ ((0 < count_occ Row_eq_dec (held_out data user j') r)%nat ->
                count_occ Row_eq_dec
                  (Spark.subtract (group_rows data user j')
                                  (held_out data user j')) r = 0%nat)).
  { intros j'. split.
    - apply NoDup_count_occ, NoDup_subtract.
    - intros Hpos. apply count_occ_not_In. intros Hs.
      apply In_subtract in Hs. destruct Hs as [_ Hn]. apply Hn.
      now apply (count_occ_In Row_eq_dec). }
  pose proof (held_out_no_more data user 1 r) as Hb1.
  pose proof (held_out_no_more data user 2 r) as Hb2.
  destruct (Hsub 1%nat) as [Hle1 Hz1]. destruct (Hsub 2%nat) as [Hle2 Hz2].
  destruct Hj as [-> | ->].
  - pose proof (Hother 0%nat ltac:(lia)) as H0.
    pose proof (Hother 2%nat ltac:(lia)) as H2.
    rewrite H0. rewrite H2 in Hb2.
    destruct (Nat.eq_dec (count_occ Row_eq_dec (held_out data user 1) r) 0)
      as [E|E]; [lia|].
    rewrite Hz1 by lia. lia.
  - pose proof (Hother 0%nat ltac:(lia)) as H0.
    pose proof (Hother 1%nat ltac:(lia)) as H1.
    rewrite H0. rewrite H1 in Hb1.
    destruct (Nat.eq_dec (count_occ Row_eq_dec (held_out data user 2) r) 0)
      as [E|E]; [lia|].
    rewrite Hz2 by lia. lia.
Qed.

End SplitCounts.

(* ================================================================== *)
(** * Worked runs of the claims *)

(** C1. On a table that holds the same row twice the splitter loses a
    copy.  The only user lands in the validation group; when no copy is
    held out, [subtract] folds one copy back instead of two, and when
    one copy is held out, [subtract] folds nothing back because the row
    value occurs in the held-out frame.  Either way the user's two rows
    are one row after the split. *)
Theorem split_loses_repeated_row :
  let r := Scenario.interaction 1 10 5 in
  @Modeling.train_val_test_split Scenario.engine_075 [r; r] UserId
  = ([r], [], [])
  /\ @Modeling.train_val_test_split Scenario.engine_075_025 [r; r] UserId
     = ([], [r], [])
  /\ List.length (rows_of UserId 1 [r; r]) = 2%nat
  /\ List.length (rows_of UserId 1 ([r] ++ [] ++ [])) = 1%nat
  /\ List.length (rows_of UserId 1 ([] ++ [r] ++ [])) = 1%nat.
Proof.
  cbv zeta. repeat split; vm_compute; reflexivity.
Qed.

Lemma split_partition_distinct_rows_run :
  NoDup Scenario.two_rows
  /\ @Modeling.train_val_test_split Scenario.engine_075_025
                                    Scenario.two_rows UserId
     = ([Scenario.interaction 1 10 5], [Scenario.interaction 1 20 3], []).
Proof.
  split; [|vm_compute; reflexivity].
  repeat constructor; simpl; intuition discriminate.
Qed.

Lemma tuning_als_covers_grid_run :
  ([1; 2] <> [] /\ [0.1%Q; 0.2%Q] <> [] /\ recognised "rmse" = true
   /\ "rmse"%string <> "meanAveragePrecision"%string)
  /\ exists best table,
       Py.result
         (@Modeling.tuning_als
            Scenario.rmse_engine (Some Scenario.two_rows)
            (Some Scenario.two_rows) (Some [1; 2]) (Some [0.1%Q; 0.2%Q])
            (Some "rmse"%string) 10 5 UserId BookId Rating)
       = Py.Returned (Some (best, table))
       /\ Modeling.t_rank table = [1; 1; 2; 2]
       /\ Modeling.t_regParam table = [0.1%Q; 0.2%Q; 0.1%Q; 0.2%Q]
       /\ List.length (Modeling.t_metrics table) = 4%nat.
Proof.
  assert (H1 : [1; 2] <> []) by discriminate.
  assert (H2 : [0.1%Q; 0.2%Q] <> []) by discriminate.
  assert (H3 : recognised "rmse" = true) by reflexivity.
  assert (H4 : "rmse"%string <> "meanAveragePrecision"%string)
    by discriminate.
  split; [repeat split; assumption|].
  destruct (@tuning_als_covers_grid
              Scenario.rmse_engine Scenario.two_rows Scenario.two_rows
              [1; 2] [0.1%Q; 0.2%Q] "rmse"%string 10 5 UserId BookId Rating
              H1 H2 H3 H4)
    as (best & table & Hres & _ & _ & Hrank & Hreg & _ & _ & _ & Hlen).
  exists best, table. repeat split; assumption.
Qed.

Lemma tuning_als_best_is_extremal_witness :
  ([1; 2] <> [] /\ [0.1%Q] <> [] /\ recognised "ndcgAt" = true)
  /\ exists best table,
       Py.result
         (@Modeling.tuning_als
            Scenario.ndcg_engine (Some Scenario.two_rows)
            (Some Scenario.two_rows) (Some [1; 2]) (Some [0.1%Q])
            (Some "ndcgAt"%string) 10 5 UserId BookId Rating)
       = Py.Returned (Some (best, table))
       /\ forall s, In s (Modeling.t_metrics table) ->
                    (s <= Modeling.b_metrics best)%Q.
Proof.
  assert (H1 : [1; 2] <> []) by discriminate.
  assert (H2 : [0.1%Q] <> []) by discriminate.
  assert (H3 : recognised "ndcgAt" = true) by reflexivity.
  split; [repeat split; assumption|].
  destruct (@tuning_als_best_is_extremal
              Scenario.ndcg_engine Scenario.two_rows Scenario.two_rows
              [1; 2] [0.1%Q] "ndcgAt"%string 10 5 UserId BookId Rating
              H1 H2 H3)
    as (Hrel & Hret & _).
  assert (H4 : "ndcgAt"%string <> "meanAveragePrecision"%string)
    by discriminate.
  destruct (Hret H4) as (best & table & Hres).
  exists best, table. split; [assumption|].
  destruct (Hrel best table Hres) as (_ & _ & _ & Hmax).
  apply Hmax. reflexivity.
Defined.

(** The two scenarios of the specification, run through the tuner. *)
Lemma tuning_als_rmse_run :
  Py.result
    (@Modeling.tuning_als
       Scenario.rmse_engine (Some Scenario.two_rows) (Some Scenario.two_rows)
       (Some [1; 2]) (Some [0.1%Q]) (Some "rmse"%string)
       10 5 UserId BookId Rating)
  = Py.Returned
      (Some (Modeling.mkBest 2 0.1 "rmse" (9000 # 10000),
             Modeling.mkTable [1; 2] [0.1%Q; 0.1%Q] "rmse"
                              [12000 # 10000; 9000 # 10000]%Q)).
Proof. vm_compute. reflexivity. Qed.

Lemma tuning_als_ndcg_run :
  Py.result
    (@Modeling.tuning_als
       Scenario.ndcg_engine (Some Scenario.two_rows) (Some Scenario.two_rows)
       (Some [1; 2]) (Some [0.1%Q]) (Some "ndcgAt"%string)
       10 5 UserId BookId Rating)
  = Py.Returned
      (Some (Modeling.mkBest 2 0.1 "ndcgAt" (6100 # 10000),
             Modeling.mkTable [1; 2] [0.1%Q; 0.1%Q] "ndcgAt"
                              [5500 # 10000; 6100 # 10000]%Q)).
Proof. vm_compute. reflexivity. Qed.

Lemma tuning_als_rounds_then_picks_first_witness :
  ([1; 2] <> [] /\ [0.1%Q; 0.2%Q] <> [] /\ recognised "rmse" = true)
  /\ exists i p best table,
       Py.result
         (@Modeling.tuning_als
            Scenario.rmse_engine (Some Scenario.two_rows)
            (Some Scenario.two_rows) (Some [1; 2]) (Some [0.1%Q; 0.2%Q])
            (Some "rmse"%string) 10 5 UserId BookId Rating)
       = Py.Returned (Some (best, table))
       /\ nth_error (list_prod [1; 2] [0.1%Q; 0.2%Q]) i = Some p
       /\ Modeling.b_rank best = fst p
       /\ Modeling.b_regParam best = snd p.
Proof.
  assert (H1 : [1; 2] <> []) by discriminate.
  assert (H2 : [0.1%Q; 0.2%Q] <> []) by discriminate.
  assert (H3 : recognised "rmse" = true) by reflexivity.
  split; [repeat split; assumption|].
  assert (H4 : "rmse"%string <> "meanAveragePrecision"%string)
    by discriminate.
  destruct (@tuning_als_rounds_then_picks_first
              Scenario.rmse_engine Scenario.two_rows Scenario.two_rows
              [1; 2] [0.1%Q; 0.2%Q] "rmse"%string 10 5 UserId BookId Rating
              H1 H2 H3)
    as (Hscored & _ & _).
  destruct (Hscored H4)
    as (i & p & best & table & Hres & _ & _ & Hp & Hbest & _).
  exists i, p, best, table. rewrite Hbest.
  repeat split; try assumption. now rewrite <- Hbest.
Defined.

(** Under meanAveragePrecision the same run stops in its first
    iteration. *)
Lemma tuning_als_mean_average_precision_run :
  @Modeling.tuning_als
    Scenario.ndcg_engine (Some Scenario.two_rows) (Some Scenario.two_rows)
    (Some [1; 2]) (Some [0.1%Q]) (Some "meanAveragePrecision"%string)
    10 5 UserId BookId Rating
  = ([Py.Print (Py.StartConfiguration 1);
      Py.Fit (Py.mkALS 1 5 0.1 123 UserId BookId Rating);
      Py.Transform;
      Py.Evaluate "meanAveragePrecision"],
     Py.Raised Py.TypeError).
Proof. vm_compute. reflexivity. Qed.

(** With two regularisations that score alike, the first in product order
    is returned. *)
Lemma tuning_als_tie_run :
  Py.result
    (@Modeling.tuning_als
       Scenario.rmse_engine (Some Scenario.two_rows) (Some Scenario.two_rows)
       (Some [2; 1; 3]) (Some [0.1%Q; 0.2%Q]) (Some "rmse"%string)
       10 5 UserId BookId Rating)
  = Py.Returned
      (Some (Modeling.mkBest 2 0.1 "rmse" (9000 # 10000),
             Modeling.mkTable
               [2; 2; 1; 1; 3; 3]
               [0.1%Q; 0.2%Q; 0.1%Q; 0.2%Q; 0.1%Q; 0.2%Q] "rmse"
               [9000 # 10000; 9000 # 10000; 12000 # 10000; 12000 # 10000;
                9000 # 10000; 9000 # 10000]%Q)).
Proof. vm_compute. reflexivity. Qed.

Lemma missing_arguments_return_early_witness :
  (@None (list Z) = None \/ Some [0.1%Q] = None \/
   Some Scenario.two_rows = None \/ Some Scenario.two_rows = None \/
   Some "rmse"%string = None)
  /\ @Modeling.tuning_als
       Scenario.rmse_engine (Some Scenario.two_rows) (Some Scenario.two_rows)
       None (Some [0.1%Q]) (Some "rmse"%string) 10 5 UserId BookId Rating
     = ([Py.Print (Py.Text "Error! Please enter rank_list or regParam_list.")],
        Py.Returned None)
  /\ fits (Py.events
             (@Modeling.tuning_als
                Scenario.rmse_engine (Some Scenario.two_rows)
                (Some Scenario.two_rows) None (Some [0.1%Q])
                (Some "rmse"%string) 10 5 UserId BookId Rating)) = [].
Proof.
  assert (Hm : @None (list Z) = None \/ Some [0.1%Q] = None \/
               Some Scenario.two_rows = None \/
               Some Scenario.two_rows = None \/
               Some "rmse"%string = None) by (left; reflexivity).
  split; [exact Hm|].
  destruct (@missing_arguments_return_early
              Scenario.rmse_engine (Some Scenario.two_rows)
              (Some Scenario.two_rows) None (Some [0.1%Q])
              (Some "rmse"%string) 10 5 "rmse"%string UserId BookId Rating Hm)
    as (_ & Hfits & _).
  split; [reflexivity | exact Hfits].
Defined.

Lemma unrecognised_metric_fails_after_first_fit_witness :
  (recognised "accuracy" = false
   /\ Modeling.member "rmse" Modeling.ranking_names = false)
  /\ @Modeling.tuning_als
       Scenario.rmse_engine (Some Scenario.two_rows) (Some Scenario.two_rows)
       (Some [1; 2]) (Some [0.1%Q]) (Some "accuracy"%string)
       10 5 UserId BookId Rating
     = ([Py.Print (Py.StartConfiguration 1);
         Py.Fit (Py.mkALS 1 5 0.1 123 UserId BookId Rating);
         Py.Transform;
         Py.Print (Py.FinishConfiguration 1)],
        Py.Raised (Py.UnboundLocalError "metrics_result"))
  /\ @Modeling.top_k_rankingmetrics
       Scenario.rmse_engine (Some []) 10 "rmse" UserId BookId Rating
     = ([], Py.Returned None).
Proof.
  assert (H1 : recognised "accuracy" = false) by reflexivity.
  assert (H2 : Modeling.member "rmse" Modeling.ranking_names = false)
    by reflexivity.
  split; [split; assumption|].
  exact (@unrecognised_metric_fails_after_first_fit
           Scenario.rmse_engine Scenario.two_rows Scenario.two_rows
           1 [2] 0.1%Q [] "accuracy"%string "rmse"%string 10 5
           UserId BookId Rating [] H1 H2).
Defined.

Lemma sampling_fixed_by_seed_witness :
  (forall i, @next53 (Scenario.seeded_engine 0) 123 i =
             @next53 (Scenario.seeded_engine (2 ^ 52)) 123 i)
  /\ @Modeling.train_val_test_split (Scenario.seeded_engine 0)
                                    Scenario.two_rows UserId
     = @Modeling.train_val_test_split (Scenario.seeded_engine (2 ^ 52))
                                      Scenario.two_rows UserId
  /\ @Spark.sample (Scenario.seeded_engine 0) Z 0.5 7 [1; 2; 3]
     <> @Spark.sample (Scenario.seeded_engine (2 ^ 52)) Z 0.5 7 [1; 2; 3].
Proof.
  assert (Hs : forall i, @next53 (Scenario.seeded_engine 0) 123 i =
                         @next53 (Scenario.seeded_engine (2 ^ 52)) 123 i)
    by (intros i; reflexivity).
  split; [exact Hs|].
  destruct (@sampling_fixed_by_seed
              (Scenario.seeded_engine 0) (Scenario.seeded_engine (2 ^ 52))
              Scenario.two_rows [1; 2; 3] UserId 0.5%Q Hs)
    as (_ & _ & Hsplit).
  split; [exact Hsplit|]. vm_compute. discriminate.
Defined.

(** Three users with two interactions each: a threshold of 2 keeps them
    all, a threshold of 3 none; the empty table stops at the reported
    percentage. *)
Lemma get_frequent_user_run :
  let data := [Scenario.interaction 1 10 5; Scenario.interaction 2 10 4;
               Scenario.interaction 3 11 3; Scenario.interaction 1 11 2;
               Scenario.interaction 2 12 5; Scenario.interaction 3 12 1] in
  @Downsampling.get_frequent_user data UserId 2
  = ([Py.Print (Py.RemovedUsers (0 # 100) 2)], Py.Returned [1; 2; 3])
  /\ @Downsampling.get_frequent_user data UserId 3
     = ([Py.Print (Py.RemovedUsers (10000 # 100) 3)], Py.Returned [])
  /\ @Downsampling.get_frequent_user [] UserId 3
     = ([], Py.Raised Py.ZeroDivisionError).
Proof. cbv zeta. repeat split; vm_compute; reflexivity. Qed.

(** Rows that tie on the score share a rank, so a window of rank 1 keeps
    both. *)
Lemma top_k_ties_run :
  let a := mkPred (Scenario.interaction 1 10 5) 0.5 in
  let b := mkPred (Scenario.interaction 1 20 5) 0.5 in
  let c := mkPred (Scenario.interaction 1 30 1) 0.25 in
  Modeling.user_items_prediction_df [c; a; b] 1 UserId = [a; b].
Proof. vm_compute. reflexivity. Qed.

(* ================================================================== *)
(** * downsampling.py: thresholds, fractions and the composed subset *)

Section DownsamplingBounds.
Context `{Engine}.

Lemma interactions_pos (data : DataFrame) (user : ColName) (u : Z) :
  In u (Spark.distinct_col user data) ->
  (1 <= interactions data user u)%nat.
Proof.
  intros Hin. unfold Spark.distinct_col in Hin. apply nodup_In in Hin.
  apply (count_occ_In Z.eq_dec) in Hin. unfold interactions. lia.
Qed.

Lemma interactions_le_length (data : DataFrame) (user : ColName) (u : Z) :
  (interactions data user u <= List.length data)%nat.
Proof.
  unfold interactions.
  rewrite <- (length_map (col user) data). apply count_occ_bound.
Qed.

Lemma filter_all {A} (f : A -> bool) (l : list A) :
  (forall x, In x l -> f x = true) -> filter f l = l.
Proof.
  induction l as [|x l IH]; simpl; intros Hall; [reflexivity|].
  rewrite (Hall x (or_introl eq_refl)). f_equal. apply IH.
  intros y Hy. apply Hall. now right.
Qed.

Lemma filter_none {A} (f : A -> bool) (l : list A) :
  (forall x, In x l -> f x = false) -> filter f l = [].
Proof.
  induction l as [|x l IH]; simpl; intros Hall; [reflexivity|].
  rewrite (Hall x (or_introl eq_refl)). apply IH.
  intros y Hy. apply Hall. now right.
Qed.

(** X1. Raising the threshold never brings a user back: the users kept
    under a threshold are among those kept under any smaller one. *)
Theorem frequent_users_shrink_with_threshold
        (data : DataFrame) (user : ColName) (t1 t2 : Z) :
  t1 <= t2 ->
  incl (Downsampling.user_id_frequent data user t2)
       (Downsampling.user_id_frequent data user t1).
Proof.
  intros Hle u Hu. apply In_user_id_frequent in Hu.
  apply In_user_id_frequent. split; [tauto | lia].
Qed.

Lemma frequent_all_below_one
      (data : DataFrame) (user : ColName) (threshold : Z) :
  threshold <= 1 ->
  Downsampling.user_id_frequent data user threshold =
  Spark.distinct_col user data.
Proof.
  intros Hle. unfold Downsampling.user_id_frequent, Spark.groupBy_count.
  rewrite filter_all.
  - rewrite map_map. cbn [fst]. apply map_id.
  - intros [u n] Hin. apply in_map_iff in Hin. destruct Hin as [v [Hv Hin]].
    injection Hv as Hu Hn. subst u n. cbn [snd]. apply Z.leb_le.
    pose proof (interactions_pos data user v Hin) as Hpos.
    unfold interactions in Hpos. lia.
Qed.

(** X2. A threshold of at most 1 removes nobody: on a table with a row
    the filter returns the table's distinct users, in their order. *)
Theorem threshold_at_most_one_keeps_all
        (data : DataFrame) (user : ColName) (threshold : Z) :
  threshold <= 1 -> data <> [] ->
  Py.result (Downsampling.get_frequent_user data user threshold) =
  Py.Returned (Spark.distinct_col user data).
Proof.
  intros Hle Hne. rewrite get_frequent_user_result.
  destruct data as [|r data]; [congruence|].
  now rewrite frequent_all_below_one.
Qed.

Lemma frequent_none_above_rows
      (data : DataFrame) (user : ColName) (threshold : Z) :
  Z.of_nat (List.length data) < threshold ->
  Downsampling.user_id_frequent data user threshold = [].
Proof.
  intros Hlt. unfold Downsampling.user_id_frequent, Spark.groupBy_count.
  rewrite filter_none; [reflexivity|].
  intros [u n] Hin. apply in_map_iff in Hin. destruct Hin as [v [Hv Hin]].
  injection Hv as Hu Hn. subst u n. cbn [snd]. apply Z.leb_gt.
  pose proof (interactions_le_length data user v) as Hb.
  unfold interactions in Hb. lia.
Qed.

(** X3. A threshold above the number of rows removes everybody: on a
    table with a row the filter returns the empty frame. *)
Theorem threshold_above_rows_keeps_none
        (data : DataFrame) (user : ColName) (threshold : Z) :
  Z.of_nat (List.length data) < threshold -> data <> [] ->
  Py.result (Downsampling.get_frequent_user data user threshold) =
  Py.Returned [].
Proof.
  intros Hlt Hne. rewrite get_frequent_user_result.
  destruct data as [|r data]; [congruence|].
  now rewrite frequent_none_above_rows.
Qed.

Lemma result_bind_returned {A B} (m : Py.M A) (a : A) (f : A -> Py.M B) :
  Py.result m = Py.Returned a ->
  Py.result (Py.bind m f) = Py.result (f a).
Proof.
  destruct m as [t [x|e]]; cbn [Py.result snd]; intros Hm;
    [|discriminate].
  injection Hm as ->. unfold Py.bind. now destruct (f a).
Qed.

Lemma Qltb_comp (x y y' : Q) :
  (y == y')%Q -> Spark.Qltb x y = Spark.Qltb x y'.
Proof.
  intros Hy. unfold Spark.Qltb. f_equal. apply Qleb_comp; [exact Hy|reflexivity].
Qed.

Lemma filter_pos_all {A} (keep : nat -> A -> bool) (l : list A) :
  (forall n x, keep n x = true) -> forall i, Spark.filter_pos keep i l = l.
Proof.
  intros Hall. induction l as [|x l IH]; intros i; simpl; [reflexivity|].
  now rewrite Hall, IH.
Qed.

Lemma filter_pos_none {A} (keep : nat -> A -> bool) (l : list A) :
  (forall n x, keep n x = false) -> forall i, Spark.filter_pos keep i l = [].
Proof.
  intros Hall. induction l as [|x l IH]; intros i; simpl; [reflexivity|].
  now rewrite Hall, IH.
Qed.

(** X4. With a retention percentage of 1 the downsampler keeps every
    listed user: it returns the plain join of the table with the user
    frame. *)
Theorem downsampling_keeps_all_at_one
        (data : DataFrame) (user_df : list Z) (user : ColName)
        (percentage : Q) :
  (percentage == 1)%Q ->
  Py.result (Downsampling.downsampling data user_df user percentage) =
  Py.Returned (Spark.join_on user data user_df).
Proof.
  intros Hp. unfold Downsampling.downsampling. cbn [Py.result].
  unfold Spark.sample. rewrite filter_pos_all; [reflexivity|].
  intros n _. rewrite (Qltb_comp _ _ _ Hp). apply Qltb_lt, rand_range.
Qed.

(** X5. With a retention percentage of 0 the downsampler keeps nobody
    and returns the empty table. *)
Theorem downsampling_keeps_none_at_zero
        (data : DataFrame) (user_df : list Z) (user : ColName)
        (percentage : Q) :
  (percentage == 0)%Q ->
  Downsampling.downsampling data user_df user percentage =
  ([Py.Print (Py.Downsampled (percentage * 100)%Q 0 0)], Py.Returned []).
Proof.
  intros Hp. unfold Downsampling.downsampling.
  assert (Hs : Spark.sample percentage 123 user_df = []).
  { unfold Spark.sample. apply filter_pos_none.
    intros n _. rewrite (Qltb_comp _ _ _ Hp). apply Qltb_ge, rand_range. }
  rewrite Hs.
  assert (Hj : Spark.join_on user data [] = []).
  { unfold Spark.join_on. induction data as [|r d IH]; simpl; auto. }
  rewrite Hj. reflexivity.
Qed.

(** X6. [create_subset] stops on the empty table at the division of the
    frequency report, after its first line.  On any other table it
    returns a sub-list of the table, rows in order and unchanged, made of
    whole users: every user of the output has at least [threshold] rows
    in the table, and all of them are in the output. *)
Theorem create_subset_keeps_whole_frequent_users
        (data : DataFrame) (threshold : Z) (percentage : Q)
        (user : ColName) :
  match data with
  | [] =>
      Downsampling.create_subset data threshold percentage user =
      ([Py.Print (Py.Text "Removing lower-interaction users.")],
       Py.Raised Py.ZeroDivisionError)
  | _ :: _ =>
      exists (kept : list Z),
        Py.result (Downsampling.create_subset data threshold percentage user)
        = Py.Returned
            (filter (fun r => existsb (Z.eqb (col user r)) kept) data)
        /\ (forall u, In u kept ->
                      threshold <= Z.of_nat (interactions data user u))
        /\ (forall r, In (col user r) kept ->
                      count_occ Row_eq_dec
                        (filter (fun r => existsb (Z.eqb (col user r)) kept)
                                data) r
                      = count_occ Row_eq_dec data r)
        /\ (forall r, ~ In (col user r) kept ->
                      ~ In r (filter
                                (fun r => existsb (Z.eqb (col user r)) kept)
                                data))
  end.
Proof.
  destruct data as [|r0 data]; [reflexivity|].
  set (table := r0 :: data).
  set (freq := Downsampling.user_id_frequent table user threshold).
  exists (Spark.sample percentage 123 freq).
  assert (Hnd : NoDup (Spark.sample percentage 123 freq)).
  { unfold Spark.sample. apply NoDup_filter_pos, NoDup_user_id_frequent. }
  split; [|split; [|split]].
  - unfold Downsampling.create_subset.
    rewrite (result_bind_returned _ tt) by reflexivity.
    rewrite (result_bind_returned _ freq)
      by apply (get_frequent_user_result table user threshold).
    rewrite (result_bind_returned _ tt) by reflexivity.
    unfold Downsampling.downsampling.
    rewrite (result_bind_returned _ tt) by reflexivity.
    cbn [Py.result Py.ret snd]. now rewrite join_on_NoDup.
  - intros u Hu. unfold Spark.sample in Hu. apply In_filter_pos in Hu.
    now apply In_user_id_frequent in Hu.
  - intros r Hr. rewrite <- join_on_NoDup by assumption.
    rewrite count_occ_join_on.
    rewrite (proj1 (NoDup_count_occ' Z.eq_dec _) Hnd _ Hr). lia.
  - intros r Hr Hin. apply filter_In in Hin. destruct Hin as [_ Hex].
    apply existsb_Z_In in Hex. contradiction.
Qed.

End DownsamplingBounds.

(* ================================================================== *)
(** * downsampling.py: the index columns *)

Section IndexingFacts.

Lemma map_fst_combine {A B} (l : list A) (l' : list B) :
  List.length l = List.length l' -> map fst (combine l l') = l.
Proof.
  revert l'. induction l as [|x l IH]; intros [|y l'] Hlen; simpl in *;
    try discriminate; [reflexivity|].
  f_equal. apply IH. lia.
Qed.

Lemma map_snd_combine {A B} (l : list A) (l' : list B) :
  List.length l = List.length l' -> map snd (combine l l') = l'.
Proof.
  revert l'. induction l as [|x l IH]; intros [|y l'] Hlen; simpl in *;
    try discriminate; [reflexivity|].
  f_equal. apply IH. lia.
Qed.

Lemma NoDup_fst_functional {A B} (l : list (A * B)) (a : A) (b b' : B) :
  NoDup (map fst l) -> In (a, b) l -> In (a, b') l -> b = b'.
Proof.
  induction l as [|[x y] l IH]; simpl; intros Hnd H1 H2; [contradiction|].
  inversion Hnd as [|? ? Hx Hl]; subst.
  destruct H1 as [E1|H1]; destruct H2 as [E2|H2].
  - congruence.
  - exfalso. apply Hx. injection E1 as -> _.
    change a with (fst (a, b')). now apply in_map.
  - exfalso. apply Hx. injection E2 as -> _.
    change a with (fst (a, b)). now apply in_map.
  - now apply IH.
Qed.

Lemma NoDup_snd_injective {A B} (l : list (A * B)) (a a' : A) (b : B) :
  NoDup (map snd l) -> In (a, b) l -> In (a', b) l -> a = a'.
Proof.
  induction l as [|[x y] l IH]; simpl; intros Hnd H1 H2; [contradiction|].
  inversion Hnd as [|? ? Hy Hl]; subst.
  destruct H1 as [E1|H1]; destruct H2 as [E2|H2].
  - congruence.
  - exfalso. apply Hy. injection E1 as _ ->.
    change b with (snd (a', b)). now apply in_map.
  - exfalso. apply Hy. injection E2 as _ ->.
    change b with (snd (a, b)). now apply in_map.
  - now apply IH.
Qed.

Lemma indexer_length (data : DataFrame) (c : ColName) :
  List.length (Spark.distinct_col c data) =
  List.length (map Z.of_nat (seq 1 (List.length (Spark.distinct_col c data)))).
Proof. now rewrite length_map, length_seq. Qed.

Lemma indexer_values (data : DataFrame) (c : ColName) :
  map fst (Indexing.indexer data c) = Spark.distinct_col c data.
Proof. apply map_fst_combine, indexer_length. Qed.

Lemma indexer_numbers (data : DataFrame) (c : ColName) :
  map snd (Indexing.indexer data c) =
  map Z.of_nat (seq 1 (List.length (Spark.distinct_col c data))).
Proof. apply map_snd_combine, indexer_length. Qed.

Lemma NoDup_indexer_numbers (data : DataFrame) (c : ColName) :
  NoDup (map snd (Indexing.indexer data c)).
Proof.
  rewrite indexer_numbers. apply Finite.Injective_map_NoDup.
  - intros a b Hab. lia.
  - apply seq_NoDup.
Qed.

Lemma In_indexer_number (data : DataFrame) (c : ColName) (i : Z) :
  In i (map snd (Indexing.indexer data c)) <->
  1 <= i <= Z.of_nat (List.length (Spark.distinct_col c data)).
Proof.
  rewrite indexer_numbers, in_map_iff. split.
  - intros [n [<- Hn]]. apply in_seq in Hn. lia.
  - intros Hi. exists (Z.to_nat i). split; [lia|]. apply in_seq. lia.
Qed.

(** A value of the table meets exactly one row of the indexer. *)
Lemma indexer_single_match (data : DataFrame) (c : ColName) (v : Z) :
  In v (Spark.distinct_col c data) ->
  exists i,
    filter (fun vi : Z * Z => v =? fst vi) (Indexing.indexer data c)
    = [(v, i)].
Proof.
  intros Hin.
  pose proof (NoDup_distinct_col c data) as Hnd.
  rewrite <- (indexer_values data c) in Hin, Hnd.
  induction (Indexing.indexer data c) as [|[x y] l IH]; simpl in *;
    [contradiction|].
  inversion Hnd as [|? ? Hx Hl]; subst.
  destruct (Z.eqb_spec v x) as [->|Hne].
  - exists y. f_equal. apply filter_none. intros [x' y'] Hin'. cbn [fst].
    apply Z.eqb_neq. intros ->. apply Hx.
    change x' with (fst (x', y')). now apply in_map.
  - destruct Hin as [E|Hin]; [congruence|]. now apply IH.
Qed.

Lemma In_create_repeated_index (data : DataFrame) (c : ColName) (r : Row)
      (i : Z) :
  In (r, i) (Indexing.create_repeated_index data c) <->
  In r data /\ In (col c r, i) (Indexing.indexer data c).
Proof.
  unfold Indexing.create_repeated_index. rewrite in_flat_map. split.
  - intros [r' [Hr Hin]]. apply in_map_iff in Hin.
    destruct Hin as [[v j] [Heq Hin]]. cbn [snd] in Heq.
    injection Heq as -> ->. apply filter_In in Hin. cbn [fst] in Hin.
    destruct Hin as [Hin He]. apply Z.eqb_eq in He. now subst v.
  - intros [Hr Hin]. exists r. split; [assumption|].
    apply in_map_iff. exists (col c r, i). split; [reflexivity|].
    apply filter_In. split; [assumption|]. cbn [fst]. apply Z.eqb_refl.
Qed.

(** X7. [create_repeated_index] keeps every row once and in place, and
    numbers the distinct values of the column from 1 to their count: two
    rows get the same index exactly when they carry the same value, and
    every number up to the count is used. *)
Theorem create_repeated_index_numbers_values
        (data : DataFrame) (col_name : ColName) :
  let out := Indexing.create_repeated_index data col_name in
  let n := Z.of_nat (List.length (Spark.distinct_col col_name data)) in
  map fst out = data
  /\ (forall r i, In (r, i) out -> 1 <= i <= n)
  /\ (forall r i r' i',
        In (r, i) out -> In (r', i') out ->
        (col col_name r = col col_name r' <-> i = i'))
  /\ (forall i, 1 <= i <= n -> exists r, In (r, i) out).
Proof.
  intros out n. split; [|split; [|split]].
  - unfold out, Indexing.create_repeated_index.
    assert (Hgen : forall d,
               incl d data ->
               map fst
                 (flat_map
                    (fun r =>
                       map (fun vi : Z * Z => (r, snd vi))
                           (filter (fun vi : Z * Z => col col_name r =? fst vi)
                                   (Indexing.indexer data col_name))) d) = d).
    { induction d as [|r d IH]; intros Hincl; [reflexivity|].
      cbn [flat_map]. rewrite map_app, IH
        by (intros x Hx; apply Hincl; now right).
      destruct (indexer_single_match data col_name (col col_name r))
        as [i Hi].
      { apply In_distinct_col. exists r. split; [|reflexivity].
        apply Hincl. now left. }
      rewrite Hi. reflexivity. }
    apply Hgen, incl_refl.
  - intros r i Hin. apply In_create_repeated_index in Hin.
    destruct Hin as [_ Hin]. apply In_indexer_number.
    change i with (snd (col col_name r, i)). now apply in_map.
  - intros r i r' i' H1 H2.
    apply In_create_repeated_index in H1.
    apply In_create_repeated_index in H2.
    destruct H1 as [_ H1]. destruct H2 as [_ H2]. split.
    + intros E. rewrite E in H1.
      eapply NoDup_fst_functional; [|exact H1|exact H2].
      rewrite indexer_values. apply NoDup_distinct_col.
    + intros E. subst i'.
      eapply NoDup_snd_injective;
        [apply NoDup_indexer_numbers|exact H1|exact H2].
  - intros i Hi. apply In_indexer_number in Hi. apply in_map_iff in Hi.
    destruct Hi as [[v j] [Hj Hin]]. cbn [snd] in Hj. subst j.
    assert (Hv : In v (Spark.distinct_col col_name data)).
    { rewrite <- indexer_values. change v with (fst (v, i)).
      now apply in_map. }
    apply In_distinct_col in Hv. destruct Hv as [r [Hr Hc]].
    exists r. apply In_create_repeated_index. split; [assumption|].
    now rewrite Hc.
Qed.

Lemma nth_error_enumerate_from {A} (l : list A) :
  forall (s i : nat) (x : A),
    nth_error l i = Some x ->
    nth_error (combine (seq s (List.length l)) l) i = Some ((s + i)%nat, x).
Proof.
  induction l as [|y l IH]; intros s i x Hx; [destruct i; discriminate|].
  destruct i as [|i]; cbn in *.
  - injection Hx as ->. now rewrite Nat.add_0_r.
  - rewrite (IH (S s) i x Hx). f_equal. f_equal. lia.
Qed.

Lemma nth_error_enumerate {A} (l : list A) (i : nat) (x : A) :
  nth_error l i = Some x ->
  nth_error (Modeling.enumerate l) i = Some (i, x).
Proof. apply (nth_error_enumerate_from l 0). Qed.

Lemma map_snd_enumerate {A} (l : list A) :
  map snd (Modeling.enumerate l) = l.
Proof.
  unfold Modeling.enumerate. apply map_snd_combine. now rewrite length_seq.
Qed.

(** The cast forgets the partition number. *)
Lemma cast_int_id (partition record : nat) :
  Indexing.cast_int (Indexing.monotonically_increasing_id partition record)
  = Indexing.cast_int (Z.of_nat record).
Proof.
  unfold Indexing.cast_int, Indexing.monotonically_increasing_id.
  rewrite Z.shiftl_mul_pow2 by lia.
  replace (Z.of_nat partition * 2 ^ 33 + Z.of_nat record + 2 ^ 31)
    with (Z.of_nat record + 2 ^ 31 + (2 * Z.of_nat partition) * 2 ^ 32)
    by (change (2 ^ 33) with (2 * 2 ^ 32); ring).
  now rewrite Z.mod_add by lia.
Qed.

Lemma cast_int_small (x : Z) :
  0 <= x < 2 ^ 31 -> Indexing.cast_int x = x.
Proof.
  intros Hx. unfold Indexing.cast_int.
  rewrite Z.mod_small by lia. lia.
Qed.

Lemma nth_error_create_row_index (data : list (list Row)) (p i : nat)
      (part : list Row) (r : Row) :
  nth_error data p = Some part -> nth_error part i = Some r ->
  exists out_part,
    nth_error (Indexing.create_row_index data) p = Some out_part
    /\ map fst out_part = part
    /\ nth_error out_part i =
       Some (r, Indexing.cast_int (Z.of_nat i)).
Proof.
  intros Hp Hi. unfold Indexing.create_row_index.
  rewrite nth_error_map, (nth_error_enumerate _ _ _ Hp). cbn [option_map].
  eexists. split; [reflexivity|]. cbn [fst snd]. split.
  - rewrite map_map. cbn [fst]. apply map_snd_enumerate.
  - rewrite nth_error_map, (nth_error_enumerate _ _ _ Hi). cbn [option_map].
    cbn [fst snd]. now rewrite cast_int_id.
Qed.

(** X8. [create_row_index] leaves the rows of a partition in place and,
    in a partition of fewer than 2^31 rows, gives each row its position
    within the partition as index, whatever the partition. *)
Theorem row_index_is_offset_in_partition
        (data : list (list Row)) (p i : nat) (part : list Row) (r : Row) :
  nth_error data p = Some part ->
  nth_error part i = Some r ->
  Z.of_nat i < 2 ^ 31 ->
  exists out_part,
    nth_error (Indexing.create_row_index data) p = Some out_part
    /\ map fst out_part = part
    /\ nth_error out_part i = Some (r, Z.of_nat i).
Proof.
  intros Hp Hi Hsmall.
  destruct (nth_error_create_row_index data p i part r Hp Hi)
    as (out_part & Hout & Hrows & Hidx).
  exists out_part. split; [assumption|]. split; [assumption|].
  rewrite Hidx, cast_int_small by lia. reflexivity.
Qed.

(** X9. The row index does not tell partitions apart: two rows at the
    same position of two partitions receive the same index. *)
Theorem row_index_collides_across_partitions
        (data : list (list Row)) (p q i : nat) (part_p part_q : list Row)
        (r r' : Row) :
  nth_error data p = Some part_p -> nth_error data q = Some part_q ->
  nth_error part_p i = Some r -> nth_error part_q i = Some r' ->
  exists out_p out_q index,
    nth_error (Indexing.create_row_index data) p = Some out_p
    /\ nth_error (Indexing.create_row_index data) q = Some out_q
    /\ nth_error out_p i = Some (r, index)
    /\ nth_error out_q i = Some (r', index).
Proof.
  intros Hp Hq Hr Hr'.
  destruct (nth_error_create_row_index data p i part_p r Hp Hr)
    as (out_p & Hop & _ & Hip).
  destruct (nth_error_create_row_index data q i part_q r' Hq Hr')
    as (out_q & Hoq & _ & Hiq).
  exists out_p, out_q, (Indexing.cast_int (Z.of_nat i)). tauto.
Qed.

End IndexingFacts.

(* ================================================================== *)
(** * modeling.py: more on the splitter *)

Section SplitterFacts.
Context `{Engine}.

(** Frames cut out by position with a three-valued test rearrange the
    list. *)
Lemma filter_pos_three_way {A} (g : nat -> nat) (l : list A) :
  (forall n, (g n < 3)%nat) ->
  forall i,
    Permutation
      (Spark.filter_pos (fun n _ => Nat.eqb (g n) 0) i l
       ++ Spark.filter_pos (fun n _ => Nat.eqb (g n) 1) i l
       ++ Spark.filter_pos (fun n _ => Nat.eqb (g n) 2) i l)
      l.
Proof.
  intros Hb. induction l as [|x l IH]; intros i; simpl; [constructor|].
  specialize (IH (S i)). specialize (Hb i).
  destruct (g i) as [|[|[|k]]]; simpl; [| | |lia].
  - now constructor.
  - symmetry. apply Permutation_cons_app. now symmetry.
  - symmetry. rewrite app_assoc. apply Permutation_cons_app.
    rewrite <- app_assoc. now symmetry.
Qed.

(** X10. The 60/20/20 split of the table's distinct users returns three
    frames that share no user and together hold every user once. *)
Theorem user_split_is_a_partition (data : DataFrame) (user : ColName) :
  let users := Spark.distinct_col user data in
  exists g0 g1 g2,
    Spark.randomSplit [0.6; 0.2; 0.2]%Q 123 users = [g0; g1; g2]
    /\ Permutation (g0 ++ g1 ++ g2) users
    /\ NoDup (g0 ++ g1 ++ g2).
Proof.
  intros users. rewrite randomSplit_groups.
  exists (user_group 123 0 users), (user_group 123 1 users),
         (user_group 123 2 users).
  split; [reflexivity|].
  assert (Hperm : Permutation
                    (user_group 123 0 users ++ user_group 123 1 users
                     ++ user_group 123 2 users) users).
  { unfold user_group.
    apply (filter_pos_three_way (fun n => group_of (Spark.rand 123 n))).
    intros n. apply group_of_bound. }
  split; [exact Hperm|].
  apply (Permutation_NoDup (Permutation_sym Hperm)).
  apply NoDup_distinct_col.
Qed.

Lemma group_rows_user (data : DataFrame) (user : ColName) (j j' : nat)
      (r : Row) :
  In r (group_rows data user j) -> In r (group_rows data user j') -> j = j'.
Proof.
  intros H1 H2. apply In_group_rows in H1. apply In_group_rows in H2.
  destruct H1 as [_ H1]. destruct H2 as [_ H2].
  exact (user_group_unique 123 _ _ _ _ (NoDup_distinct_col user data) H1 H2).
Qed.

(** X11. On every table the three frames share no row value: a row held
    out for validation or for test never occurs in the training frame,
    and the validation and test frames are disjoint. *)
Theorem split_frames_are_disjoint (data : DataFrame) (user : ColName)
        (r : Row) :
  let '(train, val, test) := Modeling.train_val_test_split data user in
  (In r val -> ~ In r train)
  /\ (In r test -> ~ In r train)
  /\ (In r val -> ~ In r test).
Proof.
  rewrite train_val_test_split_eq. rewrite !in_app_iff, !In_subtract.
  split; [|split].
  - intros Hv [[H0|[H1 Hn]]|[H2 _]].
    + pose proof (group_rows_user data user _ _ r
                    (In_held_out data user 1 r Hv) H0). discriminate.
    + contradiction.
    + pose proof (group_rows_user data user _ _ r
                    (In_held_out data user 1 r Hv) H2). discriminate.
  - intros Ht [[H0|[H1 _]]|[H2 Hn]].
    + pose proof (group_rows_user data user _ _ r
                    (In_held_out data user 2 r Ht) H0). discriminate.
    + pose proof (group_rows_user data user _ _ r
                    (In_held_out data user 2 r Ht) H1). discriminate.
    + contradiction.
  - intros Hv Ht. exact (val_test_disjoint data user r Hv Ht).
Qed.

(** X12. The split is by user: no user has rows in both the validation
    and the test frame, and a user drawn into the training group keeps
    every row in the training frame, as often as the table holds it, and
    has no row in the other two frames. *)
Theorem split_is_by_user (data : DataFrame) (user : ColName) :
  let '(train, val, test) := Modeling.train_val_test_split data user in
  (forall r r', In r val -> In r' test -> col user r <> col user r')
  /\ (forall r,
        In (col user r) (user_group 123 0 (Spark.distinct_col user data)) ->
        count_occ Row_eq_dec train r = count_occ Row_eq_dec data r
        /\ ~ In r val /\ ~ In r test).
Proof.
  rewrite train_val_test_split_eq. split.
  - intros r r' Hv Ht E.
    apply In_held_out, In_group_rows in Hv.
    apply In_held_out, In_group_rows in Ht.
    destruct Hv as [_ Hv]. destruct Ht as [_ Ht]. rewrite E in Hv.
    pose proof (user_group_unique 123 _ _ _ _
                  (NoDup_distinct_col user data) Hv Ht). discriminate.
  - intros r Hin.
    assert (Hnot : forall j, j <> 0%nat -> ~ In r (group_rows data user j)).
    { intros j Hj Hr. apply In_group_rows in Hr. destruct Hr as [_ Hr].
      apply Hj.
      exact (user_group_unique 123 _ _ _ _
               (NoDup_distinct_col user data) Hr Hin). }
    split; [|split].
    + rewrite !count_occ_app, count_occ_group_rows.
      destruct (in_dec Z.eq_dec _ _) as [_|Hn]; [|contradiction].
      assert (Hs : forall j, j <> 0%nat ->
                count_occ Row_eq_dec
                  (Spark.subtract (group_rows data user j)
                                  (held_out data user j)) r = 0%nat).
      { intros j Hj. apply count_occ_not_In. intros Hs.
        apply In_subtract in Hs. destruct Hs as [Hs _].
        exact (Hnot j Hj Hs). }
      rewrite (Hs 1%nat), (Hs 2%nat) by lia. lia.
    + intros Hv. apply (Hnot 1%nat); [lia|]. now apply In_held_out.
    + intros Ht. apply (Hnot 2%nat); [lia|]. now apply In_held_out.
Qed.

Lemma join_on_nil (c : ColName) (df : DataFrame) : Spark.join_on c df [] = [].
Proof.
  unfold Spark.join_on. induction df as [|r d IH]; simpl; auto.
Qed.

(** X13. [customized_split_func] only appends to the training frame it
    is given.  The rows it appends carry no repetition and belong, like
    the rows it holds out, to the listed users; no appended row is a
    held-out row, and every row of a listed user is held out or
    appended.  With no user listed it returns the training frame as it is
    and an empty held-out frame. *)
Theorem customized_split_func_appends_complement
        (data train : DataFrame) (val_user : list Z) (user : ColName)
        (set_seed : Z) :
  let '(train_val_data, val_data) :=
    Modeling.customized_split_func data train val_user user set_seed in
  exists added,
    train_val_data = train ++ added
    /\ NoDup added
    /\ (forall r, In r added ->
                  In r data /\ In (col user r) val_user /\ ~ In r val_data)
    /\ (forall r, In r val_data -> In r data /\ In (col user r) val_user)
    /\ (forall r, In r data -> In (col user r) val_user ->
                  In r val_data \/ In r added)
    /\ (val_user = [] -> added = [] /\ val_data = []).
Proof.
  unfold Modeling.customized_split_func, Spark.union.
  set (temp := Spark.join_on user data val_user).
  set (held := Spark.sampleBy user _ set_seed temp).
  exists (Spark.subtract temp held).
  split; [reflexivity|]. split; [apply NoDup_subtract|].
  assert (Hheld : forall r, In r held -> In r temp)
    by (intros r; apply In_filter_pos).
  split; [|split; [|split]].
  - intros r Hr. apply In_subtract in Hr. destruct Hr as [Ht Hn].
    apply In_join_on in Ht. tauto.
  - intros r Hr. apply Hheld, In_join_on in Hr. tauto.
  - intros r Hr Hu.
    destruct (in_dec Row_eq_dec r held) as [Hin|Hout]; [now left|].
    right. apply In_subtract. split; [|assumption].
    apply In_join_on. tauto.
  - intros ->. unfold held, temp. rewrite join_on_nil. split; reflexivity.
Qed.

End SplitterFacts.

(* ================================================================== *)
(** * modeling.py: more on the tuner *)

Section TunerFacts.
Context `{Engine}.

Lemma list_prod_nil_r {A B} (l : list A) : list_prod l (@nil B) = [].
Proof. induction l as [|x l IH]; simpl; auto. Qed.

(** The tuner over an empty grid. *)
Lemma tuning_als_on_empty_grid
      (train_data val_data : DataFrame) (rank_list : list Z)
      (regParam_list : list Q) (metrics : string) (k maxIter : Z)
      (user item rating : ColName) :
  list_prod rank_list regParam_list = [] ->
  Modeling.tuning_als (Some train_data) (Some val_data) (Some rank_list)
                      (Some regParam_list) (Some metrics) k maxIter
                      user item rating
  = ([], Py.Raised (if recognised metrics then Py.ValueError
                    else Py.UnboundLocalError "best_index")).
Proof.
  intros Hprod. unfold Modeling.tuning_als. rewrite Hprod.
  unfold Modeling.enumerate.
  cbn [List.length seq combine Modeling.for_each]. rewrite bind_ret.
  cbn [Modeling.tuning_table Modeling.t_metrics]. unfold recognised.
  destruct (Modeling.member metrics Modeling.regression_names);
    [reflexivity|].
  destruct (Modeling.member metrics Modeling.ranking_names); reflexivity.
Qed.

(** X14. With an empty list of ranks or of regularisations the tuner
    fits nothing and prints nothing, and fails when it looks for the best
    record: [np.argmin]/[np.argmax] reject the empty score list under a
    recognised metric, and under any other name [best_index] was never
    assigned. *)
Theorem tuning_als_empty_grid_fails
        (train_data val_data : DataFrame) (rank_list : list Z)
        (regParam_list : list Q) (metrics : string) (k maxIter : Z)
        (user item rating : ColName) :
  rank_list = [] \/ regParam_list = [] ->
  Modeling.tuning_als (Some train_data) (Some val_data) (Some rank_list)
                      (Some regParam_list) (Some metrics) k maxIter
                      user item rating
  = ([], Py.Raised (if recognised metrics then Py.ValueError
                    else Py.UnboundLocalError "best_index")).
Proof.
  intros Hempty. apply tuning_als_on_empty_grid.
  destruct Hempty as [Hr | Hg].
  - subst rank_list. reflexivity.
  - subst regParam_list. apply list_prod_nil_r.
Qed.

(** X15. Under a metric the evaluators score (rmse, mae, r2,
    precisionAt, ndcgAt) the configuration the tuner returns is a point of
    the grid: its rank is one of the candidate ranks, its regularisation
    one of the candidate regularisations, and both the record and the
    table carry the name of the metric they were scored with. *)
Theorem tuning_als_best_is_a_grid_point
        (train_data val_data : DataFrame) (rank_list : list Z)
        (regParam_list : list Q) (metrics : string) (k maxIter : Z)
        (user item rating : ColName) :
  rank_list <> [] -> regParam_list <> [] -> recognised metrics = true ->
  metrics <> "meanAveragePrecision"%string ->
  exists best table,
    Py.result (Modeling.tuning_als
                 (Some train_data) (Some val_data) (Some rank_list)
                 (Some regParam_list) (Some metrics) k maxIter
                 user item rating)
    = Py.Returned (Some (best, table))
    /\ In (Modeling.b_rank best) rank_list
    /\ In (Modeling.b_regParam best) regParam_list
    /\ Modeling.b_metrics_name best = metrics
    /\ Modeling.t_metrics_name table = metrics.
Proof.
  intros Hr Hg Hrec Hmap.
  destruct (tuning_als_recognised
              train_data val_data metrics k maxIter user item rating
              rank_list regParam_list Hrec Hmap
              (list_prod_nonempty _ _ Hr Hg))
    as (i & p & Hrun & Hp & _).
  eexists; eexists. rewrite Hrun. cbn [Py.result snd].
  split; [reflexivity|].
  apply nth_error_In in Hp. destruct p as [r g].
  apply in_prod_iff in Hp. cbn. tauto.
Qed.

End TunerFacts.

(* ================================================================== *)
(** * modeling.py: bounds of the top-k window *)

Section WindowBounds.
Context {A : Type} (part : A -> Z) (key : A -> Q).

Lemma sql_rank_pos (p : list A) (x : A) : 1 <= Window.sql_rank key p x.
Proof. unfold Window.sql_rank. lia. Qed.

Lemma flat_map_all_nil {B C} (f : B -> list C) (l : list B) :
  (forall x, In x l -> f x = []) -> flat_map f l = [].
Proof.
  induction l as [|x l IH]; simpl; intros Hall; [reflexivity|].
  rewrite (Hall x (or_introl eq_refl)). apply IH.
  intros y Hy. apply Hall. now right.
Qed.

(** No rank is below 1, so a window below 1 is empty. *)
Lemma where_rank_le_below_one (k : Z) (rows : list A) :
  k < 1 -> Window.where_rank_le k (Window.rank_over part key rows) = [].
Proof.
  intros Hk. rewrite where_rank_le_eq. apply flat_map_all_nil.
  intros u _. cbv zeta. apply filter_none. intros x _.
  apply Z.leb_gt. pose proof (sql_rank_pos
    (Window.sort_desc key (filter (fun r => part r =? u) rows)) x). lia.
Qed.

Lemma length_filter_lt (f : A -> bool) (l : list A) (x : A) :
  In x l -> f x = false -> (List.length (filter f l) < List.length l)%nat.
Proof.
  induction l as [|y l IH]; simpl; intros Hin Hf; [contradiction|].
  pose proof (filter_length_le f l) as Hle.
  destruct Hin as [->|Hin].
  - rewrite Hf. lia.
  - specialize (IH Hin Hf). destruct (f y); simpl; lia.
Qed.

(** No row ranks beyond the number of rows. *)
Lemma rank_in_le_length (rows : list A) (x : A) :
  In x rows -> rank_in part key rows x <= Z.of_nat (List.length rows).
Proof.
  intros Hin. unfold rank_in.
  assert (Hlt : (List.length
                   (filter (fun y => (part y =? part x)%Z
                                     && Spark.Qltb (key x) (key y)) rows)
                 < List.length rows)%nat).
  { apply (length_filter_lt _ rows x Hin).
    apply andb_false_iff. right. apply Qltb_ge. apply Qle_refl. }
  lia.
Qed.

Lemma where_rank_le_all (k : Z) (rows : list A) :
  Z.of_nat (List.length rows) <= k ->
  Permutation (Window.where_rank_le k (Window.rank_over part key rows)) rows.
Proof.
  intros Hk. rewrite where_rank_le_perm. rewrite filter_all; [reflexivity|].
  intros x Hx. apply Z.leb_le.
  pose proof (rank_in_le_length rows x Hx). lia.
Qed.

(** The first row of a sorted partition has rank 1. *)
Lemma sql_rank_head (x : A) (p : list A) :
  descending key (x :: p) -> Window.sql_rank key (x :: p) x = 1.
Proof.
  intros [Hx _]. unfold Window.sql_rank.
  rewrite filter_none; [reflexivity|].
  intros y [<-|Hy]; apply Qltb_ge; [apply Qle_refl | now apply Hx].
Qed.

(** From rank 1 on, the window keeps a row of every partition. *)
Lemma top_of_partition_nonempty (k : Z) (rows : list A) (u : Z) :
  1 <= k -> In u (map part rows) ->
  let p := Window.sort_desc key (filter (fun r => part r =? u) rows) in
  filter (fun r => Window.sql_rank key p r <=? k) p <> [].
Proof.
  intros Hk Hu p.
  apply in_map_iff in Hu. destruct Hu as [r [Hr Hin]].
  assert (Hp : In r p).
  { apply (Permutation_in _ (Permutation_sym (sort_desc_perm key _))).
    apply filter_In. split; [assumption|]. now apply Z.eqb_eq. }
  pose proof (sort_desc_descending key
                (filter (fun r => part r =? u) rows)) as Hd.
  fold p in Hd. destruct p as [|x p']; [contradiction|].
  cbn [filter]. rewrite (sql_rank_head x p' Hd).
  destruct (1 <=? k) eqn:E; [discriminate|]. apply Z.leb_gt in E. lia.
Qed.

End WindowBounds.

Section RankingPairs.
Context `{Engine}.

Lemma nodup_repeat_app (u : Z) (n : nat) (l : list Z) :
  ~ In u l -> nodup Z.eq_dec (repeat u (S n) ++ l) = u :: nodup Z.eq_dec l.
Proof.
  intros Hu. induction n as [|n IH].
  - cbn [repeat app nodup].
    destruct (in_dec Z.eq_dec u l); [contradiction|reflexivity].
  - change (repeat u (S (S n)) ++ l) with (u :: (repeat u (S n) ++ l)).
    cbn [nodup]. destruct (in_dec Z.eq_dec u (repeat u (S n) ++ l)) as [_|Hn].
    + exact IH.
    + exfalso. apply Hn. now left.
Qed.

Lemma map_const_repeat {B} (f : B -> Z) (u : Z) (l : list B) :
  (forall x, In x l -> f x = u) -> map f l = repeat u (List.length l).
Proof.
  induction l as [|x l IH]; simpl; intros Hall; [reflexivity|].
  rewrite (Hall x (or_introl eq_refl)). f_equal. apply IH.
  intros y Hy. apply Hall. now right.
Qed.

(** Blocks of rows, one non-empty block per key and keys in order, have
    the keys as their distinct values. *)
Lemma nodup_blocks {B} (f : B -> Z) (T : Z -> list B) (us : list Z) :
  NoDup us ->
  (forall u, In u us -> T u <> [] /\ forall x, In x (T u) -> f x = u) ->
  nodup Z.eq_dec (map f (flat_map T us)) = us.
Proof.
  induction 1 as [|u us Hu Hnd IH]; intros Hall; [reflexivity|].
  cbn [flat_map]. rewrite map_app.
  destruct (Hall u (or_introl eq_refl)) as [Hne Hconst].
  rewrite (map_const_repeat f u (T u) Hconst).
  destruct (T u) as [|x t] eqn:Et; [congruence|]. cbn [List.length].
  rewrite nodup_repeat_app.
  - f_equal. apply IH. intros v Hv. apply Hall. now right.
  - intros Hin. apply in_map_iff in Hin. destruct Hin as [y [Hy Hin]].
    apply in_flat_map in Hin. destruct Hin as [v [Hv Hin]].
    destruct (Hall v (or_intror Hv)) as [_ Hc]. rewrite (Hc y Hin) in Hy.
    subst v. contradiction.
Qed.

Lemma top_k_of_user (dataset : list PredRow) (k : Z) (user : ColName)
      (key : PredRow -> Q) (u : Z) (x : PredRow) :
  In x (top_k_of dataset k user key u) -> col user (base x) = u.
Proof.
  unfold top_k_of. intros Hx. apply filter_In in Hx. destruct Hx as [Hx _].
  apply (Permutation_in _ (sort_desc_perm key _)) in Hx.
  apply filter_In in Hx. now apply Z.eqb_eq.
Qed.

(** From rank 1 on, the per-user item table has one row per user of the
    dataset, in the order of the users. *)
Lemma collect_top_k (dataset : list PredRow) (k : Z) (user item : ColName)
      (key : PredRow -> Q) :
  1 <= k ->
  Window.collect_list
    (fun r => col user (base r)) (fun r => col item (base r))
    (Window.where_rank_le
       k (Window.rank_over (fun r => col user (base r)) key dataset))
  = map (fun u => (u, map (fun r => col item (base r))
                          (top_k_of dataset k user key u)))
        (nodup Z.eq_dec (map (fun r => col user (base r)) dataset)).
Proof.
  intros Hk. unfold Window.collect_list.
  assert (Husers :
    nodup Z.eq_dec
      (map (fun r => col user (base r))
           (Window.where_rank_le
              k (Window.rank_over (fun r => col user (base r)) key dataset)))
    = nodup Z.eq_dec (map (fun r => col user (base r)) dataset)).
  { rewrite where_rank_le_eq.
    apply (nodup_blocks (fun r => col user (base r))
                        (fun u => top_k_of dataset k user key u)).
    - apply NoDup_nodup.
    - intros u Hu. apply nodup_In in Hu. split.
      + apply (top_of_partition_nonempty
                 (fun r => col user (base r)) key k dataset u Hk Hu).
      + intros x. apply top_k_of_user. }
  rewrite Husers. apply map_ext. intros u.
  now rewrite where_rank_le_partition.
Qed.

Lemma join_single_match {B C} (us : list Z) (P : Z -> B) (Q' : Z -> C) :
  NoDup us ->
  flat_map
    (fun p : Z * B =>
       map (fun a : Z * C => (snd p, snd a))
           (filter (fun a : Z * C => fst p =? fst a)
                   (map (fun u => (u, Q' u)) us)))
    (map (fun u => (u, P u)) us)
  = map (fun u => (P u, Q' u)) us.
Proof.
  intros Hnd.
  assert (Hone : forall u, In u us ->
            filter (fun a : Z * C => u =? fst a)
                   (map (fun v => (v, Q' v)) us) = [(u, Q' u)]).
  { clear P. induction Hnd as [|v us Hv Hnd IH]; intros u Hu;
      [contradiction|].
    cbn [map filter fst]. destruct (Z.eqb_spec u v) as [->|Hne].
    - f_equal. apply filter_none. intros [w c] Hin. cbn [fst].
      apply in_map_iff in Hin. destruct Hin as [w' [Hw Hin]].
      injection Hw as -> _. apply Z.eqb_neq. intros ->. contradiction.
    - destruct Hu as [E|Hu]; [congruence|]. now apply IH. }
  assert (Hgen : forall l, incl l us ->
            flat_map
              (fun p : Z * B =>
                 map (fun a : Z * C => (snd p, snd a))
                     (filter (fun a : Z * C => fst p =? fst a)
                             (map (fun u => (u, Q' u)) us)))
              (map (fun u => (u, P u)) l)
            = map (fun u => (P u, Q' u)) l).
  { induction l as [|u l IH]; intros Hincl; [reflexivity|].
    cbn [map flat_map fst snd].
    rewrite (Hone u (Hincl u (or_introl eq_refl))). cbn [map app snd].
    f_equal. apply IH. intros v Hv. apply Hincl. now right. }
  apply Hgen, incl_refl.
Qed.

(** X16. A cut-off below 1 empties the window: the regression evaluator
    is handed no row and the ranking evaluator no pair. *)
Theorem window_below_one_is_empty
        (dataset : list PredRow) (k : Z) (user item rating : ColName) :
  k < 1 ->
  Modeling.user_items_prediction_df dataset k user = []
  /\ Modeling.perUserItemsRDD dataset k user item rating = [].
Proof.
  intros Hk. split.
  - apply where_rank_le_below_one, Hk.
  - unfold Modeling.perUserItemsRDD, Modeling.perUserPredictedItemsDF.
    rewrite where_rank_le_below_one by assumption. reflexivity.
Qed.

(** X17. A cut-off of at least the number of rows keeps every row: the
    regression evaluator scores a rearrangement of the whole dataset. *)
Theorem window_above_rows_keeps_all
        (dataset : list PredRow) (k : Z) (user : ColName) :
  Z.of_nat (List.length dataset) <= k ->
  Permutation (Modeling.user_items_prediction_df dataset k user) dataset.
Proof. intros Hk. now apply where_rank_le_all. Qed.

(** X18. From a cut-off of 1 on, the ranking evaluator is handed exactly
    one pair per user of the dataset, in the order of the users: the
    items of the user's kept rows under the prediction ordering, paired
    with the items of the user's kept rows under the rating ordering. *)
Theorem ranking_pairs_one_per_user
        (dataset : list PredRow) (k : Z) (user item rating : ColName) :
  1 <= k ->
  Modeling.perUserItemsRDD dataset k user item rating
  = map (fun u =>
           (map (fun r => col item (base r))
                (top_k_of dataset k user prediction u),
            map (fun r => col item (base r))
                (top_k_of dataset k user
                          (fun r => inject_Z (col rating (base r))) u)))
        (nodup Z.eq_dec (map (fun r => col user (base r)) dataset)).
Proof.
  intros Hk.
  unfold Modeling.perUserItemsRDD, Modeling.perUserPredictedItemsDF,
    Modeling.perUserActualItemsDF.
  rewrite !collect_top_k by assumption.
  apply join_single_match, NoDup_nodup.
Qed.

End RankingPairs.

Section WindowClaims.
Context `{Engine}.

(** C7. Both evaluators cut the dataset with the same window: per user,
    rows are ranked by descending score and exactly the rows of rank at
    most [k] are kept.  The regression evaluator scores those rows under
    the prediction ordering.  The ranking evaluator lists, for every user
    of the dataset, the items of the kept rows in descending order, once
    under the prediction ordering and once under the rating ordering,
    pairs the two lists of each user by an inner join, and hands the
    pairs to the metric: precisionAt and ndcgAt return their value on
    the pairs, and meanAveragePrecision is read off the pairs and then
    fails on being called. *)
Theorem evaluators_share_top_k_window
        (dataset : list PredRow) (k : Z) (name : string)
        (user item rating : ColName) :
  let U := fun r : PredRow => col user (base r) in
  let I := fun r : PredRow => col item (base r) in
  let by_rating := fun r : PredRow => inject_Z (col rating (base r)) in
  let users := nodup Z.eq_dec (map U dataset) in
  let predicted := Modeling.perUserPredictedItemsDF dataset k user item in
  let actual := Modeling.perUserActualItemsDF dataset k user item rating in
  let pairs := Modeling.perUserItemsRDD dataset k user item rating in
  Modeling.top_k_regressionmetrics (Some dataset) k name user item rating
  = ([Py.Evaluate name],
     Py.Returned
       (Some (regression_evaluate
                name rating
                (Modeling.user_items_prediction_df dataset k user))))
  /\ Permutation
       (Modeling.user_items_prediction_df dataset k user)
       (filter (fun r => rank_in U prediction dataset r <=? k) dataset)
  /\ (forall key u,
        descending key (top_k_of dataset k user key u)
        /\ Permutation
             (top_k_of dataset k user key u)
             (filter (fun r => (U r =? u)
                               && (rank_in U key dataset r <=? k)) dataset))
  /\ (forall u items,
        In (u, items) predicted <->
        top_k_of dataset k user prediction u <> []
        /\ items = map I (top_k_of dataset k user prediction u))
  /\ (forall u items,
        In (u, items) actual <->
        top_k_of dataset k user by_rating u <> []
        /\ items = map I (top_k_of dataset k user by_rating u))
  /\ (1 <= k ->
      predicted
      = map (fun u => (u, map I (top_k_of dataset k user prediction u))) users
      /\ actual
         = map (fun u => (u, map I (top_k_of dataset k user by_rating u)))
               users
      /\ pairs
         = map (fun u => (map I (top_k_of dataset k user prediction u),
                          map I (top_k_of dataset k user by_rating u)))
               users)
  /\ (k < 1 -> predicted = [] /\ actual = [] /\ pairs = [])
  /\ (forall p a,
        In (p, a) pairs <->
        exists u, In (u, p) predicted /\ In (u, a) actual)
  /\ Modeling.top_k_rankingmetrics (Some dataset) k "precisionAt"
                                   user item rating
     = ([Py.Evaluate "precisionAt"],
        Py.Returned (Some (precisionAt pairs k)))
  /\ Modeling.top_k_rankingmetrics (Some dataset) k "ndcgAt"
                                   user item rating
     = ([Py.Evaluate "ndcgAt"], Py.Returned (Some (ndcgAt pairs k)))
  /\ Modeling.top_k_rankingmetrics (Some dataset) k "meanAveragePrecision"
                                   user item rating
     = ([Py.Evaluate "meanAveragePrecision"], Py.Raised Py.TypeError).
Proof.
  intros U I by_rating users predicted actual pairs.
  assert (Hpart : forall key u,
            filter (fun x => U x =? u)
                   (Window.where_rank_le k (Window.rank_over U key dataset))
            = top_k_of dataset k user key u).
  { intros key u. exact (where_rank_le_partition U key k dataset u). }
  assert (Hentry : forall key u items,
            In (u, items)
               (Window.collect_list
                  U I (Window.where_rank_le
                         k (Window.rank_over U key dataset))) <->
            top_k_of dataset k user key u <> []
            /\ items = map I (top_k_of dataset k user key u)).
  { intros key u items. rewrite In_collect_list, Hpart. split.
    - intros [[r [Hr Hu]] ->]. split; [|reflexivity].
      intros Hnil.
      assert (Hin : In r (filter
                            (fun x => U x =? u)
                            (Window.where_rank_le
                               k (Window.rank_over U key dataset)))).
      { apply filter_In. split; [assumption|]. now apply Z.eqb_eq. }
      rewrite Hpart, Hnil in Hin. contradiction.
    - intros [Hne ->]. split; [|reflexivity].
      destruct (top_k_of dataset k user key u) as [|r t] eqn:Et;
        [congruence|].
      exists r.
      assert (Hin : In r (filter
                            (fun x => U x =? u)
                            (Window.where_rank_le
                               k (Window.rank_over U key dataset)))).
      { rewrite Hpart, Et. now left. }
      apply filter_In in Hin. destruct Hin as [Hin Hu].
      split; [assumption|]. now apply Z.eqb_eq. }
  split; [reflexivity|].
  split; [apply where_rank_le_perm|].
  split; [|split; [|split; [|split; [|split; [|split]]]]].
  - intros key u. split; [|apply top_k_of_perm].
    unfold top_k_of. apply filter_descending, sort_desc_descending.
  - intros u items. apply (Hentry prediction).
  - intros u items. apply (Hentry by_rating).
  - intros Hk.
    assert (Hp : predicted
                 = map (fun u => (u, map I (top_k_of dataset k user
                                                     prediction u))) users)
      by (apply collect_top_k; assumption).
    assert (Ha : actual
                 = map (fun u => (u, map I (top_k_of dataset k user
                                                     by_rating u))) users)
      by (apply collect_top_k; assumption).
    split; [exact Hp|]. split; [exact Ha|].
    unfold pairs, Modeling.perUserItemsRDD.
    fold predicted. fold actual. rewrite Hp, Ha.
    apply join_single_match, NoDup_nodup.
  - intros Hk.
    assert (Hp : predicted = []).
    { unfold predicted, Modeling.perUserPredictedItemsDF.
      rewrite where_rank_le_below_one by assumption. reflexivity. }
    assert (Ha : actual = []).
    { unfold actual, Modeling.perUserActualItemsDF.
      rewrite where_rank_le_below_one by assumption. reflexivity. }
    split; [exact Hp|]. split; [exact Ha|].
    unfold pairs, Modeling.perUserItemsRDD. fold predicted.
    rewrite Hp. reflexivity.
  - intros p a. unfold pairs, Modeling.perUserItemsRDD.
    fold predicted. fold actual. rewrite in_flat_map. split.
    + intros [[u p'] [Hp Hin]]. apply in_map_iff in Hin.
      destruct Hin as [[u' a'] [Heq Hin]]. cbn [fst snd] in *.
      inversion Heq; subst. apply filter_In in Hin.
      destruct Hin as [Ha Hu]. cbn [fst] in Hu. apply Z.eqb_eq in Hu.
      subst u'. exists u. tauto.
    + intros [u [Hp Ha]]. exists (u, p). split; [assumption|].
      apply in_map_iff. exists (u, a). split; [reflexivity|].
      apply filter_In. split; [assumption|]. cbn [fst]. apply Z.eqb_refl.
  - repeat split; reflexivity.
Qed.

End WindowClaims.

(* ================================================================== *)
(** * modeling.py: unionAll and the script body *)

Section ScriptFacts.
Context `{Engine}.

Lemma fold_union_concat (t : list DataFrame) :
  forall x, fold_left Spark.union t x = x ++ List.concat t.
Proof.
  induction t as [|y t IH]; intros x; cbn [fold_left List.concat].
  - now rewrite app_nil_r.
  - rewrite IH. unfold Spark.union. now rewrite app_assoc.
Qed.

Lemma count_occ_concat (l : list DataFrame) (r : Row) :
  count_occ Row_eq_dec (List.concat l) r =
  list_sum (map (fun df => count_occ Row_eq_dec df r) l).
Proof.
  induction l as [|x l IH]; cbn [List.concat map list_sum]; [reflexivity|].
  now rewrite count_occ_app, IH.
Qed.

(** X19. [unionAll] returns the rows of its frames one frame after the
    other, every row as often as the frames hold it; called without a
    frame it raises the TypeError of [reduce] on an empty sequence. *)
Theorem unionAll_concatenates (dataframes : list DataFrame) :
  Driver.unionAll dataframes =
  match dataframes with
  | [] => Py.raise Py.TypeError
  | _ :: _ => Py.ret (List.concat dataframes)
  end
  /\ forall out r,
       Py.result (Driver.unionAll dataframes) = Py.Returned out ->
       count_occ Row_eq_dec out r =
       list_sum (map (fun df => count_occ Row_eq_dec df r) dataframes).
Proof.
  assert (Heq : Driver.unionAll dataframes =
                match dataframes with
                | [] => Py.raise Py.TypeError
                | _ :: _ => Py.ret (List.concat dataframes)
                end).
  { destruct dataframes as [|d ds]; [reflexivity|].
    unfold Driver.unionAll, Driver.reduce. now rewrite fold_union_concat. }
  split; [exact Heq|].
  intros out r. rewrite Heq.
  destruct dataframes as [|d ds]; [discriminate|].
  cbn [Py.result Py.ret snd]. intros Hout. injection Hout as <-.
  apply (count_occ_concat (d :: ds) r).
Qed.

Lemma refits_script (ev : list Py.Event) :
  refits (map Driver.Script ev) = [].
Proof. induction ev as [|e ev IH]; [reflexivity|exact IH]. Qed.

Lemma saved_script (ev : list Py.Event) :
  saved (map Driver.Script ev) = [].
Proof. induction ev as [|e ev IH]; [reflexivity|exact IH]. Qed.

Lemma opened_script (ev : list Py.Event) :
  opened (map Driver.Script ev) = [].
Proof. induction ev as [|e ev IH]; [reflexivity|exact IH]. Qed.

Lemma written_script (ev : list Py.Event) :
  written (map Driver.Script ev) = [].
Proof. induction ev as [|e ev IH]; [reflexivity|exact IH]. Qed.

Section OneRun.
Variables (from_id to_id parquet model_path : string) (top : Z).
Variables (my_metrics : option string) (ranks : list Z) (regs : list Q).
Variables (data train val test : DataFrame).
Hypothesis Hsplit :
  Modeling.train_val_test_split data UserId = (train, val, test).

Let args := Driver.mkArgs from_id to_id parquet top my_metrics ranks regs
                          model_path.
Let tuned := Modeling.tuning_als (Some train) (Some val) (Some ranks)
                                 (Some regs) my_metrics top 5
                                 UserId BookId Rating.

(** The script body stops where the tuner raises. *)
Lemma main_tuning_raised (ev : list Py.Event) (e : Py.exn) :
  tuned = (ev, Py.Raised e) ->
  Driver.main args data = (announcements ++ map Driver.Script ev, Py.Raised e).
Proof.
  intros Ht. unfold Driver.main. rewrite Hsplit. cbv zeta.
  unfold args. cbn [Driver.top_k Driver.metrics Driver.rank_list
                    Driver.regParam_list].
  fold tuned. rewrite Ht. reflexivity.
Qed.

(** Subscripting the None the tuner returned is a TypeError. *)
Lemma main_tuning_none (ev : list Py.Event) :
  tuned = (ev, Py.Returned None) ->
  Driver.main args data =
  (announcements ++ map Driver.Script ev, Py.Raised Py.TypeError).
Proof.
  intros Ht. unfold Driver.main. rewrite Hsplit. cbv zeta.
  unfold args. cbn [Driver.top_k Driver.metrics Driver.rank_list
                    Driver.regParam_list].
  fold tuned. rewrite Ht. cbn. now rewrite app_nil_r.
Qed.

End OneRun.

Section CompletedRun.
Variables (from_id to_id parquet model_path name : string) (top : Z).
Variables (ranks : list Z) (regs : list Q).
Variables (data train val test : DataFrame).
Hypothesis Hsplit :
  Modeling.train_val_test_split data UserId = (train, val, test).
Hypothesis Hname : recognised name = true.
Hypothesis Hscored : name <> "meanAveragePrecision"%string.

Let args := Driver.mkArgs from_id to_id parquet top (Some name) ranks regs
                          model_path.

(** After a successful tuning the script body runs to its end. *)
Lemma main_tuning_some (ev : list Py.Event) (best : Modeling.BestParam)
      (table : Modeling.TuningTable) :
  Modeling.tuning_als (Some train) (Some val) (Some ranks) (Some regs)
                      (Some name) top 5 UserId BookId Rating
  = (ev, Py.Returned (Some (best, table))) ->
  Driver.main args data =
  (announcements ++ map Driver.Script ev
   ++ closing args train val test name best table,
   Py.Returned tt).
Proof.
  intros Ht. unfold Driver.main. rewrite Hsplit. cbv zeta.
  unfold args. cbn [Driver.top_k Driver.metrics Driver.rank_list
                    Driver.regParam_list Driver.path_of_model
                    Driver.parquet_path Driver.to_net_id].
  rewrite Ht.
  unfold closing, test_score, grid_score, val_pred_of, als_of, final_als.
  cbn [fst snd Driver.top_k Driver.metrics Driver.rank_list
       Driver.regParam_list Driver.path_of_model Driver.parquet_path
       Driver.to_net_id].
  unfold recognised in Hname.
  destruct (Modeling.member name Modeling.regression_names) eqn:Ereg;
    [reflexivity|].
  cbn [orb] in Hname. rewrite Hname.
  unfold Modeling.member, Modeling.ranking_names in Hname.
  cbn [existsb] in Hname. unfold Modeling.top_k_rankingmetrics.
  destruct (name =? "precisionAt")%string; [reflexivity|].
  destruct (name =? "meanAveragePrecision")%string eqn:Emap;
    [apply String.eqb_eq in Emap; contradiction|].
  destruct (name =? "ndcgAt")%string; [reflexivity|].
  discriminate Hname.
Qed.

End CompletedRun.

Lemma test_rows_outside_train_val (data train val test : DataFrame)
      (user : ColName) (r : Row) :
  Modeling.train_val_test_split data user = (train, val, test) ->
  In r test -> ~ In r (train ++ val).
Proof.
  rewrite train_val_test_split_eq. intros Heq. injection Heq as <- <- <-.
  intros Ht. rewrite !in_app_iff, !In_subtract.
  pose proof (In_held_out data user 2 r Ht) as Hg.
  intros [[[H0|[H1 _]]|[_ Hn]]|Hv].
  - pose proof (group_rows_user data user _ _ r Hg H0). discriminate.
  - pose proof (group_rows_user data user _ _ r Hg H1). discriminate.
  - contradiction.
  - exact (val_test_disjoint data user r Hv Ht).
Qed.

(** X20. Given a metric the evaluators score (rmse, mae, r2,
    precisionAt, ndcgAt) and non-empty candidate lists, the script body
    runs to its end: it refits once, with the rank and the
    regularisation of the configuration the tuner returned, on the
    training frame followed by the validation frame; it saves that model
    once under the models directory of the target user, and appends one
    history block with the tuner's table, the best rank and
    regularisation and the rounded score of the model on the test frame.
    No row of the test frame is among the rows the saved model was
    fitted on. *)
Theorem script_refits_best_on_train_and_val
        (args : Driver.Args) (data : DataFrame) (name : string) :
  Driver.metrics args = Some name ->
  recognised name = true ->
  name <> "meanAveragePrecision"%string ->
  Driver.rank_list args <> [] ->
  Driver.regParam_list args <> [] ->
  let '(train, val, test) := Modeling.train_val_test_split data UserId in
  let run := Driver.main args data in
  exists best table,
    Py.result (Modeling.tuning_als
                 (Some train) (Some val) (Some (Driver.rank_list args))
                 (Some (Driver.regParam_list args)) (Some name)
                 (Driver.top_k args) 5 UserId BookId Rating)
    = Py.Returned (Some (best, table))
    /\ snd run = Py.Returned tt
    /\ refits (fst run) = [(final_als best, train ++ val)]
    /\ saved (fst run) =
       [((("hdfs:///user/" ++ Driver.to_net_id args ++ "/goodreads/")
          ++ "models/" ++ Driver.path_of_model args)%string,
         als_fit (final_als best) (train ++ val))]
    /\ opened (fst run) =
       [(("/home/" ++ Driver.to_net_id args ++ "/goodreads/")
         ++ "history/" ++ "tuning_history.txt")%string]
    /\ written (fst run) =
       [Driver.mkHistory
          (Driver.path_of_model args) (Driver.parquet_path args)
          (Driver.rank_list args) (Driver.regParam_list args) table
          (Modeling.b_rank best) (Modeling.b_regParam best) (Some name)
          (Py.round (test_score train val test name (Driver.top_k args) best)
                    4)]
    /\ (forall r, In r test -> ~ In r (train ++ val)).
Proof.
  destruct args as [from_id to_id parquet top my_metrics ranks regs path].
  cbn [Driver.metrics Driver.rank_list Driver.regParam_list Driver.top_k
       Driver.to_net_id Driver.path_of_model Driver.parquet_path].
  intros -> Hrec Hmap Hr Hg.
  destruct (Modeling.train_val_test_split data UserId) as [[train val] test]
    eqn:Hsplit.
  destruct (tuning_als_recognised
              train val name top 5 UserId BookId Rating ranks regs Hrec Hmap
              (list_prod_nonempty _ _ Hr Hg))
    as (i & p & Hrun & _).
  cbv zeta.
  rewrite (main_tuning_some from_id to_id parquet path name top ranks regs
             data train val test Hsplit Hrec Hmap _ _ _ Hrun).
  eexists; eexists. rewrite Hrun. cbn [Py.result fst snd].
  split; [reflexivity|]. split; [reflexivity|].
  unfold refits, saved, opened, written. rewrite !flat_map_app.
  fold (refits (map Driver.Script
                    (flat_map (point_events name 5 UserId BookId Rating)
                              (Modeling.enumerate (list_prod ranks regs))))).
  fold (saved (map Driver.Script
                   (flat_map (point_events name 5 UserId BookId Rating)
                             (Modeling.enumerate (list_prod ranks regs))))).
  fold (opened (map Driver.Script
                    (flat_map (point_events name 5 UserId BookId Rating)
                              (Modeling.enumerate (list_prod ranks regs))))).
  fold (written (map Driver.Script
                     (flat_map (point_events name 5 UserId BookId Rating)
                               (Modeling.enumerate (list_prod ranks regs))))).
  rewrite refits_script, saved_script, opened_script, written_script.
  repeat split; try reflexivity.
  intros r. now apply (test_rows_outside_train_val data train val test UserId).
Qed.

(** X21. Without a metric, with a name that is not recognised, or with
    an empty list of ranks or of regularisations, the script body ends
    with an exception right after the tuner: it refits nothing, saves no
    model, and neither opens nor writes the history file. *)
Theorem script_stops_before_saving (args : Driver.Args) (data : DataFrame) :
  Driver.metrics args = None
  \/ (exists name, Driver.metrics args = Some name
                   /\ recognised name = false)
  \/ Driver.rank_list args = []
  \/ Driver.regParam_list args = [] ->
  let run := Driver.main args data in
  snd run = Py.Raised (script_failure args)
  /\ refits (fst run) = []
  /\ saved (fst run) = []
  /\ opened (fst run) = []
  /\ written (fst run) = [].
Proof.
  destruct args as [from_id to_id parquet top my_metrics ranks regs path].
  cbn [Driver.metrics Driver.rank_list Driver.regParam_list].
  intros Hwhy.
  destruct (Modeling.train_val_test_split data UserId) as [[train val] test]
    eqn:Hsplit.
  assert (Hshape : exists ev,
            Driver.main
              (Driver.mkArgs from_id to_id parquet top my_metrics ranks regs
                             path) data
            = (announcements ++ map Driver.Script ev,
               Py.Raised
                 (script_failure
                    (Driver.mkArgs from_id to_id parquet top my_metrics
                                   ranks regs path)))).
  { unfold script_failure.
    cbn [Driver.metrics Driver.rank_list Driver.regParam_list].
    destruct my_metrics as [name|].
    - destruct (list_prod ranks regs) as [|p ps] eqn:Hprod.
      + eexists.
        apply (main_tuning_raised from_id to_id parquet path top (Some name)
                 ranks regs data train val test Hsplit).
        now apply tuning_als_on_empty_grid.
      + assert (Hrec : recognised name = false).
        { destruct Hwhy as [Hn|[[m [Hm Hrec]]|[Hr|Hg]]].
          - discriminate.
          - now injection Hm as ->.
          - subst ranks. discriminate.
          - subst regs. rewrite list_prod_nil_r in Hprod. discriminate. }
        eexists.
        apply (main_tuning_raised from_id to_id parquet path top (Some name)
                 ranks regs data train val test Hsplit).
        rewrite (tuning_als_unrecognised train val name top 5
                   UserId BookId Rating ranks regs Hrec).
        rewrite Hprod. reflexivity.
    - eexists.
      apply (main_tuning_none from_id to_id parquet path top None
               ranks regs data train val test Hsplit).
      reflexivity. }
  destruct Hshape as [ev Hmain]. cbv zeta. rewrite Hmain. cbn [fst snd].
  split; [reflexivity|].
  unfold refits, saved, opened, written. rewrite !flat_map_app.
  fold (refits (map Driver.Script ev)). fold (saved (map Driver.Script ev)).
  fold (opened (map Driver.Script ev)). fold (written (map Driver.Script ev)).
  rewrite refits_script, saved_script, opened_script, written_script.
  repeat split; reflexivity.
Qed.

(** X22. Under "meanAveragePrecision" with non-empty candidate lists the
    script body ends with a TypeError inside the tuner: the first grid
    point is fitted and transformed, the evaluator's property is read and
    the call of it fails.  Nothing is refitted, no model is saved, and
    the history file is neither opened nor written. *)
Theorem script_fails_under_mean_average_precision
        (args : Driver.Args) (data : DataFrame) (r0 : Z) (ranks : list Z)
        (g0 : Q) (regs : list Q) :
  Driver.metrics args = Some "meanAveragePrecision"%string ->
  Driver.rank_list args = r0 :: ranks ->
  Driver.regParam_list args = g0 :: regs ->
  let run := Driver.main args data in
  run = (announcements
         ++ map Driver.Script
                [Py.Print (Py.StartConfiguration 1);
                 Py.Fit (Py.mkALS r0 5 g0 123 UserId BookId Rating);
                 Py.Transform;
                 Py.Evaluate "meanAveragePrecision"],
         Py.Raised Py.TypeError)
  /\ refits (fst run) = []
  /\ saved (fst run) = []
  /\ opened (fst run) = []
  /\ written (fst run) = [].
Proof.
  destruct args as [from_id to_id parquet top my_metrics ranks' regs' path].
  cbn [Driver.metrics Driver.rank_list Driver.regParam_list].
  intros -> -> ->.
  destruct (Modeling.train_val_test_split data UserId) as [[train val] test]
    eqn:Hsplit.
  cbv zeta.
  rewrite (main_tuning_raised
             from_id to_id parquet path top
             (Some "meanAveragePrecision"%string) (r0 :: ranks) (g0 :: regs)
             data train val test Hsplit
             [Py.Print (Py.StartConfiguration 1);
              Py.Fit (Py.mkALS r0 5 g0 123 UserId BookId Rating);
              Py.Transform;
              Py.Evaluate "meanAveragePrecision"]
             Py.TypeError).
  - repeat split; reflexivity.
  - rewrite (tuning_als_mean_average_precision
               train val "meanAveragePrecision" top 5 UserId BookId Rating
               (r0 :: ranks) (g0 :: regs) eq_refl).
    reflexivity.
Qed.

End ScriptFacts.

(* ================================================================== *)
(** * Worked runs of the further properties *)

Lemma frequent_users_shrink_with_threshold_witness :
  2 <= 3
  /\ incl (Downsampling.user_id_frequent ScriptScenario.three_users UserId 3)
          (Downsampling.user_id_frequent ScriptScenario.three_users UserId 2).
Proof.
  assert (Hle : 2 <= 3) by lia.
  split; [exact Hle|].
  exact (frequent_users_shrink_with_threshold
           ScriptScenario.three_users UserId 2 3 Hle).
Defined.

Lemma threshold_at_most_one_keeps_all_witness :
  (1 <= 1 /\ ScriptScenario.three_users <> [])
  /\ Py.result (Downsampling.get_frequent_user
                  ScriptScenario.three_users UserId 1)
     = Py.Returned (Spark.distinct_col UserId ScriptScenario.three_users).
Proof.
  assert (Hle : 1 <= 1) by lia.
  assert (Hne : ScriptScenario.three_users <> []) by discriminate.
  split; [split; assumption|].
  exact (threshold_at_most_one_keeps_all
           ScriptScenario.three_users UserId 1 Hle Hne).
Defined.

Lemma threshold_above_rows_keeps_none_witness :
  (Z.of_nat (List.length ScriptScenario.three_users) < 7
   /\ ScriptScenario.three_users <> [])
  /\ Py.result (Downsampling.get_frequent_user
                  ScriptScenario.three_users UserId 7)
     = Py.Returned [].
Proof.
  assert (Hlt : Z.of_nat (List.length ScriptScenario.three_users) < 7)
    by (vm_compute; reflexivity).
  assert (Hne : ScriptScenario.three_users <> []) by discriminate.
  split; [split; assumption|].
  exact (threshold_above_rows_keeps_none
           ScriptScenario.three_users UserId 7 Hlt Hne).
Defined.

Lemma downsampling_keeps_all_at_one_witness :
  (1 == 1)%Q
  /\ Py.result (@Downsampling.downsampling
                  Scenario.engine_075 ScriptScenario.three_users [1; 3]
                  UserId 1%Q)
     = Py.Returned (Spark.join_on UserId ScriptScenario.three_users [1; 3]).
Proof.
  assert (Hp : (1 == 1)%Q) by reflexivity.
  split; [exact Hp|].
  exact (@downsampling_keeps_all_at_one
           Scenario.engine_075 ScriptScenario.three_users [1; 3] UserId 1%Q
           Hp).
Defined.

Lemma downsampling_keeps_none_at_zero_witness :
  (0 == 0)%Q
  /\ @Downsampling.downsampling
       Scenario.engine_075 ScriptScenario.three_users [1; 3] UserId 0%Q
     = ([Py.Print (Py.Downsampled (0 * 100)%Q 0 0)], Py.Returned []).
Proof.
  assert (Hp : (0 == 0)%Q) by reflexivity.
  split; [exact Hp|].
  exact (@downsampling_keeps_none_at_zero
           Scenario.engine_075 ScriptScenario.three_users [1; 3] UserId 0%Q
           Hp).
Defined.

Lemma row_index_is_offset_in_partition_witness :
  (nth_error ScriptScenario.two_partitions 1
   = Some [Scenario.interaction 2 10 4; Scenario.interaction 2 12 5]
   /\ nth_error [Scenario.interaction 2 10 4; Scenario.interaction 2 12 5] 1
      = Some (Scenario.interaction 2 12 5)
   /\ Z.of_nat 1 < 2 ^ 31)
  /\ exists out_part,
       nth_error (Indexing.create_row_index ScriptScenario.two_partitions) 1
       = Some out_part
       /\ map fst out_part
          = [Scenario.interaction 2 10 4; Scenario.interaction 2 12 5]
       /\ nth_error out_part 1
          = Some (Scenario.interaction 2 12 5, Z.of_nat 1).
Proof.
  assert (H1 : nth_error ScriptScenario.two_partitions 1
               = Some [Scenario.interaction 2 10 4;
                       Scenario.interaction 2 12 5]) by reflexivity.
  assert (H2 : nth_error [Scenario.interaction 2 10 4;
                          Scenario.interaction 2 12 5] 1
               = Some (Scenario.interaction 2 12 5)) by reflexivity.
  assert (H3 : Z.of_nat 1 < 2 ^ 31) by (vm_compute; reflexivity).
  split; [repeat split; assumption|].
  exact (row_index_is_offset_in_partition
           ScriptScenario.two_partitions 1 1 _ _ H1 H2 H3).
Defined.

Lemma row_index_collides_across_partitions_witness :
  (nth_error ScriptScenario.two_partitions 0
   = Some [Scenario.interaction 1 10 5; Scenario.interaction 1 11 2]
   /\ nth_error ScriptScenario.two_partitions 1
      = Some [Scenario.interaction 2 10 4; Scenario.interaction 2 12 5]
   /\ nth_error [Scenario.interaction 1 10 5; Scenario.interaction 1 11 2] 0
      = Some (Scenario.interaction 1 10 5)
   /\ nth_error [Scenario.interaction 2 10 4; Scenario.interaction 2 12 5] 0
      = Some (Scenario.interaction 2 10 4))
  /\ exists out_p out_q index,
       nth_error (Indexing.create_row_index ScriptScenario.two_partitions) 0
       = Some out_p
       /\ nth_error (Indexing.create_row_index ScriptScenario.two_partitions) 1
          = Some out_q
       /\ nth_error out_p 0 = Some (Scenario.interaction 1 10 5, index)
       /\ nth_error out_q 0 = Some (Scenario.interaction 2 10 4, index).
Proof.
  assert (H1 : nth_error ScriptScenario.two_partitions 0
               = Some [Scenario.interaction 1 10 5;
                       Scenario.interaction 1 11 2]) by reflexivity.
  assert (H2 : nth_error ScriptScenario.two_partitions 1
               = Some [Scenario.interaction 2 10 4;
                       Scenario.interaction 2 12 5]) by reflexivity.
  assert (H3 : nth_error [Scenario.interaction 1 10 5;
                          Scenario.interaction 1 11 2] 0
               = Some (Scenario.interaction 1 10 5)) by reflexivity.
  assert (H4 : nth_error [Scenario.interaction 2 10 4;
                          Scenario.interaction 2 12 5] 0
               = Some (Scenario.interaction 2 10 4)) by reflexivity.
  split; [repeat split; assumption|].
  exact (row_index_collides_across_partitions
           ScriptScenario.two_partitions 0 1 0 _ _ _ _ H1 H2 H3 H4).
Defined.

Lemma tuning_als_empty_grid_fails_witness :
  (@nil Z = [] \/ [0.1%Q] = [])
  /\ @Modeling.tuning_als
       Scenario.rmse_engine (Some Scenario.two_rows) (Some Scenario.two_rows)
       (Some []) (Some [0.1%Q]) (Some "rmse"%string) 10 5
       UserId BookId Rating
     = ([], Py.Raised Py.ValueError).
Proof.
  assert (He : @nil Z = [] \/ [0.1%Q] = []) by (left; reflexivity).
  split; [exact He|].
  exact (@tuning_als_empty_grid_fails
           Scenario.rmse_engine Scenario.two_rows Scenario.two_rows
           [] [0.1%Q] "rmse"%string 10 5 UserId BookId Rating He).
Defined.

Lemma tuning_als_best_is_a_grid_point_witness :
  ([1; 2] <> [] /\ [0.1%Q; 0.2%Q] <> [] /\ recognised "mae" = true
   /\ "mae"%string <> "meanAveragePrecision"%string)
  /\ exists best table,
       Py.result
         (@Modeling.tuning_als
            Scenario.rmse_engine (Some Scenario.two_rows)
            (Some Scenario.two_rows) (Some [1; 2]) (Some [0.1%Q; 0.2%Q])
            (Some "mae"%string) 10 5 UserId BookId Rating)
       = Py.Returned (Some (best, table))
       /\ In (Modeling.b_rank best) [1; 2]
       /\ In (Modeling.b_regParam best) [0.1%Q; 0.2%Q].
Proof.
  assert (H1 : [1; 2] <> []) by discriminate.
  assert (H2 : [0.1%Q; 0.2%Q] <> []) by discriminate.
  assert (H3 : recognised "mae" = true) by reflexivity.
  assert (H4 : "mae"%string <> "meanAveragePrecision"%string)
    by discriminate.
  split; [repeat split; assumption|].
  destruct (@tuning_als_best_is_a_grid_point
              Scenario.rmse_engine Scenario.two_rows Scenario.two_rows
              [1; 2] [0.1%Q; 0.2%Q] "mae"%string 10 5 UserId BookId Rating
              H1 H2 H3 H4)
    as (best & table & Hres & Hr & Hg & _).
  exists best, table. repeat split; assumption.
Defined.

Lemma window_below_one_is_empty_witness :
  0 < 1
  /\ Modeling.user_items_prediction_df
       [mkPred (Scenario.interaction 1 10 5) 0.5] 0 UserId = []
  /\ Modeling.perUserItemsRDD
       [mkPred (Scenario.interaction 1 10 5) 0.5] 0 UserId BookId Rating = [].
Proof.
  assert (Hk : 0 < 1) by lia.
  split; [exact Hk|].
  exact (window_below_one_is_empty
           [mkPred (Scenario.interaction 1 10 5) 0.5] 0
           UserId BookId Rating Hk).
Defined.

Lemma window_above_rows_keeps_all_witness :
  Z.of_nat (List.length [mkPred (Scenario.interaction 1 10 5) 0.5;
                         mkPred (Scenario.interaction 1 20 3) 0.75]) <= 2
  /\ Permutation
       (Modeling.user_items_prediction_df
          [mkPred (Scenario.interaction 1 10 5) 0.5;
           mkPred (Scenario.interaction 1 20 3) 0.75] 2 UserId)
       [mkPred (Scenario.interaction 1 10 5) 0.5;
        mkPred (Scenario.interaction 1 20 3) 0.75].
Proof.
  assert (Hk : Z.of_nat
                 (List.length [mkPred (Scenario.interaction 1 10 5) 0.5;
                               mkPred (Scenario.interaction 1 20 3) 0.75])
               <= 2) by (vm_compute; discriminate).
  split; [exact Hk|].
  exact (window_above_rows_keeps_all _ 2 UserId Hk).
Defined.

Lemma ranking_pairs_one_per_user_witness :
  1 <= 1
  /\ List.length
       (Modeling.perUserItemsRDD
          [mkPred (Scenario.interaction 1 10 5) 0.5;
           mkPred (Scenario.interaction 2 20 3) 0.75;
           mkPred (Scenario.interaction 1 30 4) 0.25]
          1 UserId BookId Rating)
     = 2%nat.
Proof.
  assert (Hk : 1 <= 1) by lia.
  split; [exact Hk|].
  rewrite (ranking_pairs_one_per_user
             [mkPred (Scenario.interaction 1 10 5) 0.5;
              mkPred (Scenario.interaction 2 20 3) 0.75;
              mkPred (Scenario.interaction 1 30 4) 0.25]
             1 UserId BookId Rating Hk).
  reflexivity.
Defined.

Lemma script_refits_best_on_train_and_val_witness :
  (Driver.metrics (ScriptScenario.args (Some "rmse"%string) [1; 2])
   = Some "rmse"%string
   /\ recognised "rmse" = true
   /\ "rmse"%string <> "meanAveragePrecision"%string
   /\ Driver.rank_list (ScriptScenario.args (Some "rmse"%string) [1; 2]) <> []
   /\ Driver.regParam_list (ScriptScenario.args (Some "rmse"%string) [1; 2])
      <> [])
  /\ snd (@Driver.main ScriptScenario.engine
            (ScriptScenario.args (Some "rmse"%string) [1; 2])
            ScriptScenario.three_users)
     = Py.Returned tt.
Proof.
  assert (H1 : Driver.metrics (ScriptScenario.args (Some "rmse"%string) [1; 2])
               = Some "rmse"%string) by reflexivity.
  assert (H2 : recognised "rmse" = true) by reflexivity.
  assert (Hs : "rmse"%string <> "meanAveragePrecision"%string)
    by discriminate.
  assert (H3 : Driver.rank_list
                 (ScriptScenario.args (Some "rmse"%string) [1; 2]) <> [])
    by discriminate.
  assert (H4 : Driver.regParam_list
                 (ScriptScenario.args (Some "rmse"%string) [1; 2]) <> [])
    by discriminate.
  split; [repeat split; assumption|].
  pose proof (@script_refits_best_on_train_and_val
                ScriptScenario.engine
                (ScriptScenario.args (Some "rmse"%string) [1; 2])
                ScriptScenario.three_users "rmse"%string H1 H2 Hs H3 H4)
    as Hrun.
  destruct (@Modeling.train_val_test_split
              ScriptScenario.engine ScriptScenario.three_users UserId)
    as [[train val] test].
  destruct Hrun as (best & table & _ & Hend & _). exact Hend.
Defined.

Lemma script_stops_before_saving_witness :
  (Driver.metrics (ScriptScenario.args None [1; 2]) = None
   \/ (exists name,
         Driver.metrics (ScriptScenario.args None [1; 2]) = Some name
         /\ recognised name = false)
   \/ Driver.rank_list (ScriptScenario.args None [1; 2]) = []
   \/ Driver.regParam_list (ScriptScenario.args None [1; 2]) = [])
  /\ snd (@Driver.main Scenario.rmse_engine
            (ScriptScenario.args None [1; 2]) ScriptScenario.three_users)
     = Py.Raised Py.TypeError
  /\ saved (fst (@Driver.main Scenario.rmse_engine
                   (ScriptScenario.args None [1; 2])
                   ScriptScenario.three_users)) = [].
Proof.
  assert (Hwhy :
            Driver.metrics (ScriptScenario.args None [1; 2]) = None
            \/ (exists name,
                  Driver.metrics (ScriptScenario.args None [1; 2]) = Some name
                  /\ recognised name = false)
            \/ Driver.rank_list (ScriptScenario.args None [1; 2]) = []
            \/ Driver.regParam_list (ScriptScenario.args None [1; 2]) = [])
    by (left; reflexivity).
  split; [exact Hwhy|].
  destruct (@script_stops_before_saving
              Scenario.rmse_engine (ScriptScenario.args None [1; 2])
              ScriptScenario.three_users Hwhy)
    as (Hend & _ & Hsaved & _).
  split; [exact Hend | exact Hsaved].
Defined.

Lemma script_fails_under_mean_average_precision_witness :
  (Driver.metrics
     (ScriptScenario.args (Some "meanAveragePrecision"%string) [1; 2])
   = Some "meanAveragePrecision"%string
   /\ Driver.rank_list
        (ScriptScenario.args (Some "meanAveragePrecision"%string) [1; 2])
      = [1; 2]
   /\ Driver.regParam_list
        (ScriptScenario.args (Some "meanAveragePrecision"%string) [1; 2])
      = [0.1%Q])
  /\ snd (@Driver.main ScriptScenario.engine
            (ScriptScenario.args (Some "meanAveragePrecision"%string) [1; 2])
            ScriptScenario.three_users)
     = Py.Raised Py.TypeError
  /\ saved (fst (@Driver.main ScriptScenario.engine
                   (ScriptScenario.args
                      (Some "meanAveragePrecision"%string) [1; 2])
                   ScriptScenario.three_users)) = [].
Proof.
  assert (H1 : Driver.metrics
                 (ScriptScenario.args
                    (Some "meanAveragePrecision"%string) [1; 2])
               = Some "meanAveragePrecision"%string) by reflexivity.
  assert (H2 : Driver.rank_list
                 (ScriptScenario.args
                    (Some "meanAveragePrecision"%string) [1; 2])
               = [1; 2]) by reflexivity.
  assert (H3 : Driver.regParam_list
                 (ScriptScenario.args
                    (Some "meanAveragePrecision"%string) [1; 2])
               = [0.1%Q]) by reflexivity.
  split; [repeat split; assumption|].
  destruct (@script_fails_under_mean_average_precision
              ScriptScenario.engine
              (ScriptScenario.args (Some "meanAveragePrecision"%string) [1; 2])
              ScriptScenario.three_users 1 [2] 0.1%Q [] H1 H2 H3)
    as (Hrun & _ & Hsaved & _).
  split; [|exact Hsaved].
  rewrite Hrun. reflexivity.
Defined.

(** The script body on six rows of three users, one user per group,
    under rmse with two candidate ranks: rank 2 scores 0.9 against 1.2,
    is refitted on the four training rows and the validation row, and
    the history block records its score on the test row. *)
Lemma script_run :
  let run := @Driver.main ScriptScenario.engine
               (ScriptScenario.args (Some "rmse"%string) [1; 2])
               ScriptScenario.three_users in
  refits (fst run)
  = [(Py.mkALS 2 5 0.1 123 UserId BookId Rating,
      [Scenario.interaction 1 10 5; Scenario.interaction 1 11 2;
       Scenario.interaction 2 12 5; Scenario.interaction 3 12 1;
       Scenario.interaction 2 10 4])]
  /\ map Driver.h_best_rank (written (fst run)) = [2]
  /\ map Driver.h_test_result (written (fst run)) = [9000 # 10000]%Q.
Proof. cbv zeta. repeat split; vm_compute; reflexivity. Qed.
